(** * rosbag2 writer: compression options, topic registry, rollover, metadata

    A shallow embedding of the recording path of rosbag2:
    - [compression_options.cpp]: the mode <-> string conversions;
    - three iterations of [Writer] that the repository holds:
      [WriterPoC] (src/rosbag2/src/rosbag2/writer.cpp),
      [WriterAggregate] (the writer with [aggregate_metadata_] and
      [should_split_database]) and
      [WriterCompression] (the writer with [compression_options_],
      [compress_file] and [finalize_metadata]).

    The storage backend, converter, compressor and file system helper are
    external collaborators: every call to them is recorded in a trace of
    [Event]s carried by the state, and what they answer is read from an
    [Env] of oracles. *)

From Stdlib Require Import ZArith Lia Ascii String.
From stdpp Require Import gmap strings list fin_maps pretty.

Local Open Scope Z_scope.

(** ** Exceptions and the state-and-exception monad *)

(** The C++ code throws [std::runtime_error] with a message, and
    [std::unordered_map::at] throws [std::out_of_range]. Calling through an
    empty [unique_ptr] is undefined behaviour; the embedding stops there
    with [null_dereference], which no caller handles. *)
Inductive exn : Type :=
| runtime_error (what : string)
| out_of_range
| null_dereference.

#[global] Instance exn_eq_dec : EqDecision exn.
Proof. solve_decision. Defined.

(** A member function is a state transformer that either returns or throws;
    a throw keeps the state reached so far (nothing is rolled back). *)
Definition M (S A : Type) : Type := S -> (exn + A) * S.

Definition ret {S A} (a : A) : M S A := fun s => (inr a, s).
Definition throw {S A} (e : exn) : M S A := fun s => (inl e, s).
Definition bind {S A B} (m : M S A) (k : A -> M S B) : M S B :=
  fun s => match m s with
           | (inr a, s') => k a s'
           | (inl e, s') => (inl e, s')
           end.
Definition get {S} : M S S := fun s => (inr s, s).
Definition gets {S A} (f : S -> A) : M S A := fun s => (inr (f s), s).
Definition modify {S} (f : S -> S) : M S unit := fun s => (inr tt, f s).

Declare Scope cpp_scope.
Delimit Scope cpp_scope with cpp.
Notation "x <- m ;; k" := (bind m (fun x => k))
  (at level 100, m at next level, right associativity) : cpp_scope.
Notation "m ;;; k" := (bind m (fun _ => k))
  (at level 100, right associativity) : cpp_scope.

(** A range-based [for] loop over a container. *)
Fixpoint for_each {S A} (l : list A) (body : A -> M S unit) : M S unit :=
  match l with
  | [] => ret tt
  | x :: l' => bind (body x) (fun _ => for_each l' body)
  end.

(** The state a call leaves behind, and what it returned or threw. *)
Definition outcome {S A} (r : (exn + A) * S) : exn + A := fst r.
Definition after {S A} (r : (exn + A) * S) : S := snd r.

(** ** Unsigned 64-bit counters ([size_t], [uint64_t]) *)

Definition wrap64 (z : Z) : Z := z mod 2 ^ 64.
Definition incr64 (z : Z) : Z := wrap64 (z + 1).
Definition add64 (a b : Z) : Z := wrap64 (a + b).

(** ** Signed 64-bit values ([int64_t], the count of a
    [std::chrono::nanoseconds]) *)

(** The value of [z] in two's complement on 64 bits. *)
Definition wrap_int64 (z : Z) : Z := (z + 2 ^ 63) mod 2 ^ 64 - 2 ^ 63.
Definition add_int64 (a b : Z) : Z := wrap_int64 (a + b).
Definition sub_int64 (a b : Z) : Z := wrap_int64 (a - b).

(** The double-quote character, as the messages of the code print it. *)
Definition dquote : string := String "034"%char EmptyString.

(** ** compression_options.cpp *)

Module CompressionOptions.

Inductive CompressionMode : Type := NONE | FILE | MESSAGE.

#[global] Instance CompressionMode_eq_dec : EqDecision CompressionMode.
  Proof. solve_decision. Defined.

Definition COMPRESSION_MODE_NONE_STR : string := "NONE".
Definition COMPRESSION_MODE_FILE_STR : string := "FILE".
Definition COMPRESSION_MODE_MESSAGE_STR : string := "MESSAGE".

(** What [ROSBAG2_LOG_ERROR_STREAM] receives for an unsupported name. *)
Definition not_supported_message (compression_mode : string) : string :=
    "CompressionMode: " +:+ dquote +:+ compression_mode +:+ dquote
      +:+ " is not supported!".

(** [compression_mode_from_string]: the mode returned, paired with the lines
      written to the error log (first component). *)
Definition compression_mode_from_string (compression_mode : string)
    : list string * CompressionMode :=
    if String.eqb compression_mode EmptyString
       || String.eqb compression_mode COMPRESSION_MODE_NONE_STR
    then ([], NONE)
    else if String.eqb compression_mode COMPRESSION_MODE_FILE_STR
    then ([], FILE)
    else if String.eqb compression_mode COMPRESSION_MODE_MESSAGE_STR
    then ([], MESSAGE)
    else ([not_supported_message compression_mode], NONE).

(** [compression_mode_to_string]: the [default] branch of the switch is not
      reachable from the three enumerators and has no counterpart here. *)
Definition compression_mode_to_string (compression_mode : CompressionMode)
    : string :=
    match compression_mode with
    | NONE => COMPRESSION_MODE_NONE_STR
    | FILE => COMPRESSION_MODE_FILE_STR
    | MESSAGE => COMPRESSION_MODE_MESSAGE_STR
    end.

End CompressionOptions.

(** ** Data model (the structs of rosbag2_storage that the writer fills) *)

Module TopicMetadata.
Record t : Type := mk {
    name : string;
    type : string;
    serialization_format : string
  }.
#[global] Instance eq_dec : EqDecision t.
  Proof. solve_decision. Defined.
(** A value-initialised [TopicMetadata{}]. *)
Definition empty : t := mk EmptyString EmptyString EmptyString.
End TopicMetadata.

Module TopicInformation.
Record t : Type := mk {
    topic_metadata : TopicMetadata.t;
    message_count : Z
  }.
#[global] Instance eq_dec : EqDecision t.
  Proof. solve_decision. Defined.
(** A value-initialised [TopicInformation info{}]. *)
Definition empty : t := mk TopicMetadata.empty 0.
(** [++info.message_count] on a [size_t]. *)
Definition increment (info : t) : t :=
    mk (topic_metadata info) (incr64 (message_count info)).
End TopicInformation.

Module SerializedBagMessage.
Record t : Type := mk {
    serialized_data : string;
    time_stamp : Z;
    topic_name : string
  }.
#[global] Instance eq_dec : EqDecision t.
  Proof. solve_decision. Defined.
End SerializedBagMessage.

Module BagMetadata.
Record t : Type := mk {
    storage_identifier : string;
    relative_file_paths : list string;
    duration : Z;
    starting_time : Z;
    message_count : Z;
    topics_with_message_count : list TopicInformation.t;
    bag_size : Z;
    compression_format : string;
    compression_mode : string
  }.
#[global] Instance eq_dec : EqDecision t.
  Proof. solve_decision. Defined.
(** A value-initialised [BagMetadata{}]. *)
Definition empty : t :=
    mk EmptyString [] 0 0 0 [] 0 EmptyString EmptyString.

Definition with_storage_identifier (v : string) (m : t) : t :=
    mk v (relative_file_paths m) (duration m) (starting_time m)
       (message_count m) (topics_with_message_count m) (bag_size m)
       (compression_format m) (compression_mode m).
Definition with_relative_file_paths (v : list string) (m : t) : t :=
    mk (storage_identifier m) v (duration m) (starting_time m)
       (message_count m) (topics_with_message_count m) (bag_size m)
       (compression_format m) (compression_mode m).
Definition with_duration (v : Z) (m : t) : t :=
    mk (storage_identifier m) (relative_file_paths m) v (starting_time m)
       (message_count m) (topics_with_message_count m) (bag_size m)
       (compression_format m) (compression_mode m).
Definition with_starting_time (v : Z) (m : t) : t :=
    mk (storage_identifier m) (relative_file_paths m) (duration m) v
       (message_count m) (topics_with_message_count m) (bag_size m)
       (compression_format m) (compression_mode m).
Definition with_message_count (v : Z) (m : t) : t :=
    mk (storage_identifier m) (relative_file_paths m) (duration m)
       (starting_time m) v (topics_with_message_count m) (bag_size m)
       (compression_format m) (compression_mode m).
Definition with_topics_with_message_count (v : list TopicInformation.t)
    (m : t) : t :=
    mk (storage_identifier m) (relative_file_paths m) (duration m)
       (starting_time m) (message_count m) v (bag_size m)
       (compression_format m) (compression_mode m).
Definition with_bag_size (v : Z) (m : t) : t :=
    mk (storage_identifier m) (relative_file_paths m) (duration m)
       (starting_time m) (message_count m) (topics_with_message_count m) v
       (compression_format m) (compression_mode m).
Definition with_compression_format (v : string) (m : t) : t :=
    mk (storage_identifier m) (relative_file_paths m) (duration m)
       (starting_time m) (message_count m) (topics_with_message_count m)
       (bag_size m) v (compression_mode m).
Definition with_compression_mode (v : string) (m : t) : t :=
    mk (storage_identifier m) (relative_file_paths m) (duration m)
       (starting_time m) (message_count m) (topics_with_message_count m)
       (bag_size m) (compression_format m) v.

(** The sum of the per-topic counts that a metadata lists. *)
Definition sum_topic_counts (m : t) : Z :=
    foldr (fun info acc => TopicInformation.message_count info + acc) 0
          (topics_with_message_count m).
End BagMetadata.

Definition INT64_MAX : Z := 2 ^ 63 - 1.
Definition INT64_MIN : Z := - 2 ^ 63.

(** ** Collaborators: handles, calls, oracles *)

(** An open storage handle, as far as the writer can tell handles apart:
    the file it writes and the identifier of its backend. *)
Module Storage.
Record t : Type := mk {
    relative_path : string;
    storage_identifier : string
  }.
#[global] Instance eq_dec : EqDecision t.
  Proof. solve_decision. Defined.
End Storage.

(** The calls the writer makes to its collaborators. The state carries the
    list of the calls made so far, oldest first. *)
Inductive Event : Type :=
| ev_open_read_write (uri storage_id : string)
| ev_create_topic (file : string) (topic : TopicMetadata.t)
| ev_remove_topic (file : string) (topic : TopicMetadata.t)
| ev_write (file : string) (message : SerializedBagMessage.t)
| ev_get_bagfile_size (file : string)
| ev_get_metadata (file : string)
| ev_split_database (file : string)
| ev_converter_add_topic (name type : string)
| ev_convert (message : SerializedBagMessage.t)
| ev_compress_uri (uri : string)
| ev_compress_bag_message_data (message : SerializedBagMessage.t)
| ev_std_remove (path : string)
| ev_write_metadata (directory : string) (metadata : BagMetadata.t).

#[global] Instance Event_eq_dec : EqDecision Event.
Proof. solve_decision. Defined.

Definition is_ev_write (e : Event) : bool :=
  match e with ev_write _ _ => true | _ => false end.
Definition is_ev_open_read_write (e : Event) : bool :=
  match e with ev_open_read_write _ _ => true | _ => false end.
Definition is_ev_split_database (e : Event) : bool :=
  match e with ev_split_database _ => true | _ => false end.
Definition is_ev_get_bagfile_size (e : Event) : bool :=
  match e with ev_get_bagfile_size _ => true | _ => false end.

(** What [Compressor::compress_uri] of writer.cpp returns. *)
Module CompressionState.
Record t : Type := mk {
    compression_success : bool;
    compressed_uri : string
  }.
End CompressionState.

(** What the collaborators answer. None of them is under src/: each is a
    parameter of the embedding. Answers that change while a session runs
    (the size of the active file, the metadata a backend reports) depend on
    the calls made so far. *)
Record Env : Type := {
(** [StorageFactoryInterface::open_read_write]: [None] is the null handle. *)
  factory_open_read_write : string -> string -> option Storage.t;
(** [StorageFactoryInterface::get_current_uri] (writer.cpp). *)
  factory_get_current_uri : list Event -> string;
(** [get_bagfile_size] / [get_current_bagfile_size] of a handle. *)
  storage_get_bagfile_size : list Event -> Storage.t -> Z;
(** [get_metadata] of a handle. *)
  storage_get_metadata : list Event -> Storage.t -> BagMetadata.t;
(** [Converter::convert]. *)
  converter_convert :
    SerializedBagMessage.t -> SerializedBagMessage.t;
(** [Compressor::compress_uri] of writer.cpp. *)
  compressor_compress_uri_state : string -> CompressionState.t;
(** [CompressorPoC::compress_uri]: the compressed path, or a throw. *)
  compressor_compress_uri : string -> exn + string;
(** [CompressorPoC::compress_bag_message_data]. *)
  compressor_compress_bag_message_data :
    SerializedBagMessage.t -> SerializedBagMessage.t;
(** [CompressorPoC::get_compression_identifier]. *)
  compressor_get_compression_identifier : string;
(** [FilesystemHelper]. *)
  fs_get_folder_name : string -> string;
  fs_concat : list string -> string;
  fs_get_file_size : string -> Z;
  fs_calculate_directory_size : string -> Z;
(** [storage_interfaces::MAX_BAGFILE_SIZE_NO_SPLIT]. *)
  MAX_BAGFILE_SIZE_NO_SPLIT : Z;
(** The call operator that [std::find_if] applies when it is handed a
    [TopicInformation] as its predicate: [topic_information_call p x] is
    [p(x)]. *)
  topic_information_call :
    TopicInformation.t -> TopicInformation.t -> bool
}.

(** The messages of the [std::runtime_error]s the writers throw. *)
Definition not_open_writing : string :=
  "Bag is not open. Call open() before writing.".
Definition not_open_removing : string :=
  "Bag is not open. Call open() before removing.".
Definition no_storage : string :=
  "No storage could be initialized. Abort".
Definition failed_to_insert (topic : string) : string :=
  "Failed to insert topic " +:+ dquote +:+ topic +:+ dquote +:+ "!".
Definition failed_to_remove (topic : string) : string :=
  "Failed to remove the non-existing topic " +:+ dquote +:+ topic
    +:+ dquote +:+ "!".
Definition failed_to_rollover (uri : string) : string :=
  "Failed to rollover bagfile to new file: " +:+ dquote +:+ uri
    +:+ dquote +:+ "!".

(** The errors of the specification, as the code raises them. *)
Definition SessionNotOpenError (e : exn) : Prop :=
  e = runtime_error not_open_writing \/ e = runtime_error not_open_removing.
Definition UnknownTopicError (topic : string) (e : exn) : Prop :=
  e = out_of_range \/ e = runtime_error (failed_to_remove topic).

(** ** The writer with compression options (src/unnamed/part_000) *)

Module WriterCompression.
Import CompressionOptions.
Local Open Scope cpp_scope.

(** [CompressionOptions]: the format name and the mode. *)
Record Options : Type := mkOptions {
  compression_format : string;
  mode : CompressionMode
}.

Record Writer : Type := mk {
  storage_ : option Storage.t;
  converter_ : bool;
  max_bagfile_size_ : Z;
  base_folder_ : string;
  topics_names_to_info_ : gmap string TopicInformation.t;
  metadata_ : BagMetadata.t;
  compression_options_ : Options;
  (** not a member: the calls made to the collaborators so far *)
  world : list Event
}.

Definition with_storage_ (v : option Storage.t) (w : Writer) : Writer :=
  mk v (converter_ w) (max_bagfile_size_ w) (base_folder_ w)
     (topics_names_to_info_ w) (metadata_ w) (compression_options_ w)
     (world w).
Definition with_converter_ (v : bool) (w : Writer) : Writer :=
  mk (storage_ w) v (max_bagfile_size_ w) (base_folder_ w)
     (topics_names_to_info_ w) (metadata_ w) (compression_options_ w)
     (world w).
Definition with_max_bagfile_size_ (v : Z) (w : Writer) : Writer :=
  mk (storage_ w) (converter_ w) v (base_folder_ w)
     (topics_names_to_info_ w) (metadata_ w) (compression_options_ w)
     (world w).
Definition with_base_folder_ (v : string) (w : Writer) : Writer :=
  mk (storage_ w) (converter_ w) (max_bagfile_size_ w) v
     (topics_names_to_info_ w) (metadata_ w) (compression_options_ w)
     (world w).
Definition with_topics_names_to_info_ (v : gmap string TopicInformation.t)
  (w : Writer) : Writer :=
  mk (storage_ w) (converter_ w) (max_bagfile_size_ w) (base_folder_ w)
     v (metadata_ w) (compression_options_ w) (world w).
Definition with_metadata_ (v : BagMetadata.t) (w : Writer) : Writer :=
  mk (storage_ w) (converter_ w) (max_bagfile_size_ w) (base_folder_ w)
     (topics_names_to_info_ w) v (compression_options_ w) (world w).
Definition with_compression_options_ (v : Options) (w : Writer) : Writer :=
  mk (storage_ w) (converter_ w) (max_bagfile_size_ w) (base_folder_ w)
     (topics_names_to_info_ w) (metadata_ w) v (world w).
Definition with_world (v : list Event) (w : Writer) : Writer :=
  mk (storage_ w) (converter_ w) (max_bagfile_size_ w) (base_folder_ w)
     (topics_names_to_info_ w) (metadata_ w) (compression_options_ w) v.

(** The writer as its constructor leaves it. *)
Definition Writer_new (env : Env) : Writer :=
  mk None false (MAX_BAGFILE_SIZE_NO_SPLIT env) EmptyString ∅
     BagMetadata.empty (mkOptions EmptyString NONE) [].

(** A call to a collaborator: append it to the trace. *)
Definition emit (e : Event) : M Writer unit :=
  modify (fun w => with_world (world w ++ [e]) w).

(** [storage_->...]: the handle behind the pointer. *)
Definition deref_storage : M Writer Storage.t :=
  fun w => match storage_ w with
           | Some st => (inr st, w)
           | None => (inl null_dereference, w)
           end.

Definition update_metadata (f : BagMetadata.t -> BagMetadata.t)
  : M Writer unit :=
  modify (fun w => with_metadata_ (f (metadata_ w)) w).

Definition push_back_relative_file_path (path : string) : M Writer unit :=
  update_metadata (fun m =>
    BagMetadata.with_relative_file_paths
      (BagMetadata.relative_file_paths m ++ [path]) m).

Section WithEnv.
Context (env : Env).

(** [format_storage_uri(base_folder, storage_count)] *)
Definition format_storage_uri (base_folder : string) (storage_count : Z)
  : string :=
  let storage_file_name :=
    fs_get_folder_name env base_folder
      +:+ (if 0 <? storage_count
           then "_" +:+ pretty storage_count else EmptyString) in
  fs_concat env [base_folder; storage_file_name].

(** [Writer::init_metadata] *)
Definition init_metadata : M Writer unit :=
  st <- deref_storage ;;
  modify (with_metadata_
    (BagMetadata.with_starting_time INT64_MAX
      (BagMetadata.with_storage_identifier (Storage.storage_identifier st)
        BagMetadata.empty))).

(** [Writer::open(storage_options, converter_options)]: the storage options
    are (uri, storage_id, max_bagfile_size), the converter options the two
    serialization formats. *)
Definition open2 (uri storage_id : string) (max_bagfile_size : Z)
  (input_serialization_format output_serialization_format : string)
  : M Writer unit :=
  modify (with_max_bagfile_size_ max_bagfile_size) ;;;
  modify (with_base_folder_ uri) ;;;
  (if bool_decide (output_serialization_format
                   ≠ input_serialization_format)
   then modify (with_converter_ true) else ret tt) ;;;
  base_folder <- gets base_folder_ ;;
  let storage_uri := format_storage_uri base_folder 0 in
  emit (ev_open_read_write storage_uri storage_id) ;;;
  modify (with_storage_
            (factory_open_read_write env storage_uri storage_id)) ;;;
  st <- gets storage_ ;;
  match st with
  | None => throw (runtime_error no_storage)
  | Some _ => init_metadata
  end.

(** [Writer::open(storage_options, converter_options, compression_options)] *)
Definition open (uri storage_id : string) (max_bagfile_size : Z)
  (input_serialization_format output_serialization_format : string)
  (compression_options : Options) : M Writer unit :=
  modify (with_compression_options_ compression_options) ;;;
  open2 uri storage_id max_bagfile_size
        input_serialization_format output_serialization_format.

(** [topics_names_to_info_.insert(std::make_pair(name, info))]: the map with
    the pair added if the key was free, and whether it was added. *)
Definition map_insert (k : string) (v : TopicInformation.t)
  (m : gmap string TopicInformation.t)
  : gmap string TopicInformation.t * bool :=
  match m !! k with
  | Some _ => (m, false)
  | None => (<[k := v]> m, true)
  end.

(** [Writer::create_topic] *)
Definition create_topic (topic_with_type : TopicMetadata.t)
  : M Writer unit :=
  st <- gets storage_ ;;
  match st with
  | None => throw (runtime_error not_open_writing)
  | Some _ =>
    conv <- gets converter_ ;;
    (if conv
     then emit (ev_converter_add_topic
                  (TopicMetadata.name topic_with_type)
                  (TopicMetadata.type topic_with_type))
     else ret tt) ;;;
    topics <- gets topics_names_to_info_ ;;
    match topics !! TopicMetadata.name topic_with_type with
    | Some _ => ret tt
    | None =>
      let info := TopicInformation.mk topic_with_type 0 in
      let insert_res :=
        map_insert (TopicMetadata.name topic_with_type) info topics in
      modify (with_topics_names_to_info_ (fst insert_res)) ;;;
      if negb (snd insert_res)
      then throw (runtime_error
                    (failed_to_insert (TopicMetadata.name topic_with_type)))
      else
        st <- deref_storage ;;
        emit (ev_create_topic (Storage.relative_path st) topic_with_type)
    end
  end.

(** [Writer::remove_topic]: [erase] returns the number of entries removed. *)
Definition remove_topic (topic_with_type : TopicMetadata.t)
  : M Writer unit :=
  st <- gets storage_ ;;
  match st with
  | None => throw (runtime_error not_open_removing)
  | Some _ =>
    topics <- gets topics_names_to_info_ ;;
    let erased :=
      match topics !! TopicMetadata.name topic_with_type with
      | Some _ => 1
      | None => 0
      end in
    modify (with_topics_names_to_info_
              (delete (TopicMetadata.name topic_with_type) topics)) ;;;
    if 0 <? erased
    then st <- deref_storage ;;
         emit (ev_remove_topic (Storage.relative_path st) topic_with_type)
    else throw (runtime_error
                  (failed_to_remove (TopicMetadata.name topic_with_type)))
  end.

(** [Writer::compress_file] *)
Definition compress_file (uri_to_compress : string) : M Writer unit :=
  emit (ev_compress_uri uri_to_compress) ;;;
  match compressor_compress_uri env uri_to_compress with
  | inl e => throw e
  | inr compressed_uri =>
    push_back_relative_file_path compressed_uri ;;;
    emit (ev_std_remove uri_to_compress)
  end.

(** [Writer::split_bagfile] *)
Definition split_bagfile : M Writer unit :=
  st <- deref_storage ;;
  let current_uri := Storage.relative_path st in
  w <- get ;;
  let storage_uri_rollover :=
    format_storage_uri (base_folder_ w)
      (Z.of_nat (length (BagMetadata.relative_file_paths (metadata_ w)))) in
  let storage_id := BagMetadata.storage_identifier (metadata_ w) in
  emit (ev_open_read_write storage_uri_rollover storage_id) ;;;
  modify (with_storage_
            (factory_open_read_write env storage_uri_rollover storage_id)) ;;;
  st' <- gets storage_ ;;
  match st' with
  | None => throw (runtime_error (failed_to_rollover storage_uri_rollover))
  | Some new_storage =>
    topics <- gets topics_names_to_info_ ;;
    for_each (map_to_list topics) (fun topic =>
      emit (ev_create_topic (Storage.relative_path new_storage)
              (TopicInformation.topic_metadata (snd topic)))) ;;;
    m <- gets (fun w => mode (compression_options_ w)) ;;
    if bool_decide (m = FILE)
    then compress_file current_uri
    else push_back_relative_file_path current_uri
  end.

(** [Writer::should_split_bagfile]: the configured [max_bagfile_size_] is
    not read; the comparison is against the literal [1024 * 100]. *)
Definition should_split_bagfile : M Writer bool :=
  st <- deref_storage ;;
  w <- get ;;
  emit (ev_get_bagfile_size (Storage.relative_path st)) ;;;
  ret (1024 * 100 <? storage_get_bagfile_size env (world w) st).

(** [Writer::write]; [message_timestamp - metadata_.starting_time] is a
    subtraction of 64-bit signed nanosecond counts. *)
Definition write (message : SerializedBagMessage.t) : M Writer unit :=
  st <- gets storage_ ;;
  match st with
  | None => throw (runtime_error not_open_writing)
  | Some _ =>
    topics <- gets topics_names_to_info_ ;;
    match topics !! SerializedBagMessage.topic_name message with
    | None => throw out_of_range
    | Some info =>
      modify (with_topics_names_to_info_
                (<[SerializedBagMessage.topic_name message
                   := TopicInformation.increment info]> topics)) ;;;
      split <- should_split_bagfile ;;
      (if split then split_bagfile else ret tt) ;;;
      let message_timestamp := SerializedBagMessage.time_stamp message in
      update_metadata (fun m =>
        BagMetadata.with_starting_time
          (Z.min (BagMetadata.starting_time m) message_timestamp) m) ;;;
      update_metadata (fun m =>
        let duration :=
          sub_int64 message_timestamp (BagMetadata.starting_time m) in
        BagMetadata.with_duration
          (Z.max (BagMetadata.duration m) duration) m) ;;;
      conv <- gets converter_ ;;
      converted_message <-
        (if conv
         then emit (ev_convert message) ;;;
              ret (converter_convert env message)
         else ret message) ;;
      m <- gets (fun w => mode (compression_options_ w)) ;;
      if bool_decide (m = MESSAGE)
      then
        emit (ev_compress_bag_message_data converted_message) ;;;
        let compressed_message :=
          compressor_compress_bag_message_data env converted_message in
        st <- deref_storage ;;
        emit (ev_write (Storage.relative_path st) compressed_message)
      else
        st <- deref_storage ;;
        emit (ev_write (Storage.relative_path st) converted_message)
    end
  end.

(** [Writer::finalize_metadata]; [CompressionModeToStringMap.at(mode)] is
    read as [compression_mode_to_string]. *)
Definition finalize_metadata : M Writer unit :=
  update_metadata (BagMetadata.with_bag_size 0) ;;;
  paths <- gets (fun w => BagMetadata.relative_file_paths (metadata_ w)) ;;
  for_each paths (fun path =>
    update_metadata (fun m =>
      BagMetadata.with_bag_size
        (add64 (BagMetadata.bag_size m) (fs_get_file_size env path)) m)) ;;;
  update_metadata (BagMetadata.with_topics_with_message_count []) ;;;
  update_metadata (BagMetadata.with_message_count 0) ;;;
  topics <- gets topics_names_to_info_ ;;
  for_each (map_to_list topics) (fun topic =>
    update_metadata (fun m =>
      BagMetadata.with_topics_with_message_count
        (BagMetadata.topics_with_message_count m ++ [snd topic]) m) ;;;
    update_metadata (fun m =>
      BagMetadata.with_message_count
        (add64 (BagMetadata.message_count m)
               (TopicInformation.message_count (snd topic))) m)) ;;;
  update_metadata
    (BagMetadata.with_compression_format
       (compressor_get_compression_identifier env)) ;;;
  m <- gets (fun w => mode (compression_options_ w)) ;;
  update_metadata
    (BagMetadata.with_compression_mode (compression_mode_to_string m)).

(** [Writer::~Writer] *)
Definition destroy : M Writer unit :=
  st <- deref_storage ;;
  let current_uri := Storage.relative_path st in
  m <- gets (fun w => mode (compression_options_ w)) ;;
  (if bool_decide (m = FILE)
   then compress_file current_uri
   else push_back_relative_file_path current_uri) ;;;
  base_folder <- gets base_folder_ ;;
  (if bool_decide (base_folder ≠ EmptyString)
   then finalize_metadata ;;;
        md <- gets metadata_ ;;
        emit (ev_write_metadata base_folder md)
   else ret tt) ;;;
  modify (with_storage_ None).

End WithEnv.
End WriterCompression.

(** ** The proof-of-concept writer (src/rosbag2/src/rosbag2/writer.cpp) *)

Module WriterPoC.
Local Open Scope cpp_scope.

Record Writer : Type := mk {
  storage_ : option Storage.t;
  converter_ : bool;
  max_bagfile_size_ : Z;
  relative_file_paths_ : list string;
  message_count_ : Z;
  topics_ : gmap string TopicInformation.t;
  bagfile_counter_ : Z;
  start_time_ : Z;
  end_time_ : Z;
  storage_id_ : string;
  uri_ : string;
  (** not a member: the calls made to the collaborators so far *)
  world : list Event
}.

Definition with_storage_ (v : option Storage.t) (w : Writer) : Writer :=
  mk v (converter_ w) (max_bagfile_size_ w) (relative_file_paths_ w)
     (message_count_ w) (topics_ w) (bagfile_counter_ w) (start_time_ w)
     (end_time_ w) (storage_id_ w) (uri_ w) (world w).
Definition with_converter_ (v : bool) (w : Writer) : Writer :=
  mk (storage_ w) v (max_bagfile_size_ w) (relative_file_paths_ w)
     (message_count_ w) (topics_ w) (bagfile_counter_ w) (start_time_ w)
     (end_time_ w) (storage_id_ w) (uri_ w) (world w).
Definition with_max_bagfile_size_ (v : Z) (w : Writer) : Writer :=
  mk (storage_ w) (converter_ w) v (relative_file_paths_ w)
     (message_count_ w) (topics_ w) (bagfile_counter_ w) (start_time_ w)
     (end_time_ w) (storage_id_ w) (uri_ w) (world w).
Definition with_relative_file_paths_ (v : list string) (w : Writer)
  : Writer :=
  mk (storage_ w) (converter_ w) (max_bagfile_size_ w) v
     (message_count_ w) (topics_ w) (bagfile_counter_ w) (start_time_ w)
     (end_time_ w) (storage_id_ w) (uri_ w) (world w).
Definition with_message_count_ (v : Z) (w : Writer) : Writer :=
  mk (storage_ w) (converter_ w) (max_bagfile_size_ w)
     (relative_file_paths_ w) v (topics_ w) (bagfile_counter_ w)
     (start_time_ w) (end_time_ w) (storage_id_ w) (uri_ w) (world w).
Definition with_topics_ (v : gmap string TopicInformation.t) (w : Writer)
  : Writer :=
  mk (storage_ w) (converter_ w) (max_bagfile_size_ w)
     (relative_file_paths_ w) (message_count_ w) v (bagfile_counter_ w)
     (start_time_ w) (end_time_ w) (storage_id_ w) (uri_ w) (world w).
Definition with_bagfile_counter_ (v : Z) (w : Writer) : Writer :=
  mk (storage_ w) (converter_ w) (max_bagfile_size_ w)
     (relative_file_paths_ w) (message_count_ w) (topics_ w) v
     (start_time_ w) (end_time_ w) (storage_id_ w) (uri_ w) (world w).
Definition with_start_time_ (v : Z) (w : Writer) : Writer :=
  mk (storage_ w) (converter_ w) (max_bagfile_size_ w)
     (relative_file_paths_ w) (message_count_ w) (topics_ w)
     (bagfile_counter_ w) v (end_time_ w) (storage_id_ w) (uri_ w)
     (world w).
Definition with_end_time_ (v : Z) (w : Writer) : Writer :=
  mk (storage_ w) (converter_ w) (max_bagfile_size_ w)
     (relative_file_paths_ w) (message_count_ w) (topics_ w)
     (bagfile_counter_ w) (start_time_ w) v (storage_id_ w) (uri_ w)
     (world w).
Definition with_storage_id_ (v : string) (w : Writer) : Writer :=
  mk (storage_ w) (converter_ w) (max_bagfile_size_ w)
     (relative_file_paths_ w) (message_count_ w) (topics_ w)
     (bagfile_counter_ w) (start_time_ w) (end_time_ w) v (uri_ w)
     (world w).
Definition with_uri_ (v : string) (w : Writer) : Writer :=
  mk (storage_ w) (converter_ w) (max_bagfile_size_ w)
     (relative_file_paths_ w) (message_count_ w) (topics_ w)
     (bagfile_counter_ w) (start_time_ w) (end_time_ w) (storage_id_ w) v
     (world w).
Definition with_world (v : list Event) (w : Writer) : Writer :=
  mk (storage_ w) (converter_ w) (max_bagfile_size_ w)
     (relative_file_paths_ w) (message_count_ w) (topics_ w)
     (bagfile_counter_ w) (start_time_ w) (end_time_ w) (storage_id_ w)
     (uri_ w) v.

(** The writer as its constructor leaves it. *)
Definition Writer_new (env : Env) : Writer :=
  mk None false (MAX_BAGFILE_SIZE_NO_SPLIT env) [] 0 ∅ 0
     INT64_MAX INT64_MIN EmptyString EmptyString [].

Definition emit (e : Event) : M Writer unit :=
  modify (fun w => with_world (world w ++ [e]) w).

Definition deref_storage : M Writer Storage.t :=
  fun w => match storage_ w with
           | Some st => (inr st, w)
           | None => (inl null_dereference, w)
           end.

Section WithEnv.
Context (env : Env).

(** [Writer::next_bagfile_uri_] *)
Definition next_bagfile_uri_ : M Writer string :=
  w <- get ;;
  let db_name :=
    fs_get_folder_name env (uri_ w)
      +:+ (if 0 <? bagfile_counter_ w
           then "_" +:+ pretty (bagfile_counter_ w) else EmptyString) in
  modify (fun w => with_bagfile_counter_ (incr64 (bagfile_counter_ w)) w) ;;;
  ret (fs_concat env [uri_ w; db_name]).

(** [Writer::open] *)
Definition open (uri storage_id : string) (max_bagfile_size : Z)
  (input_serialization_format output_serialization_format : string)
  : M Writer unit :=
  modify (with_uri_ uri) ;;;
  modify (with_max_bagfile_size_ max_bagfile_size) ;;;
  modify (with_storage_id_ storage_id) ;;;
  (if bool_decide (output_serialization_format
                   ≠ input_serialization_format)
   then modify (with_converter_ true) else ret tt) ;;;
  bagfile_uri <- next_bagfile_uri_ ;;
  emit (ev_open_read_write bagfile_uri storage_id) ;;;
  modify (with_storage_
            (factory_open_read_write env bagfile_uri storage_id)) ;;;
  st <- gets storage_ ;;
  match st with
  | None => throw (runtime_error no_storage)
  | Some _ =>
    modify (with_start_time_ INT64_MAX) ;;;
    modify (with_end_time_ INT64_MIN)
  end.

(** [Writer::create_topic]: [topics_.insert] keeps an entry that is already
    there. *)
Definition create_topic (topic_with_type : TopicMetadata.t)
  : M Writer unit :=
  st <- gets storage_ ;;
  match st with
  | None => throw (runtime_error not_open_writing)
  | Some _ =>
    conv <- gets converter_ ;;
    (if conv
     then emit (ev_converter_add_topic
                  (TopicMetadata.name topic_with_type)
                  (TopicMetadata.type topic_with_type))
     else ret tt) ;;;
    let info := TopicInformation.mk topic_with_type 0 in
    modify (fun w =>
      with_topics_
        (match topics_ w !! TopicMetadata.name topic_with_type with
         | Some _ => topics_ w
         | None => <[TopicMetadata.name topic_with_type := info]> (topics_ w)
         end) w) ;;;
    st <- deref_storage ;;
    emit (ev_create_topic (Storage.relative_path st) topic_with_type)
  end.

(** [Writer::remove_topic] *)
Definition remove_topic (topic_with_type : TopicMetadata.t)
  : M Writer unit :=
  st <- gets storage_ ;;
  match st with
  | None => throw (runtime_error not_open_removing)
  | Some _ =>
    st <- deref_storage ;;
    emit (ev_remove_topic (Storage.relative_path st) topic_with_type) ;;;
    modify (fun w =>
      with_topics_ (delete (TopicMetadata.name topic_with_type) (topics_ w)) w)
  end.

(** [Writer::split_bagfile_] *)
Definition split_bagfile_ : M Writer unit :=
  w <- get ;;
  let current_uri := factory_get_current_uri env (world w) in
  bagfile_uri <- next_bagfile_uri_ ;;
  storage_id <- gets storage_id_ ;;
  emit (ev_open_read_write bagfile_uri storage_id) ;;;
  modify (with_storage_
            (factory_open_read_write env bagfile_uri storage_id)) ;;;
  st' <- gets storage_ ;;
  match st' with
  | None => throw (runtime_error no_storage)
  | Some new_storage =>
    topics <- gets topics_ ;;
    for_each (map_to_list topics) (fun topic =>
      emit (ev_create_topic (Storage.relative_path new_storage)
              (TopicInformation.topic_metadata (snd topic)))) ;;;
    emit (ev_compress_uri current_uri) ;;;
    let compression_state := compressor_compress_uri_state env current_uri in
    modify (fun w =>
      with_relative_file_paths_
        (relative_file_paths_ w ++
           [if CompressionState.compression_success compression_state
            then CompressionState.compressed_uri compression_state
            else bagfile_uri]) w)
  end.

(** [Writer::should_split_bagfile] *)
Definition should_split_bagfile : M Writer bool :=
  st <- deref_storage ;;
  w <- get ;;
  emit (ev_get_bagfile_size (Storage.relative_path st)) ;;;
  ret (1024 * 100 <? storage_get_bagfile_size env (world w) st).

(** [Writer::write]: [topics_[name]] inserts a value-initialised entry when
    the name is not a key. *)
Definition write (message : SerializedBagMessage.t) : M Writer unit :=
  st <- gets storage_ ;;
  match st with
  | None => throw (runtime_error not_open_writing)
  | Some _ =>
    modify (fun w =>
      let info :=
        default TopicInformation.empty
          (topics_ w !! SerializedBagMessage.topic_name message) in
      with_topics_
        (<[SerializedBagMessage.topic_name message
           := TopicInformation.increment info]> (topics_ w)) w) ;;;
    modify (fun w => with_message_count_ (incr64 (message_count_ w)) w) ;;;
    split <- should_split_bagfile ;;
    (if split then split_bagfile_ else ret tt) ;;;
    modify (fun w =>
      with_start_time_
        (Z.min (start_time_ w) (SerializedBagMessage.time_stamp message)) w) ;;;
    modify (fun w =>
      with_end_time_
        (Z.max (end_time_ w) (SerializedBagMessage.time_stamp message)) w) ;;;
    conv <- gets converter_ ;;
    to_write <-
      (if conv
       then emit (ev_convert message) ;;; ret (converter_convert env message)
       else ret message) ;;
    st <- deref_storage ;;
    emit (ev_write (Storage.relative_path st) to_write)
  end.

(** [Writer::generate_metadata_] (a [const] member: no state change). The
    member [compression_identifier] it sets is the [compression_format] of
    [BagMetadata.t]; the chrono subtraction is on 64-bit counts. *)
Definition generate_metadata_ (w : Writer) : BagMetadata.t :=
  match storage_ w with
  | None => BagMetadata.empty
  | Some st =>
    BagMetadata.mk
      (Storage.storage_identifier st)
      (relative_file_paths_ w)
      (sub_int64 (end_time_ w) (start_time_ w))
      (start_time_ w)
      (message_count_ w)
      (snd <$> map_to_list (topics_ w))
      (fs_calculate_directory_size env (uri_ w))
      "SNAPPY"
      EmptyString
  end.

(** [Writer::~Writer] *)
Definition destroy : M Writer unit :=
  w <- get ;;
  (if bool_decide (uri_ w ≠ EmptyString) && bool_decide (is_Some (storage_ w))
   then
     let metadata := generate_metadata_ w in
     let dir_name := fs_get_folder_name env (uri_ w) in
     emit (ev_write_metadata dir_name metadata)
   else ret tt) ;;;
  modify (with_storage_ None).

End WithEnv.
End WriterPoC.

(** ** The writer that aggregates per-file metadata
    (second writer of src/rosbag2/src/rosbag2/compression_options.cpp) *)

Module WriterAggregate.
Local Open Scope cpp_scope.

Record Writer : Type := mk {
  storage_ : option Storage.t;
  converter_ : bool;
  max_bagfile_size_ : Z;
  uri_ : string;
  metadata_ : BagMetadata.t;
  (** not a member: the calls made to the collaborators so far *)
  world : list Event
}.

Definition with_storage_ (v : option Storage.t) (w : Writer) : Writer :=
  mk v (converter_ w) (max_bagfile_size_ w) (uri_ w) (metadata_ w) (world w).
Definition with_converter_ (v : bool) (w : Writer) : Writer :=
  mk (storage_ w) v (max_bagfile_size_ w) (uri_ w) (metadata_ w) (world w).
Definition with_max_bagfile_size_ (v : Z) (w : Writer) : Writer :=
  mk (storage_ w) (converter_ w) v (uri_ w) (metadata_ w) (world w).
Definition with_uri_ (v : string) (w : Writer) : Writer :=
  mk (storage_ w) (converter_ w) (max_bagfile_size_ w) v (metadata_ w)
     (world w).
Definition with_metadata_ (v : BagMetadata.t) (w : Writer) : Writer :=
  mk (storage_ w) (converter_ w) (max_bagfile_size_ w) (uri_ w) v (world w).
Definition with_world (v : list Event) (w : Writer) : Writer :=
  mk (storage_ w) (converter_ w) (max_bagfile_size_ w) (uri_ w)
     (metadata_ w) v.

(** The writer as its constructor leaves it. *)
Definition Writer_new (env : Env) : Writer :=
  mk None false (MAX_BAGFILE_SIZE_NO_SPLIT env) EmptyString
     BagMetadata.empty [].

Definition emit (e : Event) : M Writer unit :=
  modify (fun w => with_world (world w ++ [e]) w).

Definition deref_storage : M Writer Storage.t :=
  fun w => match storage_ w with
           | Some st => (inr st, w)
           | None => (inl null_dereference, w)
           end.

Section WithEnv.
Context (env : Env).

(** [Writer::initialize_metadata_] *)
Definition initialize_metadata_ : M Writer unit :=
  modify (fun w =>
    with_metadata_
      (BagMetadata.with_bag_size 0
        (BagMetadata.with_duration 0
          (BagMetadata.with_starting_time INT64_MAX
            (BagMetadata.with_topics_with_message_count []
              (BagMetadata.with_message_count 0 (metadata_ w)))))) w).

(** [topic_already_exists(ti_to_find, topic_list)] *)
Definition topic_already_exists (ti_to_find : TopicInformation.t)
  (topic_list : list TopicInformation.t) : bool :=
  existsb (topic_information_call env ti_to_find) topic_list.

(** [get_topics_no_duplicates(prev_topics, new_topics)] *)
Definition get_topics_no_duplicates
  (prev_topics new_topics : list TopicInformation.t)
  : list TopicInformation.t :=
  filter (fun topic_information =>
            negb (topic_already_exists topic_information prev_topics) = true)
         new_topics.

(** [Writer::aggregate_metadata_(metadata)] on the member [metadata_]: the
    argument is taken by value, so the [swap] leaves the member with the
    argument's file list and the old list dies with the argument. The
    message count is a [size_t], the duration a 64-bit signed count. *)
Definition aggregate (metadata_ metadata : BagMetadata.t) : BagMetadata.t :=
  let m1 :=
    BagMetadata.with_storage_identifier
      (BagMetadata.storage_identifier metadata) metadata_ in
  let m2 :=
    BagMetadata.with_relative_file_paths
      (BagMetadata.relative_file_paths metadata) m1 in
  let m3 :=
    BagMetadata.with_message_count
      (add64 (BagMetadata.message_count m2)
             (BagMetadata.message_count metadata)) m2 in
  let m4 :=
    if (BagMetadata.starting_time metadata <? BagMetadata.starting_time m3)
       && negb (BagMetadata.starting_time metadata =? 0)
    then BagMetadata.with_starting_time
           (BagMetadata.starting_time metadata) m3
    else m3 in
  let m5 :=
    BagMetadata.with_duration
      (add_int64 (BagMetadata.duration m4) (BagMetadata.duration metadata))
      m4 in
  let m6 := BagMetadata.with_bag_size (BagMetadata.bag_size metadata) m5 in
  let metadata_topics_no_duplicates :=
    get_topics_no_duplicates
      (BagMetadata.topics_with_message_count m6)
      (BagMetadata.topics_with_message_count metadata) in
  BagMetadata.with_topics_with_message_count
    (BagMetadata.topics_with_message_count m6
       ++ metadata_topics_no_duplicates) m6.

Definition aggregate_metadata_ (metadata : BagMetadata.t) : M Writer unit :=
  modify (fun w => with_metadata_ (aggregate (metadata_ w) metadata) w).

(** [Writer::open] *)
Definition open (uri storage_id : string) (max_bagfile_size : Z)
  (input_serialization_format output_serialization_format : string)
  : M Writer unit :=
  (if bool_decide (output_serialization_format
                   ≠ input_serialization_format)
   then modify (with_converter_ true) else ret tt) ;;;
  emit (ev_open_read_write uri storage_id) ;;;
  modify (with_storage_ (factory_open_read_write env uri storage_id)) ;;;
  st <- gets storage_ ;;
  match st with
  | None => throw (runtime_error no_storage)
  | Some _ =>
    modify (with_uri_ uri) ;;;
    modify (with_max_bagfile_size_ max_bagfile_size) ;;;
    initialize_metadata_
  end.

(** [Writer::create_topic] *)
Definition create_topic (topic_with_type : TopicMetadata.t)
  : M Writer unit :=
  st <- gets storage_ ;;
  match st with
  | None => throw (runtime_error not_open_writing)
  | Some st =>
    conv <- gets converter_ ;;
    (if conv
     then emit (ev_converter_add_topic
                  (TopicMetadata.name topic_with_type)
                  (TopicMetadata.type topic_with_type))
     else ret tt) ;;;
    emit (ev_create_topic (Storage.relative_path st) topic_with_type)
  end.

(** [Writer::remove_topic] *)
Definition remove_topic (topic_with_type : TopicMetadata.t)
  : M Writer unit :=
  st <- gets storage_ ;;
  match st with
  | None => throw (runtime_error not_open_removing)
  | Some st =>
    emit (ev_remove_topic (Storage.relative_path st) topic_with_type)
  end.

(** [Writer::should_split_database]: [&&] does not ask for the size when
    the threshold is the no-split value. *)
Definition should_split_database : M Writer bool :=
  w <- get ;;
  if bool_decide (max_bagfile_size_ w ≠ MAX_BAGFILE_SIZE_NO_SPLIT env)
  then
    st <- deref_storage ;;
    emit (ev_get_bagfile_size (Storage.relative_path st)) ;;;
    ret (max_bagfile_size_ w <? storage_get_bagfile_size env (world w) st)
  else ret false.

(** [Writer::write] *)
Definition write (message : SerializedBagMessage.t) : M Writer unit :=
  st <- gets storage_ ;;
  match st with
  | None => throw (runtime_error not_open_writing)
  | Some st =>
    conv <- gets converter_ ;;
    to_write <-
      (if conv
       then emit (ev_convert message) ;;; ret (converter_convert env message)
       else ret message) ;;
    emit (ev_write (Storage.relative_path st) to_write) ;;;
    split <- should_split_database ;;
    if split
    then
      w <- get ;;
      emit (ev_get_metadata (Storage.relative_path st)) ;;;
      aggregate_metadata_ (storage_get_metadata env (world w) st) ;;;
      emit (ev_split_database (Storage.relative_path st))
    else ret tt
  end.

(** [Writer::~Writer] *)
Definition destroy : M Writer unit :=
  w <- get ;;
  (if bool_decide (uri_ w ≠ EmptyString)
   then
     st <- deref_storage ;;
     emit (ev_get_metadata (Storage.relative_path st)) ;;;
     aggregate_metadata_ (storage_get_metadata env (world w) st) ;;;
     md <- gets metadata_ ;;
     emit (ev_write_metadata (uri_ w) md)
   else ret tt) ;;;
  modify (with_storage_ None).

End WithEnv.
End WriterAggregate.

(** ** What the specification says, in its own words *)

Module Spec.

(** Split policy: an optional threshold; unset never splits, a threshold [T]
    splits exactly for a size strictly greater than [T]. *)
Definition should_split (threshold : option Z) (file_size : Z) : bool :=
  match threshold with
  | None => false
  | Some T => T <? file_size
  end.

(** The threshold a session is configured with: [max_bagfile_size_] at the
    no-split value means that none is set. *)
Definition configured_threshold (env : Env) (max_bagfile_size : Z)
  : option Z :=
  if bool_decide (max_bagfile_size ≠ MAX_BAGFILE_SIZE_NO_SPLIT env)
  then Some max_bagfile_size else None.

(** Topic registry: the number of entries a registry holds for a name. *)
Definition entries_named {V} (k : string) (m : gmap string V) : nat :=
  length (filter (fun kv => kv.1 = k) (map_to_list m)).

(** Topic registry: the sum of the message counts of its entries. *)
Definition registry_total (m : gmap string TopicInformation.t) : Z :=
  foldr Z.add 0 (TopicInformation.message_count <$> (map_to_list m).*2).

(** Metadata merge, file list: append the paths of [m] that are not already
    in the list of [M]. *)
Definition merge_file_list (M_files m_files : list string) : list string :=
  M_files ++ filter (fun path => path ∉ M_files) m_files.

(** No message is handed to a storage backend among [calls]. *)
Definition no_write (calls : list Event) : bool :=
  forallb (fun e => negb (is_ev_write e)) calls.

(** The calls of one [write], rollover first: the storage write is the last
    call and the only storage write. *)
Definition write_is_last_call (calls : list Event) : bool :=
  match reverse calls with
  | ev_write _ _ :: earlier => no_write earlier
  | _ => false
  end.

End Spec.

(** ** Concrete collaborators for the examples *)

Module Examples.

(** A backend that always opens (the handle's path is the uri it was asked
    for), reports [size] for every file, a converter and a message
    compressor that tag the payload, and a file compressor that either
    appends [.zstd] or fails. *)
Definition env_of (size : Z) (compression_works : bool) : Env := {|
  factory_open_read_write := fun uri storage_id =>
    Some (Storage.mk uri storage_id);
  factory_get_current_uri := fun calls =>
    default "bag/bag"
      (last (omap (fun e => match e with
                            | ev_open_read_write uri _ => Some uri
                            | _ => None
                            end) calls));
  storage_get_bagfile_size := fun _ _ => size;
  storage_get_metadata := fun _ st =>
    BagMetadata.with_relative_file_paths [Storage.relative_path st]
      (BagMetadata.with_storage_identifier (Storage.storage_identifier st)
         BagMetadata.empty);
  converter_convert := fun m =>
    SerializedBagMessage.mk
      ("cdr:" +:+ SerializedBagMessage.serialized_data m)
      (SerializedBagMessage.time_stamp m)
      (SerializedBagMessage.topic_name m);
  compressor_compress_uri_state := fun uri =>
    CompressionState.mk compression_works
      (if compression_works then uri +:+ ".zstd" else EmptyString);
  compressor_compress_uri := fun uri =>
    if compression_works then inr (uri +:+ ".zstd")
    else inl (runtime_error "compression failed");
  compressor_compress_bag_message_data := fun m =>
    SerializedBagMessage.mk
      ("zstd:" +:+ SerializedBagMessage.serialized_data m)
      (SerializedBagMessage.time_stamp m)
      (SerializedBagMessage.topic_name m);
  compressor_get_compression_identifier := "zstd";
  fs_get_folder_name := fun path => path;
  fs_concat := fun parts => foldr (fun p acc =>
                 if bool_decide (acc = EmptyString) then p
                 else p +:+ "/" +:+ acc) EmptyString parts;
  fs_get_file_size := fun _ => size;
  fs_calculate_directory_size := fun _ => size;
  MAX_BAGFILE_SIZE_NO_SPLIT := 0;
  topic_information_call := fun p x =>
    bool_decide (TopicMetadata.name (TopicInformation.topic_metadata p)
                 = TopicMetadata.name (TopicInformation.topic_metadata x))
|}.

Definition chatter : TopicMetadata.t :=
  TopicMetadata.mk "/chatter" "std_msgs/String" "cdr".
Definition chatter_again : TopicMetadata.t :=
  TopicMetadata.mk "/chatter" "std_msgs/Int32" "cdr".
Definition odom : TopicMetadata.t :=
  TopicMetadata.mk "/odom" "nav_msgs/Odometry" "cdr".

Definition hello : SerializedBagMessage.t :=
  SerializedBagMessage.mk "hello" 100 "/chatter".
Definition pose : SerializedBagMessage.t :=
  SerializedBagMessage.mk "x=1" 200 "/odom".

(** Run a list of calls one after the other, stopping at the first throw. *)
Fixpoint run {S} (calls : list (M S unit)) : M S unit :=
  match calls with
  | [] => ret tt
  | c :: rest => bind c (fun _ => run rest)
  end.

(** Sessions of the three writers, opened on directory [bag] with backend
    [sqlite3], no conversion, and the split threshold left at the no-split
    value or set to [max]. *)
Definition compression_session (env : Env) (max : Z)
  (mode : CompressionOptions.CompressionMode) : WriterCompression.Writer :=
  after (WriterCompression.open env "bag" "sqlite3" max "cdr" "cdr"
           (WriterCompression.mkOptions "zstd" mode)
           (WriterCompression.Writer_new env)).

Definition poc_session (env : Env) (max : Z) : WriterPoC.Writer :=
  after (WriterPoC.open env "bag" "sqlite3" max "cdr" "cdr"
           (WriterPoC.Writer_new env)).

Definition aggregate_session (env : Env) (max : Z) : WriterAggregate.Writer :=
  after (WriterAggregate.open env "bag" "sqlite3" max "cdr" "cdr"
           (WriterAggregate.Writer_new env)).

End Examples.

(** ** Sessions of writer.cpp that never remove a topic *)

Module Sessions.

Inductive Call : Type :=
| call_open (uri storage_id : string) (max_bagfile_size : Z)
            (input_serialization_format output_serialization_format : string)
| call_create_topic (topic_with_type : TopicMetadata.t)
| call_write (message : SerializedBagMessage.t).

Definition exec (env : Env) (c : Call) : M WriterPoC.Writer unit :=
  match c with
  | call_open uri storage_id max_bagfile_size input output =>
      WriterPoC.open env uri storage_id max_bagfile_size input output
  | call_create_topic topic_with_type =>
      WriterPoC.create_topic topic_with_type
  | call_write message => WriterPoC.write env message
  end.

(** The caller makes the calls one after the other; a call that throws
    leaves the writer in the state it had reached, and the caller goes on. *)
Definition state_after (env : Env) (calls : list Call) (w : WriterPoC.Writer)
  : WriterPoC.Writer :=
  foldl (fun w c => after (exec env c w)) w calls.

End Sessions.

(** ** The compression plugin factory
    (src/rosbag2_compression/src/rosbag2_compression/compression_factory_impl.hpp) *)

Module CompressionFactory.

Definition kCompressorSuffix : string := "_compressor".

(** [std::find(v.begin(), v.end(), value)] on a vector of strings: the
    position of the first element equal to [value]; the length of the vector
    stands for [v.end()]. *)
Fixpoint std_find (v : list string) (value : string) : nat :=
  match v with
  | [] => 0%nat
  | x :: v' => if String.eqb x value then 0%nat else S (std_find v' value)
  end.

(** [is_plugin_not_registered] *)
Definition is_plugin_not_registered (compression_format : string)
  (registered_compressor_classes registered_interface_classes : list string)
  : bool :=
  let class_exists_in_compression :=
    std_find registered_compressor_classes compression_format in
  let class_exists_in_deserializers :=
    std_find registered_interface_classes compression_format in
  Nat.eqb class_exists_in_compression (length registered_compressor_classes)
  && Nat.eqb class_exists_in_deserializers
       (length registered_interface_classes).

(** A [pluginlib::ClassLoader<I>], as far as the factory uses it: the classes
    it declares, and [createUnmanagedInstance], which returns an instance or
    throws. *)
Record ClassLoader (I : Type) : Type := mkClassLoader {
  getDeclaredClasses : list string;
  createUnmanagedInstance : string -> exn + I
}.
Arguments mkClassLoader {I} _ _.
Arguments getDeclaredClasses {I} _.
Arguments createUnmanagedInstance {I} _ _.

Record CompressionFactoryImpl (C D : Type) : Type := mk {
  compressor_class_loader_ : ClassLoader C;
  decompressor_class_loader_ : ClassLoader D
}.
Arguments mk {C D} _ _.
Arguments compressor_class_loader_ {C D} _.
Arguments decompressor_class_loader_ {C D} _.

Definition does_not_exist (kind compression_format : string) : string :=
  "Requested " +:+ kind +:+ " for format '" +:+ compression_format
    +:+ "' does not exist".
Definition unable_to_load (kind what : string) : string :=
  "Unable to load instance of " +:+ kind +:+ " interface: " +:+ what.

(** [load_compressor_interface<ICompressionFormat>]: the lines written to the
    error log, and the pointer returned ([None] is [nullptr]) or the
    exception that leaves the function. Only [std::runtime_error] is
    caught. *)
Definition load_compressor_interface {C D I}
  (this : CompressionFactoryImpl C D) (compression_format : string)
  (class_loader : ClassLoader I) : list string * (exn + option I) :=
  let compressor_id := compression_format +:+ kCompressorSuffix in
  if is_plugin_not_registered compressor_id
       (getDeclaredClasses (compressor_class_loader_ this))
       (getDeclaredClasses class_loader)
  then ([does_not_exist "compressor" compression_format], inr None)
  else
    match createUnmanagedInstance class_loader compressor_id with
    | inr instance => ([], inr (Some instance))
    | inl (runtime_error what) =>
        ([unable_to_load "compressor" what], inr None)
    | inl e => ([], inl e)
    end.

(** [load_decompressor_interface<ICompressionFormat>] *)
Definition load_decompressor_interface {C D I}
  (this : CompressionFactoryImpl C D) (compression_format : string)
  (class_loader : ClassLoader I) : list string * (exn + option I) :=
  let compressor_id := compression_format +:+ kCompressorSuffix in
  if is_plugin_not_registered compressor_id
       (getDeclaredClasses (decompressor_class_loader_ this))
       (getDeclaredClasses class_loader)
  then ([does_not_exist "decompressor" compression_format], inr None)
  else
    match createUnmanagedInstance class_loader compressor_id with
    | inr instance => ([], inr (Some instance))
    | inl (runtime_error what) =>
        ([unable_to_load "decompressor" what], inr None)
    | inl e => ([], inl e)
    end.

(** [CompressionFactoryImpl::create_compressor] *)
Definition create_compressor {C D} (this : CompressionFactoryImpl C D)
  (compression_format : string) : list string * (exn + option C) :=
  load_compressor_interface this compression_format
    (compressor_class_loader_ this).

(** [CompressionFactoryImpl::create_decompressor] *)
Definition create_decompressor {C D} (this : CompressionFactoryImpl C D)
  (decompression_format : string) : list string * (exn + option D) :=
  load_decompressor_interface this decompression_format
    (decompressor_class_loader_ this).

(** A factory for the examples: the compressor loader declares and builds
    [zstd_compressor], declares [lz4_compressor] but fails to build it; the
    decompressor loader declares and builds [zstd_compressor]. Instances are
    named by the class they were built from. *)
Definition example_factory : CompressionFactoryImpl string string :=
  mk (mkClassLoader ["zstd_compressor"; "lz4_compressor"]
        (fun id => if String.eqb id "zstd_compressor" then inr id
                   else inl (runtime_error "library not found")))
     (mkClassLoader ["zstd_compressor"]
        (fun id => if String.eqb id "zstd_compressor" then inr id
                   else inl (runtime_error "library not found"))).

End CompressionFactory.

(** ** Kinds of calls *)

Module Calls.

Definition is_create_topic (e : Event) : bool :=
  match e with ev_create_topic _ _ => true | _ => false end.
Definition is_compress_uri (e : Event) : bool :=
  match e with ev_compress_uri _ => true | _ => false end.
Definition is_std_remove (e : Event) : bool :=
  match e with ev_std_remove _ => true | _ => false end.
Definition is_compress_bag_message_data (e : Event) : bool :=
  match e with ev_compress_bag_message_data _ => true | _ => false end.

(** Calls that compress or delete a file. *)
Definition touches_file (e : Event) : bool :=
  is_compress_uri e || is_std_remove e.

(** None of [calls] satisfies [p]. *)
Definition none (p : Event -> bool) (calls : list Event) : bool :=
  forallb (fun e => negb (p e)) calls.

End Calls.

(** * Properties *)

(** ** Running the monad *)

Section MonadLaws.
Context {S : Type}.

Lemma bind_ret {A B} (a : A) (k : A -> M S B) (s : S) :
  bind (ret a) k s = k a s.
Proof. reflexivity. Qed.

Lemma bind_throw {A B} (e : exn) (k : A -> M S B) (s : S) :
  bind (throw e) k s = (inl e, s).
Proof. reflexivity. Qed.

Lemma bind_get {B} (k : S -> M S B) (s : S) : bind get k s = k s s.
Proof. reflexivity. Qed.

Lemma bind_gets {A B} (f : S -> A) (k : A -> M S B) (s : S) :
  bind (gets f) k s = k (f s) s.
Proof. reflexivity. Qed.

Lemma bind_modify {B} (f : S -> S) (k : unit -> M S B) (s : S) :
  bind (modify f) k s = k tt (f s).
Proof. reflexivity. Qed.

Lemma bind_bind {A B C} (m : M S A) (k1 : A -> M S B) (k2 : B -> M S C)
  (s : S) :
  bind (bind m k1) k2 s = bind m (fun a => bind (k1 a) k2) s.
Proof. unfold bind. destruct (m s) as [[e | a] s']; reflexivity. Qed.

Lemma bind_if {A B} (b : bool) (m1 m2 : M S A) (k : A -> M S B) (s : S) :
  bind (if b then m1 else m2) k s
  = if b then bind m1 k s else bind m2 k s.
Proof. destruct b; reflexivity. Qed.

Lemma for_each_ext {A} (l : list A) (body1 body2 : A -> M S unit) (s : S) :
  (forall x s', body1 x s' = body2 x s') ->
  for_each l body1 s = for_each l body2 s.
Proof.
  intros Hext. revert s.
  induction l as [| x l IH]; intros s; [reflexivity |].
  simpl. unfold bind. rewrite Hext.
  destruct (body2 x s) as [[e | []] s']; [reflexivity | apply IH].
Qed.

Lemma for_each_modify {A} (l : list A) (f : A -> S -> S) (s : S) :
  for_each l (fun x => modify (f x)) s
  = (inr tt, foldl (fun s' x => f x s') s l).
Proof.
  revert s. induction l as [| x l IH]; intros s; [reflexivity |].
  simpl. rewrite bind_modify. apply IH.
Qed.

Lemma for_each_modify2 {A} (l : list A) (f g : A -> S -> S) (s : S) :
  for_each l (fun x => bind (modify (f x)) (fun _ => modify (g x))) s
  = (inr tt, foldl (fun s' x => g x (f x s')) s l).
Proof.
  revert s. induction l as [| x l IH]; intros s; [reflexivity |].
  simpl. rewrite bind_bind, bind_modify, bind_modify. apply IH.
Qed.

End MonadLaws.

(** ** Sums of 64-bit counters *)

Lemma foldl_add64 (counts : list Z) (a : Z) :
  foldl add64 (wrap64 a) counts = wrap64 (a + foldr Z.add 0 counts).
Proof.
  revert a. induction counts as [| c counts IH]; intros a; simpl.
  - rewrite Z.add_0_r. reflexivity.
  - replace (add64 (wrap64 a) c) with (wrap64 (a + c))
      by (unfold add64, wrap64; symmetry; apply Zplus_mod_idemp_l).
    rewrite IH. f_equal. lia.
Qed.

(** ** Compression mode names *)

Import CompressionOptions.

Lemma compression_mode_from_string_unsupported (s : string) :
  s ≠ EmptyString -> s ≠ "NONE" -> s ≠ "FILE" -> s ≠ "MESSAGE" ->
  compression_mode_from_string s = ([not_supported_message s], NONE).
Proof.
  intros Hempty Hnone Hfile Hmessage.
  unfold compression_mode_from_string, COMPRESSION_MODE_NONE_STR,
    COMPRESSION_MODE_FILE_STR, COMPRESSION_MODE_MESSAGE_STR.
  apply String.eqb_neq in Hempty, Hnone, Hfile, Hmessage.
  rewrite Hempty, Hnone, Hfile, Hmessage. reflexivity.
Qed.

(** C9: [compression_mode_from_string] maps the empty string and "NONE" to
    [NONE], "FILE" to [FILE], "MESSAGE" to [MESSAGE], each without logging,
    and every other string to [NONE] after logging one error line; it never
    fails. *)
Theorem compression_mode_from_string_table (s : string) :
  (s = EmptyString \/ s = "NONE" ->
     compression_mode_from_string s = ([], NONE))
  /\ (s = "FILE" -> compression_mode_from_string s = ([], FILE))
  /\ (s = "MESSAGE" -> compression_mode_from_string s = ([], MESSAGE))
  /\ (s ≠ EmptyString -> s ≠ "NONE" -> s ≠ "FILE" -> s ≠ "MESSAGE" ->
        compression_mode_from_string s = ([not_supported_message s], NONE)).
Proof.
  repeat split.
  - intros [-> | ->]; reflexivity.
  - intros ->; reflexivity.
  - intros ->; reflexivity.
  - apply compression_mode_from_string_unsupported.
Qed.

Lemma compression_mode_from_string_table_witness :
  compression_mode_from_string EmptyString = ([], NONE)
  /\ compression_mode_from_string "NONE" = ([], NONE)
  /\ compression_mode_from_string "FILE" = ([], FILE)
  /\ compression_mode_from_string "MESSAGE" = ([], MESSAGE)
  /\ compression_mode_from_string "file"
     = ([not_supported_message "file"], NONE).
Proof.
  split; [| split; [| split; [| split]]].
  - apply (proj1 (compression_mode_from_string_table EmptyString)).
    left; reflexivity.
  - apply (proj1 (compression_mode_from_string_table "NONE")).
    right; reflexivity.
  - apply (proj1 (proj2 (compression_mode_from_string_table "FILE"))).
    reflexivity.
  - apply (proj1 (proj2 (proj2
             (compression_mode_from_string_table "MESSAGE")))).
    reflexivity.
  - apply (proj2 (proj2 (proj2
             (compression_mode_from_string_table "file")))); discriminate.
Defined.

(** C10: parsing the name of a mode gives the mode back, and logs nothing. *)
Theorem compression_mode_string_roundtrip (m : CompressionMode) :
  compression_mode_from_string (compression_mode_to_string m) = ([], m).
Proof. destruct m; reflexivity. Qed.

(** The three names are pairwise different, so [compression_mode_to_string]
    is injective. *)
Lemma compression_mode_to_string_inj (m1 m2 : CompressionMode) :
  compression_mode_to_string m1 = compression_mode_to_string m2 -> m1 = m2.
Proof.
  destruct m1, m2; simpl; intros H; first [reflexivity | discriminate H].
Qed.

(** ** Split policy *)

(** [should_split_bagfile] of the writer with compression options compares
    the size of the active file with the literal 102400 whatever
    [max_bagfile_size_] holds, and leaves everything but the trace as it
    was. *)
Lemma compression_should_split_bagfile_hardcoded
  (env : Env) (w : WriterCompression.Writer) (st : Storage.t) :
  WriterCompression.storage_ w = Some st ->
  WriterCompression.should_split_bagfile env w
  = (inr (102400 <?
            storage_get_bagfile_size env (WriterCompression.world w) st),
     WriterCompression.with_world
       (WriterCompression.world w
          ++ [ev_get_bagfile_size (Storage.relative_path st)]) w).
Proof.
  intros Hst.
  unfold WriterCompression.should_split_bagfile, bind,
    WriterCompression.deref_storage, get, WriterCompression.emit, modify, ret.
  rewrite Hst. reflexivity.
Qed.

(** The same holds for [should_split_bagfile] of writer.cpp. *)
Lemma poc_should_split_bagfile_hardcoded
  (env : Env) (w : WriterPoC.Writer) (st : Storage.t) :
  WriterPoC.storage_ w = Some st ->
  WriterPoC.should_split_bagfile env w
  = (inr (102400 <? storage_get_bagfile_size env (WriterPoC.world w) st),
     WriterPoC.with_world
       (WriterPoC.world w
          ++ [ev_get_bagfile_size (Storage.relative_path st)]) w).
Proof.
  intros Hst.
  unfold WriterPoC.should_split_bagfile, bind, WriterPoC.deref_storage, get,
    WriterPoC.emit, modify, ret.
  rewrite Hst. reflexivity.
Qed.

(** [should_split_database] of the aggregating writer is the split policy of
    the specification: never without a threshold, and with a threshold [T]
    exactly for a size strictly greater than [T]. *)
Lemma aggregate_should_split_database_spec
  (env : Env) (w : WriterAggregate.Writer) (st : Storage.t) :
  WriterAggregate.storage_ w = Some st ->
  outcome (WriterAggregate.should_split_database env w)
  = inr (Spec.should_split
           (Spec.configured_threshold env (WriterAggregate.max_bagfile_size_ w))
           (storage_get_bagfile_size env (WriterAggregate.world w) st)).
Proof.
  intros Hst.
  unfold WriterAggregate.should_split_database, Spec.configured_threshold, bind,
    WriterAggregate.deref_storage, get, WriterAggregate.emit, modify, ret,
    outcome.
  case_bool_decide; [rewrite Hst |]; reflexivity.
Qed.

(** C2, at the inputs where the code departs from it: in both writers that
    have [should_split_bagfile], a session whose threshold was left unset
    splits at 102401 bytes, and a session with threshold 50 does not split
    at 60 bytes, where the split policy of the specification answers the
    opposite. *)
Theorem should_split_bagfile_ignores_threshold :
  let unset := MAX_BAGFILE_SIZE_NO_SPLIT (Examples.env_of 102401 true) in
  (outcome (WriterCompression.should_split_bagfile
              (Examples.env_of 102401 true)
              (Examples.compression_session
                 (Examples.env_of 102401 true) unset NONE))
   = inr true
   /\ outcome (WriterPoC.should_split_bagfile
                 (Examples.env_of 102401 true)
                 (Examples.poc_session (Examples.env_of 102401 true) unset))
      = inr true
   /\ Spec.should_split
        (Spec.configured_threshold (Examples.env_of 102401 true) unset) 102401
      = false)
  /\ (outcome (WriterCompression.should_split_bagfile
                 (Examples.env_of 60 true)
                 (Examples.compression_session
                    (Examples.env_of 60 true) 50 NONE))
      = inr false
      /\ outcome (WriterPoC.should_split_bagfile
                    (Examples.env_of 60 true)
                    (Examples.poc_session (Examples.env_of 60 true) 50))
         = inr false
      /\ Spec.should_split
           (Spec.configured_threshold (Examples.env_of 60 true) 50) 60
         = true).
Proof. vm_compute. repeat split; reflexivity. Qed.

(** ** Metadata aggregation: the file list *)

Lemma aggregate_relative_file_paths (env : Env) (M m : BagMetadata.t) :
  BagMetadata.relative_file_paths (WriterAggregate.aggregate env M m)
  = BagMetadata.relative_file_paths m.
Proof.
  unfold WriterAggregate.aggregate. simpl.
  destruct (_ && _); reflexivity.
Qed.

(** C7 as stated fails: with aggregate file list [bag_0] and per-file
    metadata listing [bag_1], the merge of the specification gives
    [bag_0; bag_1], while [aggregate_metadata_] leaves [bag_1] only, so a
    path that was in the list is gone; and per-file metadata that lists a
    path twice gives an aggregate that lists it twice. *)
Lemma aggregate_file_list_counterexample :
  let env := Examples.env_of 0 true in
  let M := BagMetadata.with_relative_file_paths ["bag_0"] BagMetadata.empty in
  let m := BagMetadata.with_relative_file_paths ["bag_1"] BagMetadata.empty in
  let mm :=
    BagMetadata.with_relative_file_paths ["bag_1"; "bag_1"]
      BagMetadata.empty in
  Spec.merge_file_list (BagMetadata.relative_file_paths M)
                       (BagMetadata.relative_file_paths m)
  = ["bag_0"; "bag_1"]
  /\ BagMetadata.relative_file_paths (WriterAggregate.aggregate env M m)
     = ["bag_1"]
  /\ "bag_0" ∈ BagMetadata.relative_file_paths M
  /\ ("bag_0" ∉ BagMetadata.relative_file_paths
                  (WriterAggregate.aggregate env M m))
  /\ (¬ NoDup (BagMetadata.relative_file_paths
                 (WriterAggregate.aggregate env M mm))).
Proof.
  cbv zeta. rewrite !aggregate_relative_file_paths.
  split; [vm_compute; reflexivity |].
  split; [reflexivity |].
  split; [simpl; apply list_elem_of_singleton; reflexivity |].
  split; [simpl; rewrite list_elem_of_singleton; discriminate |].
  simpl. intros Hnd. apply NoDup_cons in Hnd as [Hnotin _].
  apply Hnotin, list_elem_of_singleton; reflexivity.
Qed.

(** C7, amended: [aggregate_metadata_] replaces the file list of the
    aggregate by the file list of the per-file metadata, in its order. The
    result is free of duplicates exactly when the reported list is, and a
    path stays in the aggregate exactly when the backend reports it. *)
Theorem aggregate_metadata_replaces_file_list
  (env : Env) (w : WriterAggregate.Writer) (m : BagMetadata.t) :
  let w' := after (WriterAggregate.aggregate_metadata_ env m w) in
  outcome (WriterAggregate.aggregate_metadata_ env m w) = inr tt
  /\ BagMetadata.relative_file_paths (WriterAggregate.metadata_ w')
     = BagMetadata.relative_file_paths m
  /\ (NoDup (BagMetadata.relative_file_paths (WriterAggregate.metadata_ w'))
      <-> NoDup (BagMetadata.relative_file_paths m))
  /\ (forall path : string,
        path ∈ BagMetadata.relative_file_paths (WriterAggregate.metadata_ w')
        <-> path ∈ BagMetadata.relative_file_paths m).
Proof.
  cbv zeta. unfold WriterAggregate.aggregate_metadata_, modify, after, outcome.
  cbn [fst snd WriterAggregate.metadata_ WriterAggregate.with_metadata_].
  rewrite aggregate_relative_file_paths.
  repeat split; trivial.
Qed.

(** ** Topic registry: [create_topic] *)

(** A map holds exactly one entry for each of its keys. *)
Lemma map_to_list_one_entry {V} (m : gmap string V) (k : string) (v : V) :
  m !! k = Some v ->
  length (filter (fun kv => kv.1 = k) (map_to_list m)) = 1%nat.
Proof.
  intros Hk.
  rewrite <- (map_to_list_delete m k v Hk).
  rewrite filter_cons_True by reflexivity.
  simpl. f_equal.
  apply length_zero_iff_nil.
  destruct (filter _ _) as [|[k' v'] rest] eqn:Hf; [reflexivity |].
  assert (Hin : (k', v') ∈ filter (fun kv : string * V => kv.1 = k)
                               (map_to_list (delete k m)))
    by (rewrite Hf; left).
  apply list_elem_of_filter in Hin as [Hkey Hin]. simpl in Hkey. subst k'.
  apply elem_of_map_to_list in Hin. rewrite lookup_delete_eq in Hin.
  discriminate.
Qed.

(** [create_topic] of the writer with compression options, on an open
    session: it returns, and the registry gains an entry with count 0 only
    if the name was free. *)
Lemma compression_create_topic_open
  (w : WriterCompression.Writer) (st : Storage.t) (t : TopicMetadata.t) :
  WriterCompression.storage_ w = Some st ->
  outcome (WriterCompression.create_topic t w) = inr tt
  /\ WriterCompression.topics_names_to_info_
       (after (WriterCompression.create_topic t w))
     = match WriterCompression.topics_names_to_info_ w
               !! TopicMetadata.name t with
       | Some _ => WriterCompression.topics_names_to_info_ w
       | None => <[TopicMetadata.name t := TopicInformation.mk t 0]>
                   (WriterCompression.topics_names_to_info_ w)
       end
  /\ WriterCompression.storage_ (after (WriterCompression.create_topic t w))
     = Some st.
Proof.
  intros Hst.
  unfold WriterCompression.create_topic, WriterCompression.map_insert,
    WriterCompression.emit, WriterCompression.deref_storage,
    bind, gets, modify, ret, throw, outcome, after.
  rewrite Hst.
  destruct (WriterCompression.converter_ w);
    cbn [WriterCompression.topics_names_to_info_ WriterCompression.with_world
         WriterCompression.storage_];
    destruct (WriterCompression.topics_names_to_info_ w
                !! TopicMetadata.name t) eqn:Hlook;
    cbn [fst snd negb WriterCompression.topics_names_to_info_
         WriterCompression.with_world WriterCompression.storage_
         WriterCompression.with_topics_names_to_info_];
    rewrite ?Hst; cbn; auto.
Qed.

(** The same for writer.cpp, whose [topics_.insert] keeps an existing
    entry. *)
Lemma poc_create_topic_open
  (w : WriterPoC.Writer) (st : Storage.t) (t : TopicMetadata.t) :
  WriterPoC.storage_ w = Some st ->
  outcome (WriterPoC.create_topic t w) = inr tt
  /\ WriterPoC.topics_ (after (WriterPoC.create_topic t w))
     = match WriterPoC.topics_ w !! TopicMetadata.name t with
       | Some _ => WriterPoC.topics_ w
       | None => <[TopicMetadata.name t := TopicInformation.mk t 0]>
                   (WriterPoC.topics_ w)
       end
  /\ WriterPoC.storage_ (after (WriterPoC.create_topic t w)) = Some st.
Proof.
  intros Hst.
  unfold WriterPoC.create_topic, WriterPoC.emit, WriterPoC.deref_storage,
    bind, gets, modify, ret, throw, outcome, after.
  rewrite Hst.
  destruct (WriterPoC.converter_ w);
    cbn [WriterPoC.topics_ WriterPoC.with_world WriterPoC.storage_
         WriterPoC.with_topics_ fst snd];
    rewrite ?Hst; cbn [fst snd WriterPoC.topics_ WriterPoC.with_world
                       WriterPoC.storage_ WriterPoC.with_topics_]; auto.
Qed.

(** C4: [create_topic] is idempotent, in the writer with compression options
    and in writer.cpp. On an open session the first call returns and leaves
    the name registered; a later call with a descriptor of the same name, in
    any open state where the name is registered, returns and leaves the
    registry as it was: one entry for the name, with the descriptor and the
    message count it had. *)
Theorem create_topic_idempotent (t t' : TopicMetadata.t) :
  TopicMetadata.name t' = TopicMetadata.name t ->
  (forall (w : WriterCompression.Writer) (st : Storage.t),
      WriterCompression.storage_ w = Some st ->
      outcome (WriterCompression.create_topic t w) = inr tt
      /\ WriterCompression.storage_ (after (WriterCompression.create_topic t w))
         = Some st
      /\ is_Some (WriterCompression.topics_names_to_info_
                    (after (WriterCompression.create_topic t w))
                    !! TopicMetadata.name t))
  /\ (forall (w : WriterCompression.Writer) (st : Storage.t)
             (info : TopicInformation.t),
         WriterCompression.storage_ w = Some st ->
         WriterCompression.topics_names_to_info_ w !! TopicMetadata.name t
         = Some info ->
         let w2 := after (WriterCompression.create_topic t' w) in
         outcome (WriterCompression.create_topic t' w) = inr tt
         /\ WriterCompression.topics_names_to_info_ w2
            = WriterCompression.topics_names_to_info_ w
         /\ WriterCompression.topics_names_to_info_ w2
              !! TopicMetadata.name t = Some info
         /\ Spec.entries_named (TopicMetadata.name t)
              (WriterCompression.topics_names_to_info_ w2) = 1%nat)
  /\ (forall (w : WriterPoC.Writer) (st : Storage.t),
         WriterPoC.storage_ w = Some st ->
         outcome (WriterPoC.create_topic t w) = inr tt
         /\ WriterPoC.storage_ (after (WriterPoC.create_topic t w)) = Some st
         /\ is_Some (WriterPoC.topics_ (after (WriterPoC.create_topic t w))
                       !! TopicMetadata.name t))
  /\ (forall (w : WriterPoC.Writer) (st : Storage.t)
             (info : TopicInformation.t),
         WriterPoC.storage_ w = Some st ->
         WriterPoC.topics_ w !! TopicMetadata.name t = Some info ->
         let w2 := after (WriterPoC.create_topic t' w) in
         outcome (WriterPoC.create_topic t' w) = inr tt
         /\ WriterPoC.topics_ w2 = WriterPoC.topics_ w
         /\ WriterPoC.topics_ w2 !! TopicMetadata.name t = Some info
         /\ Spec.entries_named (TopicMetadata.name t) (WriterPoC.topics_ w2)
            = 1%nat).
Proof.
  intros Hname. split; [| split; [| split]].
  - intros w st Hst.
    destruct (compression_create_topic_open w st t Hst)
      as (Hok & Htopics & Hst').
    split; [exact Hok |]. split; [exact Hst' |].
    rewrite Htopics.
    destruct (WriterCompression.topics_names_to_info_ w
                !! TopicMetadata.name t) eqn:Hlook.
    + rewrite Hlook. eauto.
    + rewrite lookup_insert_eq. eauto.
  - intros w st info Hst Hlook. cbv zeta.
    destruct (compression_create_topic_open w st t' Hst) as (Hok & Htopics & _).
    rewrite Hname, Hlook in Htopics. rewrite Htopics.
    split; [exact Hok |]. split; [reflexivity |]. split; [exact Hlook |].
    exact (map_to_list_one_entry _ _ _ Hlook).
  - intros w st Hst.
    destruct (poc_create_topic_open w st t Hst) as (Hok & Htopics & Hst').
    split; [exact Hok |]. split; [exact Hst' |].
    rewrite Htopics.
    destruct (WriterPoC.topics_ w !! TopicMetadata.name t) eqn:Hlook.
    + rewrite Hlook. eauto.
    + rewrite lookup_insert_eq. eauto.
  - intros w st info Hst Hlook. cbv zeta.
    destruct (poc_create_topic_open w st t' Hst) as (Hok & Htopics & _).
    rewrite Hname, Hlook in Htopics. rewrite Htopics.
    split; [exact Hok |]. split; [reflexivity |]. split; [exact Hlook |].
    exact (map_to_list_one_entry _ _ _ Hlook).
Qed.

Lemma create_topic_idempotent_witness :
  let env := Examples.env_of 10 true in
  let info := TopicInformation.mk Examples.chatter 1 in
  let w := after (Examples.run
                    [WriterCompression.create_topic Examples.chatter;
                     WriterCompression.write env Examples.hello]
                    (Examples.compression_session env 0 NONE)) in
  let p := after (Examples.run
                    [WriterPoC.create_topic Examples.chatter;
                     WriterPoC.write env Examples.hello]
                    (Examples.poc_session env 0)) in
  (WriterCompression.topics_names_to_info_ w !! "/chatter" = Some info
   /\ WriterCompression.topics_names_to_info_
        (after (WriterCompression.create_topic Examples.chatter_again w))
        !! "/chatter" = Some info
   /\ Spec.entries_named "/chatter"
        (WriterCompression.topics_names_to_info_
           (after (WriterCompression.create_topic Examples.chatter_again w)))
      = 1%nat)
  /\ (WriterPoC.topics_ p !! "/chatter" = Some info
      /\ WriterPoC.topics_
           (after (WriterPoC.create_topic Examples.chatter_again p))
           !! "/chatter" = Some info
      /\ Spec.entries_named "/chatter"
           (WriterPoC.topics_
              (after (WriterPoC.create_topic Examples.chatter_again p)))
         = 1%nat).
Proof.
  cbv zeta.
  destruct (create_topic_idempotent Examples.chatter Examples.chatter_again
              eq_refl) as (_ & Hc & _ & Hp).
  split.
  - split; [vm_compute; reflexivity |].
    eapply (fun Hst Hlook =>
              proj2 (proj2 (Hc _ (Storage.mk "bag/bag" "sqlite3")
                              (TopicInformation.mk Examples.chatter 1)
                              Hst Hlook)));
      vm_compute; reflexivity.
  - split; [vm_compute; reflexivity |].
    eapply (fun Hst Hlook =>
              proj2 (proj2 (Hp _ (Storage.mk "bag/bag" "sqlite3")
                              (TopicInformation.mk Examples.chatter 1)
                              Hst Hlook)));
      vm_compute; reflexivity.
Defined.

(** ** [write] and [remove_topic] on names that are not registered *)

(** In the writer with compression options, [write] on a closed session
    throws the not-open error and changes nothing. *)
Lemma compression_write_closed
  (env : Env) (w : WriterCompression.Writer) (m : SerializedBagMessage.t) :
  WriterCompression.storage_ w = None ->
  WriterCompression.write env m w = (inl (runtime_error not_open_writing), w).
Proof.
  intros Hst. unfold WriterCompression.write, bind, gets, throw.
  rewrite Hst. reflexivity.
Qed.

(** In the writer with compression options, [write] for a name that is not
    registered throws what [at] throws, before anything is changed: the
    registry, the metadata, the handle and the trace of calls are the ones
    of before. *)
Lemma compression_write_unregistered
  (env : Env) (w : WriterCompression.Writer) (st : Storage.t)
  (m : SerializedBagMessage.t) :
  WriterCompression.storage_ w = Some st ->
  WriterCompression.topics_names_to_info_ w
    !! SerializedBagMessage.topic_name m = None ->
  WriterCompression.write env m w = (inl out_of_range, w)
  /\ UnknownTopicError (SerializedBagMessage.topic_name m) out_of_range.
Proof.
  intros Hst Hlook. split; [| left; reflexivity].
  unfold WriterCompression.write, bind, gets, throw.
  rewrite Hst, Hlook. reflexivity.
Qed.

(** In the writer with compression options, [remove_topic] on a closed
    session throws the not-open error and changes nothing. *)
Lemma compression_remove_topic_closed
  (w : WriterCompression.Writer) (t : TopicMetadata.t) :
  WriterCompression.storage_ w = None ->
  WriterCompression.remove_topic t w
  = (inl (runtime_error not_open_removing), w).
Proof.
  intros Hst. unfold WriterCompression.remove_topic, bind, gets, throw.
  rewrite Hst. reflexivity.
Qed.

(** In the writer with compression options, [remove_topic] for a name that
    is not registered throws, and registry and trace of calls are the ones
    of before. *)
Lemma compression_remove_topic_unregistered
  (w : WriterCompression.Writer) (st : Storage.t) (t : TopicMetadata.t) :
  WriterCompression.storage_ w = Some st ->
  WriterCompression.topics_names_to_info_ w !! TopicMetadata.name t = None ->
  WriterCompression.remove_topic t w
  = (inl (runtime_error (failed_to_remove (TopicMetadata.name t))), w)
  /\ UnknownTopicError (TopicMetadata.name t)
       (runtime_error (failed_to_remove (TopicMetadata.name t))).
Proof.
  intros Hst Hlook. split; [| right; reflexivity].
  unfold WriterCompression.remove_topic, bind, gets, throw, modify.
  rewrite Hst, Hlook. cbn [Z.ltb Z.compare].
  rewrite delete_id by exact Hlook.
  destruct w; reflexivity.
Qed.

(** In writer.cpp, both calls on a closed session throw the not-open
    error. *)
Lemma poc_closed (env : Env) (w : WriterPoC.Writer)
  (m : SerializedBagMessage.t) (t : TopicMetadata.t) :
  WriterPoC.storage_ w = None ->
  WriterPoC.write env m w = (inl (runtime_error not_open_writing), w)
  /\ WriterPoC.remove_topic t w = (inl (runtime_error not_open_removing), w).
Proof.
  intros Hst.
  unfold WriterPoC.write, WriterPoC.remove_topic, bind, gets, throw.
  rewrite Hst. split; reflexivity.
Qed.

(** In writer.cpp, [remove_topic] on an open session returns normally for
    every descriptor, registered or not, after handing the removal to the
    storage backend. *)
Lemma poc_remove_topic_open
  (w : WriterPoC.Writer) (st : Storage.t) (t : TopicMetadata.t) :
  WriterPoC.storage_ w = Some st ->
  WriterPoC.remove_topic t w
  = (inr tt,
     WriterPoC.with_topics_
       (delete (TopicMetadata.name t) (WriterPoC.topics_ w))
       (WriterPoC.with_world
          (WriterPoC.world w
             ++ [ev_remove_topic (Storage.relative_path st) t]) w)).
Proof.
  intros Hst.
  unfold WriterPoC.remove_topic, bind, gets.
  rewrite Hst. unfold WriterPoC.deref_storage. rewrite Hst. reflexivity.
Qed.

(** C1, at an input where writer.cpp departs from it: on a session that was
    opened and on which no topic was created, [write] of a message for
    [/chatter] returns normally; the registry gains an entry for [/chatter]
    with an empty descriptor and count 1, the session total goes from 0 to
    1, and the message is handed to the storage backend. *)
Theorem poc_write_accepts_unregistered_topic :
  let env := Examples.env_of 10 true in
  let w := Examples.poc_session env 0 in
  let r := WriterPoC.write env Examples.hello w in
  WriterPoC.storage_ w = Some (Storage.mk "bag/bag" "sqlite3")
  /\ WriterPoC.topics_ w = ∅
  /\ WriterPoC.message_count_ w = 0
  /\ outcome r = inr tt
  /\ WriterPoC.topics_ (after r)
     = {[ "/chatter" := TopicInformation.mk TopicMetadata.empty 1 ]}
  /\ WriterPoC.message_count_ (after r) = 1
  /\ WriterPoC.world (after r)
     = WriterPoC.world w
         ++ [ev_get_bagfile_size "bag/bag"; ev_write "bag/bag" Examples.hello].
Proof. vm_compute. repeat split; reflexivity. Qed.

(** C8, at an input where writer.cpp departs from it: on a session that was
    opened and on which no topic was created, [remove_topic] of [/chatter]
    returns normally, and the removal is handed to the storage backend. *)
Theorem poc_remove_topic_accepts_unregistered_topic :
  let env := Examples.env_of 10 true in
  let w := Examples.poc_session env 0 in
  let r := WriterPoC.remove_topic Examples.chatter w in
  WriterPoC.storage_ w = Some (Storage.mk "bag/bag" "sqlite3")
  /\ WriterPoC.topics_ w = ∅
  /\ outcome r = inr tt
  /\ WriterPoC.topics_ (after r) = ∅
  /\ WriterPoC.world (after r)
     = WriterPoC.world w ++ [ev_remove_topic "bag/bag" Examples.chatter].
Proof. vm_compute. repeat split; reflexivity. Qed.

(** ** Whole-file compression at rollover and at close *)

(** [compress_file] when the compressor throws: the exception leaves the
    function right after the call; nothing is added to the file list and
    the original is not removed. *)
Lemma compression_compress_file_throws
  (env : Env) (uri : string) (e : exn) (w : WriterCompression.Writer) :
  compressor_compress_uri env uri = inl e ->
  WriterCompression.compress_file env uri w
  = (inl e,
     WriterCompression.with_world
       (WriterCompression.world w ++ [ev_compress_uri uri]) w).
Proof.
  intros Hc. unfold WriterCompression.compress_file, WriterCompression.emit.
  rewrite bind_modify, Hc. reflexivity.
Qed.

(** [compress_file] when the compressor returns a path: that path is added
    to the file list and the original is removed, in this order, whatever
    the returned path is. *)
Lemma compression_compress_file_returns
  (env : Env) (uri compressed_uri : string) (w : WriterCompression.Writer) :
  compressor_compress_uri env uri = inr compressed_uri ->
  let r := WriterCompression.compress_file env uri w in
  outcome r = inr tt
  /\ BagMetadata.relative_file_paths (WriterCompression.metadata_ (after r))
     = BagMetadata.relative_file_paths (WriterCompression.metadata_ w)
         ++ [compressed_uri]
  /\ WriterCompression.world (after r)
     = WriterCompression.world w ++ [ev_compress_uri uri; ev_std_remove uri].
Proof.
  intros Hc. cbv zeta.
  unfold WriterCompression.compress_file, WriterCompression.emit,
    WriterCompression.push_back_relative_file_path,
    WriterCompression.update_metadata.
  rewrite bind_modify, Hc, bind_modify.
  unfold modify, outcome, after. cbn. rewrite <- app_assoc. auto.
Qed.

(** C5, at inputs where the code departs from it. The compressor fails on
    the file [bag/bag] that a session in whole-file mode has just finished.
    In the writer with compression options the failure is a throw out of
    [compress_uri]: [split_bagfile] and the destructor end with that
    exception, the file list stays empty (the uncompressed path is not
    added) and the destructor does not reach [write_metadata]. In
    writer.cpp the failure is a cleared [compression_success]:
    [split_bagfile_] lists [bag/bag_1], the file it has just opened, not the
    file [bag/bag] that was to be compressed. *)
Theorem compression_failure_drops_uncompressed_path :
  let env := Examples.env_of 102401 false in
  let failure := runtime_error "compression failed" in
  let w := after (WriterCompression.create_topic Examples.chatter
                    (Examples.compression_session env 0 FILE)) in
  let r := WriterCompression.split_bagfile env w in
  let d := WriterCompression.destroy env w in
  let p := after (WriterPoC.create_topic Examples.chatter
                    (Examples.poc_session env 0)) in
  let r' := WriterPoC.split_bagfile_ env p in
  (WriterCompression.storage_ w = Some (Storage.mk "bag/bag" "sqlite3")
   /\ compressor_compress_uri env "bag/bag" = inl failure
   /\ outcome r = inl failure
   /\ BagMetadata.relative_file_paths (WriterCompression.metadata_ (after r))
      = []
   /\ WriterCompression.world (after r)
      = WriterCompression.world w
          ++ [ev_open_read_write "bag/bag" "sqlite3";
              ev_create_topic "bag/bag" Examples.chatter;
              ev_compress_uri "bag/bag"])
  /\ (outcome d = inl failure
      /\ BagMetadata.relative_file_paths
           (WriterCompression.metadata_ (after d)) = []
      /\ WriterCompression.world (after d)
         = WriterCompression.world w ++ [ev_compress_uri "bag/bag"])
  /\ (factory_get_current_uri env (WriterPoC.world p) = "bag/bag"
      /\ CompressionState.compression_success
           (compressor_compress_uri_state env "bag/bag") = false
      /\ outcome r' = inr tt
      /\ WriterPoC.relative_file_paths_ p = []
      /\ WriterPoC.relative_file_paths_ (after r') = ["bag/bag_1"]).
Proof. vm_compute. repeat split; reflexivity. Qed.

(** ** Message totals in the metadata *)

Lemma compression_with_metadata_id (w : WriterCompression.Writer) :
  WriterCompression.with_metadata_ (WriterCompression.metadata_ w) w = w.
Proof. destruct w; reflexivity. Qed.

Lemma compression_with_metadata_twice (a b : BagMetadata.t)
  (w : WriterCompression.Writer) :
  WriterCompression.with_metadata_ a (WriterCompression.with_metadata_ b w)
  = WriterCompression.with_metadata_ a w.
Proof. reflexivity. Qed.

Lemma compression_bind_update_metadata {B}
  (f : BagMetadata.t -> BagMetadata.t)
  (k : unit -> M WriterCompression.Writer B) (w : WriterCompression.Writer) :
  bind (WriterCompression.update_metadata f) k w
  = k tt (WriterCompression.with_metadata_
            (f (WriterCompression.metadata_ w)) w).
Proof. reflexivity. Qed.

Lemma compression_for_each_update_metadata {A} (l : list A)
  (F : A -> BagMetadata.t -> BagMetadata.t) (w : WriterCompression.Writer) :
  for_each l (fun x => WriterCompression.update_metadata (F x)) w
  = (inr tt,
     WriterCompression.with_metadata_
       (foldl (fun md x => F x md) (WriterCompression.metadata_ w) l) w).
Proof.
  revert w. induction l as [| x l IH]; intros w; cbn [for_each foldl].
  - rewrite compression_with_metadata_id. reflexivity.
  - rewrite compression_bind_update_metadata, IH. reflexivity.
Qed.

Lemma compression_for_each_update_metadata2 {A} (l : list A)
  (F G : A -> BagMetadata.t -> BagMetadata.t)
  (w : WriterCompression.Writer) :
  for_each l (fun x =>
                bind (WriterCompression.update_metadata (F x))
                     (fun _ => WriterCompression.update_metadata (G x))) w
  = (inr tt,
     WriterCompression.with_metadata_
       (foldl (fun md x => G x (F x md)) (WriterCompression.metadata_ w) l)
       w).
Proof.
  revert w. induction l as [| x l IH]; intros w; cbn [for_each foldl].
  - rewrite compression_with_metadata_id. reflexivity.
  - rewrite bind_bind, !compression_bind_update_metadata, IH. reflexivity.
Qed.

(** The loop of [finalize_metadata] over the registry: every entry visited
    is appended to the topic list and its count added to the total. *)
Lemma finalize_topics_loop (l : list (string * TopicInformation.t))
  (md : BagMetadata.t) :
  let md' :=
    foldl (fun md (topic : string * TopicInformation.t) =>
             (fun m => BagMetadata.with_message_count
                         (add64 (BagMetadata.message_count m)
                                (TopicInformation.message_count topic.2)) m)
               ((fun m => BagMetadata.with_topics_with_message_count
                            (BagMetadata.topics_with_message_count m
                               ++ [topic.2]) m) md))
          md l in
  BagMetadata.topics_with_message_count md'
  = BagMetadata.topics_with_message_count md ++ l.*2
  /\ BagMetadata.message_count md'
     = foldl add64 (BagMetadata.message_count md)
             (TopicInformation.message_count <$> l.*2).
Proof.
  revert md. induction l as [| topic l IH]; intros md; cbv zeta;
    cbn [foldl fmap list_fmap].
  - rewrite app_nil_r. auto.
  - match goal with
    | |- context [foldl ?f ?md0 l] => destruct (IH md0) as (Ht & Hc)
    end.
    cbv zeta in Ht, Hc. rewrite Ht, Hc. cbn. rewrite <- app_assoc. auto.
Qed.

Lemma sum_topic_counts_foldr (md : BagMetadata.t) :
  BagMetadata.sum_topic_counts md
  = foldr Z.add 0
      (TopicInformation.message_count
         <$> BagMetadata.topics_with_message_count md).
Proof.
  unfold BagMetadata.sum_topic_counts.
  induction (BagMetadata.topics_with_message_count md) as [| x l IH];
    simpl; [reflexivity | rewrite IH; reflexivity].
Qed.

(** [finalize_metadata] of the writer with compression options returns, in
    every state, and changes the metadata only. *)
Lemma compression_finalize_metadata_eq
  (env : Env) (w : WriterCompression.Writer) :
  exists md : BagMetadata.t,
    WriterCompression.finalize_metadata env w
    = (inr tt, WriterCompression.with_metadata_ md w)
    /\ BagMetadata.topics_with_message_count md
       = (map_to_list (WriterCompression.topics_names_to_info_ w)).*2
    /\ BagMetadata.message_count md
       = foldl add64 0
           (TopicInformation.message_count
              <$> (map_to_list (WriterCompression.topics_names_to_info_ w)).*2).
Proof.
  unfold WriterCompression.finalize_metadata.
  rewrite compression_bind_update_metadata, bind_gets.
  unfold bind at 1. rewrite compression_for_each_update_metadata.
  rewrite !compression_bind_update_metadata, bind_gets.
  unfold bind at 1. rewrite compression_for_each_update_metadata2.
  rewrite !compression_bind_update_metadata, bind_gets.
  unfold WriterCompression.update_metadata, modify.
  cbn [WriterCompression.topics_names_to_info_
       WriterCompression.with_metadata_ WriterCompression.metadata_
       WriterCompression.compression_options_].
  eexists. split; [reflexivity |].
  match goal with
  | |- context [foldl ?f ?md0 (map_to_list ?m)] =>
      destruct (finalize_topics_loop (map_to_list m) md0) as (Ht & Hc)
  end.
  cbv zeta beta in Ht, Hc.
  cbn [BagMetadata.topics_with_message_count BagMetadata.message_count
       BagMetadata.relative_file_paths
       BagMetadata.with_compression_mode BagMetadata.with_compression_format].
  rewrite Ht, Hc. cbn. auto.
Qed.

(** In the writer with compression options the finalized metadata lists the
    entries of the registry, and its total is the sum of the counts it
    lists, in 64-bit arithmetic: the two are equal as long as the sum fits
    in 64 bits. *)
Lemma compression_finalize_metadata_total
  (env : Env) (w : WriterCompression.Writer) :
  let r := WriterCompression.finalize_metadata env w in
  let md := WriterCompression.metadata_ (after r) in
  outcome r = inr tt
  /\ BagMetadata.topics_with_message_count md
     = (map_to_list (WriterCompression.topics_names_to_info_ w)).*2
  /\ BagMetadata.message_count md = wrap64 (BagMetadata.sum_topic_counts md)
  /\ (0 <= BagMetadata.sum_topic_counts md < 2 ^ 64 ->
      BagMetadata.message_count md = BagMetadata.sum_topic_counts md).
Proof.
  cbv zeta.
  destruct (compression_finalize_metadata_eq env w) as (md & Heq & Ht & Hc).
  rewrite Heq. unfold outcome, after.
  cbn [fst snd WriterCompression.metadata_ WriterCompression.with_metadata_].
  assert (Htotal :
    BagMetadata.message_count md = wrap64 (BagMetadata.sum_topic_counts md)).
  { rewrite Hc, sum_topic_counts_foldr, Ht.
    change 0 with (wrap64 0) at 1. rewrite foldl_add64. reflexivity. }
  split; [reflexivity |]. split; [exact Ht |]. split; [exact Htotal |].
  intros Hrange. rewrite Htotal. apply Z.mod_small. exact Hrange.
Qed.

(** C6, at an input where writer.cpp departs from it: a session creates
    [/chatter], writes one message on it and removes the topic. The
    metadata that the destructor generates and hands to [write_metadata]
    has total message count 1 and an empty topic list, whose counts sum
    to 0. *)
Theorem poc_metadata_total_after_remove_topic :
  let env := Examples.env_of 10 true in
  let w := after (Examples.run
                    [WriterPoC.create_topic Examples.chatter;
                     WriterPoC.write env Examples.hello;
                     WriterPoC.remove_topic Examples.chatter]
                    (Examples.poc_session env 0)) in
  let md := WriterPoC.generate_metadata_ env w in
  outcome (Examples.run
             [WriterPoC.create_topic Examples.chatter;
              WriterPoC.write env Examples.hello;
              WriterPoC.remove_topic Examples.chatter]
             (Examples.poc_session env 0)) = inr tt
  /\ BagMetadata.message_count md = 1
  /\ BagMetadata.topics_with_message_count md = []
  /\ BagMetadata.sum_topic_counts md = 0
  /\ last (WriterPoC.world (after (WriterPoC.destroy env w)))
     = Some (ev_write_metadata "bag" md).
Proof. vm_compute. repeat split; reflexivity. Qed.

(** ** The order of rollover and storage write inside [write] *)

Lemma no_write_app (l1 l2 : list Event) :
  Spec.no_write (l1 ++ l2) = Spec.no_write l1 && Spec.no_write l2.
Proof. unfold Spec.no_write. apply forallb_app. Qed.

Lemma no_write_create_topics {A} (file : string) (f : A -> TopicMetadata.t)
  (l : list A) :
  Spec.no_write (map (fun x => ev_create_topic file (f x)) l) = true.
Proof. induction l as [| x l IH]; [reflexivity | exact IH]. Qed.

Lemma no_write_reverse (calls : list Event) :
  Spec.no_write (reverse calls) = Spec.no_write calls.
Proof.
  induction calls as [| e calls IH]; [reflexivity |].
  rewrite reverse_cons, no_write_app, IH.
  unfold Spec.no_write. cbn [forallb]. rewrite andb_true_r. apply andb_comm.
Qed.

Lemma write_is_last_call_snoc (calls : list Event) (file : string)
  (m : SerializedBagMessage.t) :
  Spec.write_is_last_call (calls ++ [ev_write file m]) = Spec.no_write calls.
Proof.
  unfold Spec.write_is_last_call. rewrite reverse_snoc.
  apply no_write_reverse.
Qed.

Lemma compression_bind_emit {B} (e : Event)
  (k : unit -> M WriterCompression.Writer B) (w : WriterCompression.Writer) :
  bind (WriterCompression.emit e) k w
  = k tt (WriterCompression.with_world (WriterCompression.world w ++ [e]) w).
Proof. reflexivity. Qed.

Lemma compression_bind_deref_storage {B} (st : Storage.t)
  (k : Storage.t -> M WriterCompression.Writer B)
  (w : WriterCompression.Writer) :
  WriterCompression.storage_ w = Some st ->
  bind WriterCompression.deref_storage k w = k st w.
Proof.
  intros Hst. unfold bind, WriterCompression.deref_storage.
  rewrite Hst. reflexivity.
Qed.

Lemma compression_for_each_emit {A} (l : list A) (f : A -> Event)
  (w : WriterCompression.Writer) :
  for_each l (fun x => WriterCompression.emit (f x)) w
  = (inr tt,
     WriterCompression.with_world (WriterCompression.world w ++ map f l) w).
Proof.
  revert w. induction l as [| x l IH]; intros w; cbn [for_each map].
  - rewrite app_nil_r. destruct w; reflexivity.
  - rewrite compression_bind_emit, IH.
    cbn [WriterCompression.world WriterCompression.with_world].
    rewrite <- app_assoc. reflexivity.
Qed.

Lemma compression_bind_for_each_emit {A B} (l : list A) (f : A -> Event)
  (k : unit -> M WriterCompression.Writer B) (w : WriterCompression.Writer) :
  bind (for_each l (fun x => WriterCompression.emit (f x))) k w
  = k tt (WriterCompression.with_world
            (WriterCompression.world w ++ map f l) w).
Proof. unfold bind. rewrite compression_for_each_emit. reflexivity. Qed.

Ltac compression_fields :=
  cbn [WriterCompression.storage_ WriterCompression.converter_
       WriterCompression.max_bagfile_size_ WriterCompression.base_folder_
       WriterCompression.topics_names_to_info_ WriterCompression.metadata_
       WriterCompression.compression_options_ WriterCompression.world
       WriterCompression.with_storage_ WriterCompression.with_converter_
       WriterCompression.with_max_bagfile_size_
       WriterCompression.with_base_folder_
       WriterCompression.with_topics_names_to_info_
       WriterCompression.with_metadata_
       WriterCompression.with_compression_options_
       WriterCompression.with_world] in *.

Ltac compression_step :=
  first
    [ rewrite bind_bind
    | rewrite bind_gets
    | rewrite bind_get
    | rewrite bind_modify
    | rewrite bind_ret
    | rewrite bind_throw
    | rewrite compression_bind_emit
    | rewrite compression_bind_for_each_emit
    | rewrite compression_bind_update_metadata
    | erewrite compression_bind_deref_storage
        by (compression_fields; eassumption) ];
  compression_fields.

Lemma compression_compress_file_returns_eq
  (env : Env) (uri compressed_uri : string) (w : WriterCompression.Writer) :
  compressor_compress_uri env uri = inr compressed_uri ->
  WriterCompression.compress_file env uri w
  = (inr tt,
     WriterCompression.with_world
       (WriterCompression.world w ++ [ev_compress_uri uri; ev_std_remove uri])
       (WriterCompression.with_metadata_
          (BagMetadata.with_relative_file_paths
             (BagMetadata.relative_file_paths (WriterCompression.metadata_ w)
                ++ [compressed_uri])
             (WriterCompression.metadata_ w)) w)).
Proof.
  intros Hc.
  unfold WriterCompression.compress_file, WriterCompression.emit,
    WriterCompression.push_back_relative_file_path,
    WriterCompression.update_metadata.
  rewrite bind_modify, Hc, bind_modify.
  unfold modify. cbn. rewrite <- app_assoc. reflexivity.
Qed.

(** [split_bagfile] on an open session: its first call opens the next file,
    no message is written during the rollover, the registry, the converter
    and the options are kept, and it returns only with a handle in place. *)
Lemma compression_split_bagfile_calls
  (env : Env) (w : WriterCompression.Writer) (st : Storage.t) :
  WriterCompression.storage_ w = Some st ->
  exists (res : exn + unit) (w' : WriterCompression.Writer)
         (calls : list Event),
    WriterCompression.split_bagfile env w = (res, w')
    /\ WriterCompression.world w'
       = WriterCompression.world w
           ++ ev_open_read_write
                (WriterCompression.format_storage_uri env
                   (WriterCompression.base_folder_ w)
                   (Z.of_nat (length (BagMetadata.relative_file_paths
                                        (WriterCompression.metadata_ w)))))
                (BagMetadata.storage_identifier
                   (WriterCompression.metadata_ w))
              :: calls
    /\ Spec.no_write calls = true
    /\ WriterCompression.topics_names_to_info_ w'
       = WriterCompression.topics_names_to_info_ w
    /\ WriterCompression.converter_ w' = WriterCompression.converter_ w
    /\ WriterCompression.compression_options_ w'
       = WriterCompression.compression_options_ w
    /\ (res = inr tt -> is_Some (WriterCompression.storage_ w')).
Proof.
  intros Hst.
  unfold WriterCompression.split_bagfile.
  repeat compression_step.
  destruct (factory_open_read_write env _ _) as [new_storage |] eqn:Hopen.
  - repeat compression_step.
    destruct (bool_decide _).
    + destruct (compressor_compress_uri env (Storage.relative_path st))
        as [e | compressed_uri] eqn:Hc.
      * rewrite (compression_compress_file_throws _ _ e) by exact Hc.
        eexists _, _, _. split; [reflexivity |]. compression_fields.
        rewrite <- !app_assoc. split; [reflexivity |].
        rewrite no_write_app, no_write_create_topics.
        repeat split; try reflexivity. discriminate.
      * rewrite (compression_compress_file_returns_eq _ _ compressed_uri)
          by exact Hc.
        eexists _, _, _. split; [reflexivity |]. compression_fields.
        rewrite <- !app_assoc. split; [reflexivity |].
        rewrite no_write_app, no_write_create_topics.
        repeat split; try reflexivity. eauto.
    + unfold WriterCompression.push_back_relative_file_path,
        WriterCompression.update_metadata, modify.
      eexists _, _, _. split; [reflexivity |]. compression_fields.
      rewrite <- !app_assoc. split; [reflexivity |].
      split; [apply no_write_create_topics |].
      repeat split; try reflexivity. eauto.
  - unfold throw.
    eexists _, _, []. split; [reflexivity |]. compression_fields.
    repeat split; try reflexivity. discriminate.
Qed.

Lemma write_is_last_call_parts (l1 l2 : list Event) (file : string)
  (m : SerializedBagMessage.t) :
  Spec.no_write l1 = true -> Spec.no_write l2 = true ->
  Spec.write_is_last_call (l1 ++ l2 ++ [ev_write file m]) = true.
Proof.
  intros H1 H2. rewrite app_assoc, write_is_last_call_snoc, no_write_app.
  rewrite H1, H2. reflexivity.
Qed.

Ltac compression_write_tail :=
  repeat compression_step;
  destruct (WriterCompression.converter_ _);
  repeat compression_step;
  destruct (bool_decide (_ = MESSAGE));
  repeat compression_step;
  unfold WriterCompression.emit, modify.

(** [write] of the writer with compression options, on an open session and
    a registered topic: the split policy is asked first; the rollover, if the
    policy fires, comes next; the storage write is the last call. A [write]
    that throws has handed no message to a backend. *)
Lemma compression_write_calls
  (env : Env) (w : WriterCompression.Writer) (st : Storage.t)
  (m : SerializedBagMessage.t) (info : TopicInformation.t) :
  WriterCompression.storage_ w = Some st ->
  WriterCompression.topics_names_to_info_ w
    !! SerializedBagMessage.topic_name m = Some info ->
  exists (res : exn + unit) (w' : WriterCompression.Writer)
         (calls : list Event),
    WriterCompression.write env m w = (res, w')
    /\ WriterCompression.world w'
       = WriterCompression.world w
           ++ ev_get_bagfile_size (Storage.relative_path st) :: calls
    /\ existsb is_ev_open_read_write calls
       = (102400 <?
            storage_get_bagfile_size env (WriterCompression.world w) st)
    /\ match res with
       | inr _ => Spec.write_is_last_call calls = true
       | inl _ => Spec.no_write calls = true
       end.
Proof.
  intros Hst Hlook.
  unfold WriterCompression.write.
  rewrite bind_gets, Hst, bind_gets, Hlook, bind_modify.
  unfold bind at 1.
  rewrite (compression_should_split_bagfile_hardcoded env _ st)
    by (compression_fields; exact Hst).
  compression_fields.
  destruct (102400 <? _) eqn:Hsplit.
  - unfold bind at 1.
    match goal with
    | |- context [WriterCompression.split_bagfile env ?w2] =>
        destruct (compression_split_bagfile_calls env w2 st)
          as (res & w3 & calls0 & Heq & Hworld & Hnw & _ & _ & _ & Hsome);
        [compression_fields; exact Hst |]
    end.
    rewrite Heq. compression_fields.
    destruct res as [e | []].
    + eexists _, _, _. split; [reflexivity |].
      rewrite Hworld, <- app_assoc. split; [reflexivity |].
      split; [reflexivity |].
      exact Hnw.
    + destruct (Hsome eq_refl) as [st3 Hst3].
      compression_write_tail;
        (eexists _, _, _; split; [reflexivity |]; compression_fields;
         rewrite Hworld, <- !app_assoc; cbn [app];
         split; [reflexivity |]; split; [reflexivity |]).
      * apply (write_is_last_call_parts (_ :: calls0) [_; _]);
          [exact Hnw | reflexivity].
      * apply (write_is_last_call_parts (_ :: calls0) [_]);
          [exact Hnw | reflexivity].
      * apply (write_is_last_call_parts (_ :: calls0) [_]);
          [exact Hnw | reflexivity].
      * apply (write_is_last_call_parts (_ :: calls0) []);
          [exact Hnw | reflexivity].
  - compression_write_tail;
      (eexists _, _, _; split; [reflexivity |]; compression_fields;
       rewrite <- !app_assoc; cbn [app];
       split; [reflexivity |]; split; reflexivity).
Qed.

Lemma poc_bind_emit {B} (e : Event) (k : unit -> M WriterPoC.Writer B)
  (w : WriterPoC.Writer) :
  bind (WriterPoC.emit e) k w
  = k tt (WriterPoC.with_world (WriterPoC.world w ++ [e]) w).
Proof. reflexivity. Qed.

Lemma poc_bind_deref_storage {B} (st : Storage.t)
  (k : Storage.t -> M WriterPoC.Writer B) (w : WriterPoC.Writer) :
  WriterPoC.storage_ w = Some st ->
  bind WriterPoC.deref_storage k w = k st w.
Proof.
  intros Hst. unfold bind, WriterPoC.deref_storage.
  rewrite Hst. reflexivity.
Qed.

Lemma poc_for_each_emit {A} (l : list A) (f : A -> Event)
  (w : WriterPoC.Writer) :
  for_each l (fun x => WriterPoC.emit (f x)) w
  = (inr tt, WriterPoC.with_world (WriterPoC.world w ++ map f l) w).
Proof.
  revert w. induction l as [| x l IH]; intros w; cbn [for_each map].
  - rewrite app_nil_r. destruct w; reflexivity.
  - rewrite poc_bind_emit, IH.
    cbn [WriterPoC.world WriterPoC.with_world].
    rewrite <- app_assoc. reflexivity.
Qed.

Lemma poc_bind_for_each_emit {A B} (l : list A) (f : A -> Event)
  (k : unit -> M WriterPoC.Writer B) (w : WriterPoC.Writer) :
  bind (for_each l (fun x => WriterPoC.emit (f x))) k w
  = k tt (WriterPoC.with_world (WriterPoC.world w ++ map f l) w).
Proof. unfold bind. rewrite poc_for_each_emit. reflexivity. Qed.

Ltac poc_fields :=
  cbn [WriterPoC.storage_ WriterPoC.converter_ WriterPoC.max_bagfile_size_
       WriterPoC.relative_file_paths_ WriterPoC.message_count_
       WriterPoC.topics_ WriterPoC.bagfile_counter_ WriterPoC.start_time_
       WriterPoC.end_time_ WriterPoC.storage_id_ WriterPoC.uri_
       WriterPoC.world
       WriterPoC.with_storage_ WriterPoC.with_converter_
       WriterPoC.with_max_bagfile_size_ WriterPoC.with_relative_file_paths_
       WriterPoC.with_message_count_ WriterPoC.with_topics_
       WriterPoC.with_bagfile_counter_ WriterPoC.with_start_time_
       WriterPoC.with_end_time_ WriterPoC.with_storage_id_
       WriterPoC.with_uri_ WriterPoC.with_world] in *.

Ltac poc_step :=
  first
    [ rewrite bind_bind
    | rewrite bind_gets
    | rewrite bind_get
    | rewrite bind_modify
    | rewrite bind_ret
    | rewrite bind_throw
    | rewrite poc_bind_emit
    | rewrite poc_bind_for_each_emit
    | erewrite poc_bind_deref_storage by (poc_fields; eassumption) ];
  poc_fields.

(** [split_bagfile_] of writer.cpp: its first call opens the next file, no
    message is written during the rollover, and it returns only with a
    handle in place. *)
Lemma poc_split_bagfile_calls (env : Env) (w : WriterPoC.Writer) :
  exists (res : exn + unit) (w' : WriterPoC.Writer) (uri : string)
         (calls : list Event),
    WriterPoC.split_bagfile_ env w = (res, w')
    /\ WriterPoC.world w'
       = WriterPoC.world w
           ++ ev_open_read_write uri (WriterPoC.storage_id_ w) :: calls
    /\ Spec.no_write calls = true
    /\ (res = inr tt -> is_Some (WriterPoC.storage_ w'))
    /\ WriterPoC.topics_ w' = WriterPoC.topics_ w
    /\ WriterPoC.message_count_ w' = WriterPoC.message_count_ w.
Proof.
  unfold WriterPoC.split_bagfile_, WriterPoC.next_bagfile_uri_.
  repeat poc_step.
  destruct (factory_open_read_write env _ _) as [new_storage |] eqn:Hopen.
  - repeat poc_step. unfold modify.
    eexists _, _, _, _. split; [reflexivity |]. poc_fields.
    rewrite <- !app_assoc. split; [reflexivity |].
    rewrite no_write_app, no_write_create_topics.
    split; [reflexivity |]. split; [eauto |]. split; reflexivity.
  - unfold throw.
    eexists _, _, _, []. split; [reflexivity |]. poc_fields.
    repeat split; try reflexivity. discriminate.
Qed.

(** [write] of writer.cpp on an open session: split policy, then rollover,
    then the storage write as the last call. *)
Lemma poc_write_calls
  (env : Env) (w : WriterPoC.Writer) (st : Storage.t)
  (m : SerializedBagMessage.t) :
  WriterPoC.storage_ w = Some st ->
  exists (res : exn + unit) (w' : WriterPoC.Writer) (calls : list Event),
    WriterPoC.write env m w = (res, w')
    /\ WriterPoC.world w'
       = WriterPoC.world w
           ++ ev_get_bagfile_size (Storage.relative_path st) :: calls
    /\ existsb is_ev_open_read_write calls
       = (102400 <? storage_get_bagfile_size env (WriterPoC.world w) st)
    /\ match res with
       | inr _ => Spec.write_is_last_call calls = true
       | inl _ => Spec.no_write calls = true
       end.
Proof.
  intros Hst.
  unfold WriterPoC.write.
  rewrite bind_gets, Hst, !bind_modify.
  unfold bind at 1.
  rewrite (poc_should_split_bagfile_hardcoded env _ st)
    by (poc_fields; exact Hst).
  poc_fields.
  destruct (102400 <? _) eqn:Hsplit.
  - unfold bind at 1.
    match goal with
    | |- context [WriterPoC.split_bagfile_ env ?w2] =>
        destruct (poc_split_bagfile_calls env w2)
          as (res & w3 & uri & calls0 & Heq & Hworld & Hnw & Hsome & _ & _)
    end.
    rewrite Heq. poc_fields.
    destruct res as [e | []].
    + eexists _, _, _. split; [reflexivity |].
      rewrite Hworld, <- app_assoc. split; [reflexivity |].
      split; [reflexivity | exact Hnw].
    + destruct (Hsome eq_refl) as [st3 Hst3].
      repeat poc_step. destruct (WriterPoC.converter_ _);
        repeat poc_step; unfold WriterPoC.emit, modify;
        (eexists _, _, _; split; [reflexivity |]; poc_fields;
         rewrite Hworld, <- !app_assoc; cbn [app];
         split; [reflexivity |]; split; [reflexivity |]).
      * apply (write_is_last_call_parts (_ :: calls0) [_]);
          [exact Hnw | reflexivity].
      * apply (write_is_last_call_parts (_ :: calls0) []);
          [exact Hnw | reflexivity].
  - repeat poc_step. destruct (WriterPoC.converter_ _);
      repeat poc_step; unfold WriterPoC.emit, modify;
      (eexists _, _, _; split; [reflexivity |]; poc_fields;
       rewrite <- !app_assoc; cbn [app];
       split; [reflexivity |]; split; reflexivity).
Qed.

Lemma aggregate_bind_emit {B} (e : Event)
  (k : unit -> M WriterAggregate.Writer B) (w : WriterAggregate.Writer) :
  bind (WriterAggregate.emit e) k w
  = k tt (WriterAggregate.with_world (WriterAggregate.world w ++ [e]) w).
Proof. reflexivity. Qed.

Lemma aggregate_bind_deref_storage {B} (st : Storage.t)
  (k : Storage.t -> M WriterAggregate.Writer B)
  (w : WriterAggregate.Writer) :
  WriterAggregate.storage_ w = Some st ->
  bind WriterAggregate.deref_storage k w = k st w.
Proof.
  intros Hst. unfold bind, WriterAggregate.deref_storage.
  rewrite Hst. reflexivity.
Qed.

Ltac aggregate_fields :=
  cbn [WriterAggregate.storage_ WriterAggregate.converter_
       WriterAggregate.max_bagfile_size_ WriterAggregate.uri_
       WriterAggregate.metadata_ WriterAggregate.world
       WriterAggregate.with_storage_ WriterAggregate.with_converter_
       WriterAggregate.with_max_bagfile_size_ WriterAggregate.with_uri_
       WriterAggregate.with_metadata_ WriterAggregate.with_world] in *.

Ltac aggregate_step :=
  first
    [ rewrite bind_bind
    | rewrite bind_gets
    | rewrite bind_get
    | rewrite bind_modify
    | rewrite bind_ret
    | rewrite bind_throw
    | rewrite aggregate_bind_emit
    | erewrite aggregate_bind_deref_storage
        by (aggregate_fields; eassumption) ];
  aggregate_fields.

Ltac exists_aggregate_write pre post :=
  eexists _, pre, post, _;
  (split; [reflexivity |]); aggregate_fields;
  (split; [rewrite <- ?app_assoc; reflexivity |]);
  (split; [auto |]); (split; [reflexivity |]);
  cbn [existsb is_ev_split_database orb Spec.should_split].

(** [write] of the aggregating writer on an open session: it returns; the
    message goes to the storage backend first (after the conversion, if
    any), the split policy is asked about the file that now holds the
    message, and the split follows the storage write. *)
Lemma aggregate_write_calls
  (env : Env) (w : WriterAggregate.Writer) (st : Storage.t)
  (m : SerializedBagMessage.t) :
  WriterAggregate.storage_ w = Some st ->
  exists (w' : WriterAggregate.Writer) (pre post : list Event)
         (m' : SerializedBagMessage.t),
    WriterAggregate.write env m w = (inr tt, w')
    /\ WriterAggregate.world w'
       = WriterAggregate.world w
           ++ pre ++ ev_write (Storage.relative_path st) m' :: post
    /\ (pre = [] \/ pre = [ev_convert m])
    /\ Spec.no_write post = true
    /\ existsb is_ev_split_database post
       = Spec.should_split
           (Spec.configured_threshold env (WriterAggregate.max_bagfile_size_ w))
           (storage_get_bagfile_size env
              (WriterAggregate.world w
                 ++ pre ++ [ev_write (Storage.relative_path st) m'])
              st).
Proof.
  intros Hst.
  unfold WriterAggregate.write, WriterAggregate.should_split_database,
    WriterAggregate.aggregate_metadata_, Spec.configured_threshold.
  rewrite bind_gets, Hst.
  repeat aggregate_step.
  destruct (WriterAggregate.converter_ w); repeat aggregate_step;
    (case_bool_decide as Hmax; repeat aggregate_step;
     [destruct (_ <? _) eqn:Hsplit; repeat aggregate_step |];
     unfold WriterAggregate.emit, modify, ret).
  - exists_aggregate_write [ev_convert m]
      [ev_get_bagfile_size (Storage.relative_path st);
       ev_get_metadata (Storage.relative_path st);
       ev_split_database (Storage.relative_path st)].
    rewrite app_assoc, Hsplit. reflexivity.
  - exists_aggregate_write [ev_convert m]
      [ev_get_bagfile_size (Storage.relative_path st)].
    rewrite app_assoc, Hsplit. reflexivity.
  - exists_aggregate_write [ev_convert m] (@nil Event).
    reflexivity.
  - exists_aggregate_write (@nil Event)
      [ev_get_bagfile_size (Storage.relative_path st);
       ev_get_metadata (Storage.relative_path st);
       ev_split_database (Storage.relative_path st)].
    cbn [app]. rewrite Hsplit. reflexivity.
  - exists_aggregate_write (@nil Event)
      [ev_get_bagfile_size (Storage.relative_path st)].
    cbn [app]. rewrite Hsplit. reflexivity.
  - exists_aggregate_write (@nil Event) (@nil Event).
    reflexivity.
Qed.

(** ** writer.cpp: the session total and the registry *)

Lemma foldr_add_permutation (l1 l2 : list Z) :
  l1 ≡ₚ l2 -> foldr Z.add 0 l1 = foldr Z.add 0 l2.
Proof.
  induction 1 as [| x l1 l2 _ IH | x y l | l1 l2 l3 _ IH1 _ IH2]; simpl; lia.
Qed.

Lemma registry_total_insert_fresh (m : gmap string TopicInformation.t)
  (k : string) (v : TopicInformation.t) :
  m !! k = None ->
  Spec.registry_total (<[k := v]> m)
  = TopicInformation.message_count v + Spec.registry_total m.
Proof.
  intros Hk. unfold Spec.registry_total.
  rewrite (foldr_add_permutation
             (TopicInformation.message_count
                <$> (map_to_list (<[k := v]> m)).*2)
             (TopicInformation.message_count
                <$> ((k, v) :: map_to_list m).*2)).
  - reflexivity.
  - rewrite (map_to_list_insert m k v Hk). reflexivity.
Qed.

Lemma registry_total_lookup (m : gmap string TopicInformation.t)
  (k : string) (v : TopicInformation.t) :
  m !! k = Some v ->
  Spec.registry_total m
  = TopicInformation.message_count v + Spec.registry_total (delete k m).
Proof.
  intros Hk.
  rewrite <- (insert_delete_id m k v Hk) at 1.
  apply registry_total_insert_fresh, lookup_delete_eq.
Qed.

Lemma registry_total_insert (m : gmap string TopicInformation.t)
  (k : string) (v : TopicInformation.t) :
  Spec.registry_total (<[k := v]> m)
  = TopicInformation.message_count v + Spec.registry_total (delete k m).
Proof.
  rewrite <- insert_delete_eq.
  apply registry_total_insert_fresh, lookup_delete_eq.
Qed.

(** Counting one more message in the entry of [k] (a fresh entry if there is
    none) adds one to the sum of the registry, in 64-bit arithmetic. *)
Lemma registry_total_increment (m : gmap string TopicInformation.t)
  (k : string) :
  wrap64 (Spec.registry_total
            (<[k := TopicInformation.increment
                      (default TopicInformation.empty (m !! k))]> m))
  = wrap64 (Spec.registry_total m + 1).
Proof.
  rewrite registry_total_insert.
  destruct (m !! k) as [info |] eqn:Hk; cbn [default from_option id].
  - rewrite (registry_total_lookup m k info Hk).
    cbn [TopicInformation.increment TopicInformation.message_count].
    unfold incr64, wrap64.
    rewrite Zplus_mod_idemp_l. f_equal. lia.
  - rewrite (delete_id m k Hk).
    cbn [TopicInformation.increment TopicInformation.message_count
         TopicInformation.empty].
    unfold incr64, wrap64.
    rewrite Zplus_mod_idemp_l. f_equal. lia.
Qed.

(** [write] of writer.cpp on an open session counts the message before
    anything else: whatever happens next, the registry holds the name with
    its count incremented (from 0 for a name that was not registered), the
    session total is incremented, and the call does not end with what the
    lookup of an unknown topic throws. *)
Lemma poc_write_counts
  (env : Env) (w : WriterPoC.Writer) (st : Storage.t)
  (m : SerializedBagMessage.t) :
  WriterPoC.storage_ w = Some st ->
  exists (res : exn + unit) (w' : WriterPoC.Writer),
    WriterPoC.write env m w = (res, w')
    /\ WriterPoC.topics_ w'
       = <[SerializedBagMessage.topic_name m
           := TopicInformation.increment
                (default TopicInformation.empty
                   (WriterPoC.topics_ w
                      !! SerializedBagMessage.topic_name m))]>
           (WriterPoC.topics_ w)
    /\ WriterPoC.message_count_ w' = incr64 (WriterPoC.message_count_ w)
    /\ res ≠ inl out_of_range.
Proof.
  intros Hst.
  unfold WriterPoC.write.
  rewrite bind_gets, Hst, !bind_modify.
  unfold bind at 1.
  rewrite (poc_should_split_bagfile_hardcoded env _ st)
    by (poc_fields; exact Hst).
  poc_fields.
  destruct (102400 <? _) eqn:Hsplit.
  - unfold bind at 1.
    match goal with
    | |- context [WriterPoC.split_bagfile_ env ?w2] =>
        destruct (poc_split_bagfile_calls env w2)
          as (res & w3 & uri & calls0 & Heq & _ & _ & Hsome & Htopics & Hcount)
    end.
    rewrite Heq. poc_fields.
    destruct res as [e | []].
    + eexists _, _. split; [reflexivity |].
      split; [exact Htopics |]. split; [exact Hcount |].
      intros He. injection He as ->.
      revert Heq. unfold WriterPoC.split_bagfile_, WriterPoC.next_bagfile_uri_.
      repeat poc_step.
      destruct (factory_open_read_write env _ _);
        repeat poc_step; unfold modify, throw; discriminate.
    + destruct (Hsome eq_refl) as [st3 Hst3].
      repeat poc_step. destruct (WriterPoC.converter_ _);
        repeat poc_step; unfold WriterPoC.emit, modify;
        (eexists _, _; split; [reflexivity |]; poc_fields;
         split; [exact Htopics |]; split; [exact Hcount | discriminate]).
  - repeat poc_step. destruct (WriterPoC.converter_ _);
      repeat poc_step; unfold WriterPoC.emit, modify;
      (eexists _, _; split; [reflexivity |]; poc_fields;
       split; [reflexivity |]; split; [reflexivity | discriminate]).
Qed.

Lemma poc_create_topic_keeps_total (w : WriterPoC.Writer)
  (t : TopicMetadata.t) :
  WriterPoC.message_count_ (after (WriterPoC.create_topic t w))
  = WriterPoC.message_count_ w
  /\ Spec.registry_total
       (WriterPoC.topics_ (after (WriterPoC.create_topic t w)))
     = Spec.registry_total (WriterPoC.topics_ w).
Proof.
  destruct (WriterPoC.storage_ w) as [st |] eqn:Hst.
  - destruct (poc_create_topic_open w st t Hst) as (_ & Htopics & _).
    rewrite Htopics. split.
    + unfold WriterPoC.create_topic, WriterPoC.emit, WriterPoC.deref_storage,
        bind, gets, modify, ret, after.
      rewrite Hst. destruct (WriterPoC.converter_ w); poc_fields;
        rewrite Hst; reflexivity.
    + destruct (WriterPoC.topics_ w !! TopicMetadata.name t) eqn:Hlook;
        [reflexivity |].
      rewrite registry_total_insert_fresh by exact Hlook.
      cbn [TopicInformation.message_count]. lia.
  - unfold WriterPoC.create_topic, bind, gets, throw, after.
    rewrite Hst. split; reflexivity.
Qed.

Lemma poc_open_keeps_counts (env : Env) (uri storage_id : string)
  (max_bagfile_size : Z) (input output : string) (w : WriterPoC.Writer) :
  let w' := after (WriterPoC.open env uri storage_id max_bagfile_size
                     input output w) in
  WriterPoC.message_count_ w' = WriterPoC.message_count_ w
  /\ WriterPoC.topics_ w' = WriterPoC.topics_ w.
Proof.
  cbv zeta.
  unfold WriterPoC.open, WriterPoC.next_bagfile_uri_.
  repeat poc_step.
  case_bool_decide; repeat poc_step;
    (destruct (factory_open_read_write env _ _); repeat poc_step;
     unfold modify, throw, after; split; reflexivity).
Qed.

Lemma poc_write_keeps_invariant (env : Env) (m : SerializedBagMessage.t)
  (w : WriterPoC.Writer) :
  WriterPoC.message_count_ w
  = wrap64 (Spec.registry_total (WriterPoC.topics_ w)) ->
  WriterPoC.message_count_ (after (WriterPoC.write env m w))
  = wrap64 (Spec.registry_total
              (WriterPoC.topics_ (after (WriterPoC.write env m w)))).
Proof.
  intros Hinv.
  destruct (WriterPoC.storage_ w) as [st |] eqn:Hst.
  - destruct (poc_write_counts env w st m Hst)
      as (res & w' & Heq & Htopics & Hcount & _).
    rewrite Heq. unfold after. cbn [snd].
    rewrite Hcount, Htopics, registry_total_increment, Hinv.
    unfold incr64, wrap64. apply Zplus_mod_idemp_l.
  - destruct (poc_closed env w m TopicMetadata.empty Hst) as [Heq _].
    rewrite Heq. exact Hinv.
Qed.

(** In writer.cpp, as long as no topic is removed, the session total is the
    sum of the counts in the registry (in 64-bit arithmetic), after any
    sequence of [open], [create_topic] and [write] calls, whichever of them
    throw. *)
Lemma poc_total_invariant (env : Env) (calls : list Sessions.Call)
  (w : WriterPoC.Writer) :
  WriterPoC.message_count_ w
  = wrap64 (Spec.registry_total (WriterPoC.topics_ w)) ->
  WriterPoC.message_count_ (Sessions.state_after env calls w)
  = wrap64 (Spec.registry_total
              (WriterPoC.topics_ (Sessions.state_after env calls w))).
Proof.
  revert w. induction calls as [| c calls IH]; intros w Hinv; [exact Hinv |].
  unfold Sessions.state_after. cbn [foldl].
  apply IH. destruct c as [uri id max i o | t | m]; cbn [Sessions.exec].
  - destruct (poc_open_keeps_counts env uri id max i o w) as [Hc Ht].
    cbv zeta in Hc, Ht. rewrite Hc, Ht. exact Hinv.
  - destruct (poc_create_topic_keeps_total w t) as [Hc Ht].
    rewrite Hc, Ht. exact Hinv.
  - apply poc_write_keeps_invariant. exact Hinv.
Qed.

(** So the metadata that writer.cpp generates for a session without
    [remove_topic] has the total of the counts it lists. *)
Lemma poc_generate_metadata_total_without_remove
  (env : Env) (calls : list Sessions.Call) :
  let w := Sessions.state_after env calls (WriterPoC.Writer_new env) in
  let md := WriterPoC.generate_metadata_ env w in
  BagMetadata.message_count md = wrap64 (BagMetadata.sum_topic_counts md).
Proof.
  cbv zeta.
  pose proof (poc_total_invariant env calls (WriterPoC.Writer_new env)
                eq_refl) as Hinv.
  unfold WriterPoC.generate_metadata_.
  destruct (WriterPoC.storage_ _); [| reflexivity].
  rewrite sum_topic_counts_foldr.
  cbn [BagMetadata.message_count BagMetadata.topics_with_message_count].
  exact Hinv.
Qed.

(** ** The metadata that the destructor of the writer with compression
    options persists *)

(** Whenever [~Writer] returns on a writer with a base folder, the last call
    it made is [write_metadata] on that folder, and the metadata handed over
    has the total of the counts it lists (in 64-bit arithmetic). *)
Lemma compression_destroy_persists_consistent_total
  (env : Env) (w : WriterCompression.Writer) :
  exists (res : exn + unit) (w' : WriterCompression.Writer),
    WriterCompression.destroy env w = (res, w')
    /\ (res = inr tt ->
        WriterCompression.base_folder_ w ≠ EmptyString ->
        exists md : BagMetadata.t,
          last (WriterCompression.world w')
          = Some (ev_write_metadata (WriterCompression.base_folder_ w) md)
          /\ BagMetadata.message_count md
             = wrap64 (BagMetadata.sum_topic_counts md)).
Proof.
  assert (Hfinal :
    forall w0 : WriterCompression.Writer,
      WriterCompression.base_folder_ w0 = WriterCompression.base_folder_ w ->
      exists (res : exn + unit) (w' : WriterCompression.Writer),
        bind (gets WriterCompression.base_folder_)
          (fun base_folder =>
             bind (if bool_decide (base_folder ≠ EmptyString)
                   then bind (WriterCompression.finalize_metadata env)
                          (fun _ =>
                             bind (gets WriterCompression.metadata_)
                               (fun md =>
                                  WriterCompression.emit
                                    (ev_write_metadata base_folder md)))
                   else ret tt)
               (fun _ => modify (WriterCompression.with_storage_ None))) w0
        = (res, w')
        /\ (res = inr tt ->
            WriterCompression.base_folder_ w ≠ EmptyString ->
            exists md : BagMetadata.t,
              last (WriterCompression.world w')
              = Some (ev_write_metadata (WriterCompression.base_folder_ w) md)
              /\ BagMetadata.message_count md
                 = wrap64 (BagMetadata.sum_topic_counts md))).
  { intros w0 Hbase. rewrite bind_gets, Hbase.
    case_bool_decide as Hne.
    - rewrite bind_bind. unfold bind at 1.
      destruct (compression_finalize_metadata_eq env w0)
        as (md & Heq & Ht & Hc).
      rewrite Heq. repeat compression_step. unfold modify.
      eexists _, _. split; [reflexivity |]. intros _ _.
      exists md. compression_fields. split; [apply last_snoc |].
      rewrite Hc, sum_topic_counts_foldr, Ht.
      change 0 with (wrap64 0) at 1. rewrite foldl_add64. reflexivity.
    - rewrite bind_ret. unfold modify.
      eexists _, _. split; [reflexivity |]. intros _ Hne'.
      contradiction. }
  unfold WriterCompression.destroy.
  destruct (WriterCompression.storage_ w) as [st |] eqn:Hst.
  - repeat compression_step.
    destruct (bool_decide _).
    + unfold bind at 1.
      destruct (compressor_compress_uri env (Storage.relative_path st))
        as [e | compressed_uri] eqn:Hcompress.
      * rewrite (compression_compress_file_throws _ _ e) by exact Hcompress.
        eexists _, _. split; [reflexivity |]. discriminate.
      * rewrite (compression_compress_file_returns_eq _ _ compressed_uri)
          by exact Hcompress.
        apply Hfinal. reflexivity.
    + unfold WriterCompression.push_back_relative_file_path.
      rewrite compression_bind_update_metadata.
      apply Hfinal. reflexivity.
  - unfold bind at 1, WriterCompression.deref_storage. rewrite Hst.
    eexists _, _. split; [reflexivity |]. discriminate.
Qed.

(** * Further properties of the code *)

(** ** Compression mode names and the plugin factory *)

(** X1: [compression_mode_from_string] is case-sensitive and exact: it
    returns [FILE] only for "FILE" and [MESSAGE] only for "MESSAGE", and it
    logs nothing exactly for the empty string and the three mode names. *)
Theorem compression_mode_from_string_exact (s : string) :
  (snd (compression_mode_from_string s) = FILE <-> s = "FILE")
  /\ (snd (compression_mode_from_string s) = MESSAGE <-> s = "MESSAGE")
  /\ (fst (compression_mode_from_string s) = []
      <-> s = EmptyString \/ s = "NONE" \/ s = "FILE" \/ s = "MESSAGE").
Proof.
  unfold compression_mode_from_string, COMPRESSION_MODE_NONE_STR,
    COMPRESSION_MODE_FILE_STR, COMPRESSION_MODE_MESSAGE_STR.
  destruct (String.eqb_spec s EmptyString) as [-> | Hempty];
    [cbn; intuition (discriminate || auto) |].
  destruct (String.eqb_spec s "NONE") as [-> | Hnone];
    [cbn; intuition (discriminate || auto) |].
  destruct (String.eqb_spec s "FILE") as [-> | Hfile];
    [cbn; intuition (discriminate || auto) |].
  destruct (String.eqb_spec s "MESSAGE") as [-> | Hmessage];
    [cbn; intuition (discriminate || auto) |].
  cbn. intuition (discriminate || auto).
Qed.

(** X2: the three modes have three different names, none of them empty:
    [compression_mode_to_string] is injective. *)
Theorem compression_mode_to_string_distinct (m1 m2 : CompressionMode) :
  (compression_mode_to_string m1 = compression_mode_to_string m2 <-> m1 = m2)
  /\ compression_mode_to_string m1 ≠ EmptyString.
Proof.
  split; [split |].
  - apply compression_mode_to_string_inj.
  - intros ->; reflexivity.
  - destruct m1; discriminate.
Qed.

Lemma std_find_end (v : list string) (value : string) :
  CompressionFactory.std_find v value = length v <-> value ∉ v.
Proof.
  induction v as [| x v IH]; cbn [CompressionFactory.std_find length].
  - split; [intros _; apply not_elem_of_nil | reflexivity].
  - destruct (String.eqb_spec x value) as [-> | Hne].
    + split; [discriminate |]. intros Hnotin. exfalso. apply Hnotin. left.
    + rewrite not_elem_of_cons. split.
      * intros H. injection H as H. split; [congruence | apply IH, H].
      * intros [_ H]. f_equal. apply IH, H.
Qed.

Lemma std_find_bound (v : list string) (value : string) :
  (CompressionFactory.std_find v value <= length v)%nat.
Proof.
  induction v as [| x v IH]; cbn [CompressionFactory.std_find length];
    [lia |]. destruct (String.eqb x value); lia.
Qed.

Lemma is_plugin_not_registered_true (name : string)
  (compressors interfaces : list string) :
  CompressionFactory.is_plugin_not_registered name compressors interfaces
  = true
  <-> (name ∉ compressors) /\ (name ∉ interfaces).
Proof.
  unfold CompressionFactory.is_plugin_not_registered. cbv zeta.
  rewrite andb_true_iff, !Nat.eqb_eq, !std_find_end. reflexivity.
Qed.

(** X3: [is_plugin_not_registered] answers true exactly when the name is in
    neither of the two lists of registered classes. *)
Theorem is_plugin_not_registered_iff (compression_format : string)
  (registered_compressor_classes registered_interface_classes : list string) :
  CompressionFactory.is_plugin_not_registered compression_format
    registered_compressor_classes registered_interface_classes = true
  <-> (compression_format ∉ registered_compressor_classes)
      /\ (compression_format ∉ registered_interface_classes).
Proof.
  apply is_plugin_not_registered_true.
Qed.

Lemma load_interface_cases {I} (declared : list string)
  (create : string -> exn + I) (id : string) (absent failed : string -> string)
  (fmt : string) :
  let r :=
    if CompressionFactory.is_plugin_not_registered id declared declared
    then ([absent fmt], inr None)
    else match create id with
         | inr instance => ([], inr (Some instance))
         | inl (runtime_error what) => ([failed what], inr None)
         | inl e => ([], inl e)
         end in
  (forall instance : I,
      snd r = inr (Some instance) ->
      id ∈ declared /\ create id = inr instance /\ fst r = [])
  /\ (id ∉ declared -> r = ([absent fmt], inr None))
  /\ (forall what : string, snd r ≠ inl (runtime_error what))
  /\ (forall what : string,
         id ∈ declared -> create id = inl (runtime_error what) ->
         r = ([failed what], inr None)).
Proof.
  cbv zeta.
  destruct (CompressionFactory.is_plugin_not_registered id declared declared)
    eqn:Hreg.
  - apply is_plugin_not_registered_true in Hreg as [Hnotin _].
    cbn [fst snd]. split; [intros instance H; discriminate H |].
    split; [reflexivity |]. split; [intros what H; discriminate H |].
    intros what Hin. contradiction.
  - assert (Hin : id ∈ declared).
    { destruct (decide (id ∈ declared)) as [Hin | Hnotin]; [exact Hin |].
      assert (Ht : CompressionFactory.is_plugin_not_registered
                     id declared declared = true)
        by (apply is_plugin_not_registered_true; auto).
      congruence. }
    split; [| split; [intros Hnotin; contradiction | split]].
    + intros instance H.
      destruct (create id) as [[what | |] | instance'];
        cbn [fst snd] in *; try discriminate H.
      injection H as ->. auto.
    + intros what H.
      destruct (create id) as [[what' | |] | instance'];
        cbn [snd] in H; discriminate H.
    + intros what _ Hcreate. rewrite Hcreate. reflexivity.
Qed.

(** X4: [create_compressor] hands out an instance only of a class that the
    compressor loader declares, under the name [format + "_compressor"], and
    then logs nothing; for a name that is not declared it returns the null
    pointer and logs "does not exist" without asking the loader for an
    instance; a [std::runtime_error] of the loader never leaves the call, it
    is logged and turned into the null pointer. *)
Theorem create_compressor_declared_only {C D}
  (this : CompressionFactory.CompressionFactoryImpl C D)
  (compression_format : string) :
  let id := compression_format +:+ CompressionFactory.kCompressorSuffix in
  let loader := CompressionFactory.compressor_class_loader_ this in
  let r := CompressionFactory.create_compressor this compression_format in
  (forall instance : C,
      snd r = inr (Some instance) ->
      id ∈ CompressionFactory.getDeclaredClasses loader
      /\ CompressionFactory.createUnmanagedInstance loader id = inr instance
      /\ fst r = [])
  /\ (id ∉ CompressionFactory.getDeclaredClasses loader ->
      r = ([CompressionFactory.does_not_exist "compressor" compression_format],
           inr None))
  /\ (forall what : string, snd r ≠ inl (runtime_error what))
  /\ (forall what : string,
         id ∈ CompressionFactory.getDeclaredClasses loader ->
         CompressionFactory.createUnmanagedInstance loader id
         = inl (runtime_error what) ->
         r = ([CompressionFactory.unable_to_load "compressor" what],
              inr None)).
Proof.
  exact (load_interface_cases
           (CompressionFactory.getDeclaredClasses
              (CompressionFactory.compressor_class_loader_ this))
           (CompressionFactory.createUnmanagedInstance
              (CompressionFactory.compressor_class_loader_ this))
           (compression_format +:+ CompressionFactory.kCompressorSuffix)
           (CompressionFactory.does_not_exist "compressor")
           (CompressionFactory.unable_to_load "compressor")
           compression_format).
Qed.

Lemma create_compressor_declared_only_witness :
  ("zstd_compressor" ∈ ["zstd_compressor"; "lz4_compressor"]
   /\ fst (CompressionFactory.create_compressor
             CompressionFactory.example_factory "zstd") = [])
  /\ CompressionFactory.create_compressor
       CompressionFactory.example_factory "bz2"
     = ([CompressionFactory.does_not_exist "compressor" "bz2"], inr None)
  /\ CompressionFactory.create_compressor
       CompressionFactory.example_factory "lz4"
     = ([CompressionFactory.unable_to_load "compressor" "library not found"],
        inr None).
Proof.
  split; [| split].
  - destruct (proj1 (create_compressor_declared_only
                       CompressionFactory.example_factory "zstd")
                "zstd_compressor" eq_refl) as (Hin & _ & Hlog).
    split; [exact Hin | exact Hlog].
  - apply (proj1 (proj2 (create_compressor_declared_only
                           CompressionFactory.example_factory "bz2"))).
    apply (bool_decide_unpack _); vm_compute; exact I.
  - apply (proj2 (proj2 (proj2 (create_compressor_declared_only
                                  CompressionFactory.example_factory "lz4")))
             "library not found").
    + apply (bool_decide_unpack _); vm_compute; exact I.
    + reflexivity.
Defined.

(** X5: [create_decompressor] does the same on the decompressor loader, and
    it too looks the class up under [format + "_compressor"]. *)
Theorem create_decompressor_declared_only {C D}
  (this : CompressionFactory.CompressionFactoryImpl C D)
  (decompression_format : string) :
  let id := decompression_format +:+ "_compressor" in
  let loader := CompressionFactory.decompressor_class_loader_ this in
  let r := CompressionFactory.create_decompressor this decompression_format in
  (forall instance : D,
      snd r = inr (Some instance) ->
      id ∈ CompressionFactory.getDeclaredClasses loader
      /\ CompressionFactory.createUnmanagedInstance loader id = inr instance
      /\ fst r = [])
  /\ (id ∉ CompressionFactory.getDeclaredClasses loader ->
      r = ([CompressionFactory.does_not_exist "decompressor"
              decompression_format],
           inr None))
  /\ (forall what : string, snd r ≠ inl (runtime_error what))
  /\ (forall what : string,
         id ∈ CompressionFactory.getDeclaredClasses loader ->
         CompressionFactory.createUnmanagedInstance loader id
         = inl (runtime_error what) ->
         r = ([CompressionFactory.unable_to_load "decompressor" what],
              inr None)).
Proof.
  exact (load_interface_cases
           (CompressionFactory.getDeclaredClasses
              (CompressionFactory.decompressor_class_loader_ this))
           (CompressionFactory.createUnmanagedInstance
              (CompressionFactory.decompressor_class_loader_ this))
           (decompression_format +:+ CompressionFactory.kCompressorSuffix)
           (CompressionFactory.does_not_exist "decompressor")
           (CompressionFactory.unable_to_load "decompressor")
           decompression_format).
Qed.

Lemma create_decompressor_declared_only_witness :
  ("zstd_compressor" ∈ ["zstd_compressor"]
   /\ fst (CompressionFactory.create_decompressor
             CompressionFactory.example_factory "zstd") = [])
  /\ CompressionFactory.create_decompressor
       CompressionFactory.example_factory "lz4"
     = ([CompressionFactory.does_not_exist "decompressor" "lz4"], inr None).
Proof.
  split.
  - destruct (proj1 (create_decompressor_declared_only
                       CompressionFactory.example_factory "zstd")
                "zstd_compressor" eq_refl) as (Hin & _ & Hlog).
    split; [exact Hin | exact Hlog].
  - apply (proj1 (proj2 (create_decompressor_declared_only
                           CompressionFactory.example_factory "lz4"))).
    apply (bool_decide_unpack _); vm_compute; exact I.
Defined.

(** ** The writer with compression options: rollover and write in detail *)

Lemma none_app (p : Event -> bool) (l1 l2 : list Event) :
  Calls.none p (l1 ++ l2) = Calls.none p l1 && Calls.none p l2.
Proof. unfold Calls.none. apply forallb_app. Qed.

Lemma none_create_topics {A} (p : Event -> bool) (file : string)
  (f : A -> TopicMetadata.t) (l : list A) :
  (forall t : TopicMetadata.t, p (ev_create_topic file t) = false) ->
  Calls.none p (map (fun x => ev_create_topic file (f x)) l) = true.
Proof.
  intros Hp. unfold Calls.none.
  induction l as [| x l IH]; [reflexivity |].
  cbn [map forallb]. rewrite Hp, IH. reflexivity.
Qed.

(** [split_bagfile] on an open session, case by case. *)
Lemma compression_split_bagfile_eq
  (env : Env) (w : WriterCompression.Writer) (st : Storage.t) :
  WriterCompression.storage_ w = Some st ->
  let uri :=
    WriterCompression.format_storage_uri env
      (WriterCompression.base_folder_ w)
      (Z.of_nat (length (BagMetadata.relative_file_paths
                           (WriterCompression.metadata_ w)))) in
  let id := BagMetadata.storage_identifier (WriterCompression.metadata_ w) in
  let opened :=
    WriterCompression.with_storage_ (factory_open_read_write env uri id)
      (WriterCompression.with_world
         (WriterCompression.world w ++ [ev_open_read_write uri id]) w) in
  WriterCompression.split_bagfile env w
  = match factory_open_read_write env uri id with
    | None => (inl (runtime_error (failed_to_rollover uri)), opened)
    | Some new_storage =>
        let recreated :=
          WriterCompression.with_world
            (WriterCompression.world opened
               ++ map (fun topic : string * TopicInformation.t =>
                         ev_create_topic (Storage.relative_path new_storage)
                           (TopicInformation.topic_metadata topic.2))
                      (map_to_list
                         (WriterCompression.topics_names_to_info_ w)))
            opened in
        if bool_decide
             (WriterCompression.mode (WriterCompression.compression_options_ w)
              = FILE)
        then WriterCompression.compress_file env (Storage.relative_path st)
               recreated
        else (inr tt,
              WriterCompression.with_metadata_
                (BagMetadata.with_relative_file_paths
                   (BagMetadata.relative_file_paths
                      (WriterCompression.metadata_ w)
                      ++ [Storage.relative_path st])
                   (WriterCompression.metadata_ w))
                recreated)
    end.
Proof.
  intros Hst. cbv zeta.
  unfold WriterCompression.split_bagfile.
  repeat compression_step.
  destruct (factory_open_read_write env _ _) as [new_storage |] eqn:Hopen.
  - repeat compression_step.
    destruct (bool_decide _); reflexivity.
  - reflexivity.
Qed.

Lemma none_cons (p : Event -> bool) (e : Event) (l : list Event) :
  Calls.none p (e :: l) = negb (p e) && Calls.none p l.
Proof. reflexivity. Qed.

Ltac solve_none :=
  rewrite <- ?app_assoc; cbn [app];
  repeat first
    [ rewrite none_cons
    | rewrite none_app
    | rewrite none_create_topics by (intros; reflexivity) ];
  reflexivity.

Ltac decide_modes :=
  repeat first
    [ rewrite (bool_decide_eq_true_2 (_ = _)) by reflexivity
    | rewrite (bool_decide_eq_false_2 (_ = _)) by discriminate ].

Ltac compression_write_done :=
  unfold WriterCompression.emit, modify;
  eexists _, _, _; (split; [reflexivity |]); compression_fields;
  (split; [rewrite <- ?app_assoc; reflexivity |]);
  (split; [reflexivity |]);
  (split; [first [intros Hne; contradiction | intros _; solve_none] |]);
  (split; [first [intros Hne; contradiction | intros _; solve_none] |]);
  first
    [ discriminate
    | intros _; eexists; (split; [first [eassumption | reflexivity] |]);
      (split; [apply last_snoc |]); split; reflexivity ].

Ltac compression_write_finish Hmode :=
  repeat compression_step;
  destruct (WriterCompression.converter_ _);
  repeat compression_step;
  rewrite ?Hmode; decide_modes;
  repeat compression_step;
  compression_write_done.

(** What one [write] of the writer with compression options does, on an open
    session and for a registered topic. *)
Lemma compression_write_effects
  (env : Env) (w : WriterCompression.Writer) (st : Storage.t)
  (m : SerializedBagMessage.t) (info : TopicInformation.t) :
  WriterCompression.storage_ w = Some st ->
  WriterCompression.topics_names_to_info_ w
    !! SerializedBagMessage.topic_name m = Some info ->
  let mode :=
    WriterCompression.mode (WriterCompression.compression_options_ w) in
  let converted :=
    if WriterCompression.converter_ w then converter_convert env m else m in
  let payload :=
    if bool_decide (mode = MESSAGE)
    then compressor_compress_bag_message_data env converted else converted in
  let ts := SerializedBagMessage.time_stamp m in
  let md := WriterCompression.metadata_ w in
  exists (res : exn + unit) (w' : WriterCompression.Writer)
         (calls : list Event),
    WriterCompression.write env m w = (res, w')
    /\ WriterCompression.world w' = WriterCompression.world w ++ calls
    /\ WriterCompression.topics_names_to_info_ w'
       = <[SerializedBagMessage.topic_name m
           := TopicInformation.increment info]>
           (WriterCompression.topics_names_to_info_ w)
    /\ (mode ≠ FILE -> Calls.none Calls.touches_file calls = true)
    /\ (mode ≠ MESSAGE ->
        Calls.none Calls.is_compress_bag_message_data calls = true)
    /\ (res = inr tt ->
        exists st' : Storage.t,
          WriterCompression.storage_ w' = Some st'
          /\ last (WriterCompression.world w')
             = Some (ev_write (Storage.relative_path st') payload)
          /\ BagMetadata.starting_time (WriterCompression.metadata_ w')
             = Z.min (BagMetadata.starting_time md) ts
          /\ BagMetadata.duration (WriterCompression.metadata_ w')
             = Z.max (BagMetadata.duration md)
                     (sub_int64 ts (Z.min (BagMetadata.starting_time md) ts))).
Proof.
  intros Hst Hlook. cbv zeta.
  unfold WriterCompression.write.
  rewrite bind_gets, Hst, bind_gets, Hlook, bind_modify.
  unfold bind at 1.
  rewrite (compression_should_split_bagfile_hardcoded env _ st)
    by (compression_fields; exact Hst).
  compression_fields.
  destruct (WriterCompression.mode (WriterCompression.compression_options_ w))
    eqn:Hmode.
  all: destruct (102400 <? _) eqn:Hsplit;
    [ unfold bind at 1;
      rewrite (compression_split_bagfile_eq env _ st)
        by (compression_fields; exact Hst);
      cbv zeta; compression_fields;
      destruct (factory_open_read_write env _ _) as [new_storage |] eqn:Hopen;
      [ rewrite ?Hmode; decide_modes
      | compression_fields; compression_write_done ]
    | compression_write_finish Hmode ].
  - compression_write_finish Hmode.
  - destruct (compressor_compress_uri env (Storage.relative_path st))
      as [e | compressed_uri] eqn:Hcompress.
    + rewrite (compression_compress_file_throws _ _ e) by exact Hcompress.
      compression_fields. compression_write_done.
    + rewrite (compression_compress_file_returns_eq _ _ compressed_uri)
        by exact Hcompress.
      compression_fields. compression_write_finish Hmode.
  - compression_write_finish Hmode.
Qed.

(** ** Guards and the topic registry *)

(** X6: on a writer without storage (never opened, or whose [open] failed),
    [create_topic], [remove_topic] and [write] of each of the three writers
    throw [std::runtime_error] "Bag is not open. ..." and leave the writer
    as it was: no collaborator is called and no field changes. *)
Theorem closed_writer_rejects_calls
  (env : Env) (t : TopicMetadata.t) (m : SerializedBagMessage.t) :
  (forall w : WriterCompression.Writer,
      WriterCompression.storage_ w = None ->
      WriterCompression.create_topic t w
      = (inl (runtime_error not_open_writing), w)
      /\ WriterCompression.remove_topic t w
         = (inl (runtime_error not_open_removing), w)
      /\ WriterCompression.write env m w
         = (inl (runtime_error not_open_writing), w))
  /\ (forall w : WriterPoC.Writer,
         WriterPoC.storage_ w = None ->
         WriterPoC.create_topic t w
         = (inl (runtime_error not_open_writing), w)
         /\ WriterPoC.remove_topic t w
            = (inl (runtime_error not_open_removing), w)
         /\ WriterPoC.write env m w
            = (inl (runtime_error not_open_writing), w))
  /\ (forall w : WriterAggregate.Writer,
         WriterAggregate.storage_ w = None ->
         WriterAggregate.create_topic t w
         = (inl (runtime_error not_open_writing), w)
         /\ WriterAggregate.remove_topic t w
            = (inl (runtime_error not_open_removing), w)
         /\ WriterAggregate.write env m w
            = (inl (runtime_error not_open_writing), w)).
Proof.
  split; [| split]; intros w Hst.
  - unfold WriterCompression.create_topic, WriterCompression.remove_topic,
      WriterCompression.write.
    rewrite !bind_gets, Hst. auto.
  - unfold WriterPoC.create_topic, WriterPoC.remove_topic, WriterPoC.write.
    rewrite !bind_gets, Hst. auto.
  - unfold WriterAggregate.create_topic, WriterAggregate.remove_topic,
      WriterAggregate.write.
    rewrite !bind_gets, Hst. auto.
Qed.

Lemma closed_writer_rejects_calls_witness :
  let env := Examples.env_of 10 true in
  WriterCompression.write env Examples.hello (WriterCompression.Writer_new env)
  = (inl (runtime_error not_open_writing), WriterCompression.Writer_new env)
  /\ WriterPoC.remove_topic Examples.chatter (WriterPoC.Writer_new env)
     = (inl (runtime_error not_open_removing), WriterPoC.Writer_new env)
  /\ WriterAggregate.create_topic Examples.chatter
       (WriterAggregate.Writer_new env)
     = (inl (runtime_error not_open_writing), WriterAggregate.Writer_new env).
Proof.
  cbv zeta.
  destruct (closed_writer_rejects_calls (Examples.env_of 10 true)
              Examples.chatter Examples.hello) as (Hc & Hp & Ha).
  split; [| split].
  - exact (proj2 (proj2 (Hc (WriterCompression.Writer_new
                               (Examples.env_of 10 true)) eq_refl))).
  - exact (proj1 (proj2 (Hp (WriterPoC.Writer_new
                               (Examples.env_of 10 true)) eq_refl))).
  - exact (proj1 (Ha (WriterAggregate.Writer_new
                        (Examples.env_of 10 true)) eq_refl)).
Defined.

(** X7: in the writer with compression options, [write] of a message whose
    topic is not in the registry throws [std::out_of_range] on an open
    session before anything is touched: the returned state is the state of
    before, so no entry is created, no counter moves, the metadata keeps its
    times and no collaborator is called. *)
Theorem compression_write_unknown_topic
  (env : Env) (w : WriterCompression.Writer) (st : Storage.t)
  (m : SerializedBagMessage.t) :
  WriterCompression.storage_ w = Some st ->
  SerializedBagMessage.topic_name m
    ∉ dom (WriterCompression.topics_names_to_info_ w) ->
  WriterCompression.write env m w = (inl out_of_range, w).
Proof.
  intros Hst Hdom. apply not_elem_of_dom in Hdom.
  exact (proj1 (compression_write_unregistered env w st m Hst Hdom)).
Qed.

Lemma compression_write_unknown_topic_witness :
  let env := Examples.env_of 10 true in
  let w := after (WriterCompression.create_topic Examples.chatter
                    (Examples.compression_session env 0 NONE)) in
  WriterCompression.write env Examples.pose w = (inl out_of_range, w).
Proof.
  cbv zeta.
  apply (compression_write_unknown_topic (Examples.env_of 10 true) _
           (Storage.mk "bag/bag" "sqlite3") Examples.pose).
  - vm_compute; reflexivity.
  - apply (bool_decide_unpack _); vm_compute; exact I.
Defined.

(** [remove_topic] of a registered name on an open session. *)
Lemma compression_remove_topic_registered
  (w : WriterCompression.Writer) (st : Storage.t) (t : TopicMetadata.t)
  (info : TopicInformation.t) :
  WriterCompression.storage_ w = Some st ->
  WriterCompression.topics_names_to_info_ w !! TopicMetadata.name t
  = Some info ->
  WriterCompression.remove_topic t w
  = (inr tt,
     WriterCompression.with_world
       (WriterCompression.world w
          ++ [ev_remove_topic (Storage.relative_path st) t])
       (WriterCompression.with_topics_names_to_info_
          (delete (TopicMetadata.name t)
             (WriterCompression.topics_names_to_info_ w)) w)).
Proof.
  intros Hst Hlook.
  unfold WriterCompression.remove_topic.
  rewrite bind_gets, Hst, bind_gets, Hlook, bind_modify.
  cbn [Z.ltb Z.compare].
  erewrite compression_bind_deref_storage
    by (compression_fields; exact Hst).
  reflexivity.
Qed.

(** X8: [remove_topic] of the writer with compression options, on an open
    session. For a registered name it returns, the registry loses that entry
    and no other, and the backend receives exactly one [remove_topic] call.
    For a name that is not registered it throws "Failed to remove the
    non-existing topic", and registry and backend stay as they were. *)
Theorem compression_remove_topic_open
  (w : WriterCompression.Writer) (st : Storage.t) (t : TopicMetadata.t) :
  WriterCompression.storage_ w = Some st ->
  (forall info : TopicInformation.t,
      WriterCompression.topics_names_to_info_ w !! TopicMetadata.name t
      = Some info ->
      WriterCompression.remove_topic t w
      = (inr tt,
         WriterCompression.with_world
           (WriterCompression.world w
              ++ [ev_remove_topic (Storage.relative_path st) t])
           (WriterCompression.with_topics_names_to_info_
              (delete (TopicMetadata.name t)
                 (WriterCompression.topics_names_to_info_ w)) w))
      /\ (forall other : string,
             other ≠ TopicMetadata.name t ->
             WriterCompression.topics_names_to_info_
               (after (WriterCompression.remove_topic t w)) !! other
             = WriterCompression.topics_names_to_info_ w !! other)
      /\ WriterCompression.topics_names_to_info_
           (after (WriterCompression.remove_topic t w))
           !! TopicMetadata.name t = None)
  /\ (WriterCompression.topics_names_to_info_ w !! TopicMetadata.name t
      = None ->
      WriterCompression.remove_topic t w
      = (inl (runtime_error (failed_to_remove (TopicMetadata.name t))), w)).
Proof.
  intros Hst. split.
  - intros info Hlook.
    assert (Heq :
      WriterCompression.remove_topic t w
      = (inr tt,
         WriterCompression.with_world
           (WriterCompression.world w
              ++ [ev_remove_topic (Storage.relative_path st) t])
           (WriterCompression.with_topics_names_to_info_
              (delete (TopicMetadata.name t)
                 (WriterCompression.topics_names_to_info_ w)) w))).
    { unfold WriterCompression.remove_topic.
      rewrite bind_gets, Hst, bind_gets, Hlook, bind_modify.
      cbn [Z.ltb Z.compare].
      erewrite compression_bind_deref_storage
        by (compression_fields; exact Hst).
      reflexivity. }
    rewrite Heq. split; [reflexivity |]. unfold after. cbn [snd].
    compression_fields. split.
    + intros other Hne. apply lookup_delete_ne. congruence.
    + apply lookup_delete_eq.
  - intros Hlook.
    exact (proj1 (compression_remove_topic_unregistered w st t Hst Hlook)).
Qed.

Lemma compression_remove_topic_open_witness :
  let env := Examples.env_of 10 true in
  let w := after (Examples.run
                    [WriterCompression.create_topic Examples.chatter;
                     WriterCompression.create_topic Examples.odom]
                    (Examples.compression_session env 0 NONE)) in
  (WriterCompression.topics_names_to_info_
     (after (WriterCompression.remove_topic Examples.chatter w)) !! "/odom"
   = WriterCompression.topics_names_to_info_ w !! "/odom"
   /\ WriterCompression.topics_names_to_info_
        (after (WriterCompression.remove_topic Examples.chatter w))
        !! "/chatter" = None)
  /\ WriterCompression.remove_topic
       (TopicMetadata.mk "/scan" "sensor_msgs/LaserScan" "cdr") w
     = (inl (runtime_error (failed_to_remove "/scan")), w).
Proof.
  cbv zeta.
  pose proof (compression_remove_topic_open
                (after (Examples.run
                          [WriterCompression.create_topic Examples.chatter;
                           WriterCompression.create_topic Examples.odom]
                          (Examples.compression_session
                             (Examples.env_of 10 true) 0 NONE)))
                (Storage.mk "bag/bag" "sqlite3")) as H.
  split.
  - destruct (proj1 (H Examples.chatter ltac:(vm_compute; reflexivity))
                (TopicInformation.mk Examples.chatter 0)
                ltac:(vm_compute; reflexivity)) as (_ & Hother & Hgone).
    split; [apply Hother; discriminate | exact Hgone].
  - exact (proj2 (H (TopicMetadata.mk "/scan" "sensor_msgs/LaserScan" "cdr")
                    ltac:(vm_compute; reflexivity))
             ltac:(vm_compute; reflexivity)).
Defined.

Lemma compression_create_topic_eq
  (w : WriterCompression.Writer) (st : Storage.t) (t : TopicMetadata.t) :
  WriterCompression.storage_ w = Some st ->
  let registered :=
    WriterCompression.topics_names_to_info_ w !! TopicMetadata.name t in
  let to_converter :=
    if WriterCompression.converter_ w
    then [ev_converter_add_topic (TopicMetadata.name t) (TopicMetadata.type t)]
    else [] in
  let to_backend :=
    match registered with
    | Some _ => []
    | None => [ev_create_topic (Storage.relative_path st) t]
    end in
  WriterCompression.create_topic t w
  = (inr tt,
     WriterCompression.with_world
       (WriterCompression.world w ++ to_converter ++ to_backend)
       (WriterCompression.with_topics_names_to_info_
          (match registered with
           | Some _ => WriterCompression.topics_names_to_info_ w
           | None => <[TopicMetadata.name t := TopicInformation.mk t 0]>
                       (WriterCompression.topics_names_to_info_ w)
           end) w)).
Proof.
  intros Hst. cbv zeta.
  unfold WriterCompression.create_topic, WriterCompression.map_insert.
  rewrite bind_gets, Hst, bind_gets.
  destruct (WriterCompression.converter_ w) eqn:Hconv;
    repeat compression_step;
    destruct (WriterCompression.topics_names_to_info_ w
                !! TopicMetadata.name t) eqn:Hlook;
    cbn [fst snd negb]; repeat compression_step;
    unfold ret, WriterCompression.emit, modify; compression_fields;
    rewrite ?app_nil_r, <- ?app_assoc; destruct w; cbn in *; subst;
    reflexivity.
Qed.

(** X9: in the writer with compression options, on an open session,
    [create_topic] never throws; for a name that is already registered it
    leaves the registry alone and makes no call to the storage backend (the
    converter, if there is one, is told again); for a new name it adds the
    entry with count 0 and asks the backend to create the topic, once. The
    calls it makes are the one to the converter, if there is one, followed
    by the one to the backend, if the name is new. *)
Theorem compression_create_topic_backend_once
  (w : WriterCompression.Writer) (st : Storage.t) (t : TopicMetadata.t) :
  WriterCompression.storage_ w = Some st ->
  let r := WriterCompression.create_topic t w in
  let added := drop (length (WriterCompression.world w))
                    (WriterCompression.world (after r)) in
  outcome r = inr tt
  /\ WriterCompression.world (after r) = WriterCompression.world w ++ added
  /\ (is_Some (WriterCompression.topics_names_to_info_ w
                 !! TopicMetadata.name t) ->
      WriterCompression.topics_names_to_info_ (after r)
      = WriterCompression.topics_names_to_info_ w
      /\ filter (fun e => Calls.is_create_topic e = true) added = [])
  /\ (WriterCompression.topics_names_to_info_ w !! TopicMetadata.name t
      = None ->
      WriterCompression.topics_names_to_info_ (after r)
      = <[TopicMetadata.name t := TopicInformation.mk t 0]>
          (WriterCompression.topics_names_to_info_ w)
      /\ filter (fun e => Calls.is_create_topic e = true) added
         = [ev_create_topic (Storage.relative_path st) t])
  /\ added
     = (if WriterCompression.converter_ w
        then [ev_converter_add_topic (TopicMetadata.name t)
                (TopicMetadata.type t)]
        else [])
       ++ match WriterCompression.topics_names_to_info_ w
                !! TopicMetadata.name t with
          | Some _ => []
          | None => [ev_create_topic (Storage.relative_path st) t]
          end.
Proof.
  intros Hst. cbv zeta.
  rewrite (compression_create_topic_eq w st t Hst). cbv zeta.
  unfold outcome, after. cbn [fst snd]. compression_fields.
  rewrite drop_app_length.
  split; [reflexivity |]. split; [reflexivity |].
  split; [| split; [| reflexivity]].
  - intros [info Hlook]. rewrite Hlook.
    split; [reflexivity |].
    destruct (WriterCompression.converter_ w); reflexivity.
  - intros Hlook. rewrite Hlook.
    split; [reflexivity |].
    destruct (WriterCompression.converter_ w); reflexivity.
Qed.

Lemma compression_create_topic_backend_once_witness :
  let env := Examples.env_of 10 true in
  let w0 := Examples.compression_session env 0 NONE in
  let w1 := after (WriterCompression.create_topic Examples.chatter w0) in
  filter (fun e => Calls.is_create_topic e = true)
         (drop (length (WriterCompression.world w0))
               (WriterCompression.world w1))
  = [ev_create_topic "bag/bag" Examples.chatter]
  /\ filter (fun e => Calls.is_create_topic e = true)
            (drop (length (WriterCompression.world w1))
                  (WriterCompression.world
                     (after (WriterCompression.create_topic
                               Examples.chatter_again w1))))
     = [].
Proof.
  cbv zeta. split.
  - exact (proj2 (proj1 (proj2 (proj2 (proj2
             (compression_create_topic_backend_once
                (Examples.compression_session (Examples.env_of 10 true) 0 NONE)
                (Storage.mk "bag/bag" "sqlite3") Examples.chatter
                ltac:(vm_compute; reflexivity)))))
             ltac:(vm_compute; reflexivity))).
  - exact (proj2 (proj1 (proj2 (proj2
             (compression_create_topic_backend_once
                (after (WriterCompression.create_topic Examples.chatter
                          (Examples.compression_session
                             (Examples.env_of 10 true) 0 NONE)))
                (Storage.mk "bag/bag" "sqlite3") Examples.chatter_again
                ltac:(vm_compute; reflexivity))))
             ltac:(vm_compute; eexists; reflexivity))).
Defined.

(** X10: in the writer with compression options, removing a topic right
    after creating it, on an open session and for a name that was free,
    gives the registry of before; the backend has received one
    [create_topic] and one [remove_topic], in this order. *)
Theorem compression_create_remove_roundtrip
  (w : WriterCompression.Writer) (st : Storage.t) (t : TopicMetadata.t) :
  WriterCompression.storage_ w = Some st ->
  WriterCompression.topics_names_to_info_ w !! TopicMetadata.name t = None ->
  let w1 := after (WriterCompression.create_topic t w) in
  let r2 := WriterCompression.remove_topic t w1 in
  outcome (WriterCompression.create_topic t w) = inr tt
  /\ outcome r2 = inr tt
  /\ WriterCompression.topics_names_to_info_ (after r2)
     = WriterCompression.topics_names_to_info_ w
  /\ WriterCompression.world (after r2)
     = WriterCompression.world w
         ++ (if WriterCompression.converter_ w
             then [ev_converter_add_topic (TopicMetadata.name t)
                     (TopicMetadata.type t)]
             else [])
         ++ [ev_create_topic (Storage.relative_path st) t;
             ev_remove_topic (Storage.relative_path st) t].
Proof.
  intros Hst Hlook. cbv zeta.
  rewrite (compression_create_topic_eq w st t Hst). cbv zeta.
  rewrite Hlook. unfold outcome, after. cbn [fst snd].
  split; [reflexivity |].
  match goal with
  | |- context [WriterCompression.remove_topic t ?w1] =>
      pose proof (compression_remove_topic_registered w1 st t
                    (TopicInformation.mk t 0)) as Heq;
      compression_fields;
      specialize (Heq Hst (lookup_insert_eq _ _ _))
  end.
  rewrite Heq. cbn [fst snd]. compression_fields.
  split; [reflexivity |].
  split.
  - rewrite delete_insert_eq. apply delete_id. exact Hlook.
  - rewrite <- !app_assoc. reflexivity.
Qed.

Lemma compression_create_remove_roundtrip_witness :
  let env := Examples.env_of 10 true in
  let w := after (WriterCompression.create_topic Examples.odom
                    (Examples.compression_session env 0 NONE)) in
  WriterCompression.topics_names_to_info_
    (after (WriterCompression.remove_topic Examples.chatter
              (after (WriterCompression.create_topic Examples.chatter w))))
  = WriterCompression.topics_names_to_info_ w.
Proof.
  cbv zeta.
  exact (proj1 (proj2 (proj2
           (compression_create_remove_roundtrip
              (after (WriterCompression.create_topic Examples.odom
                        (Examples.compression_session
                           (Examples.env_of 10 true) 0 NONE)))
              (Storage.mk "bag/bag" "sqlite3") Examples.chatter
              ltac:(vm_compute; reflexivity)
              ltac:(vm_compute; reflexivity))))).
Defined.

(** ** [write] of the writer with compression options *)

Lemma write_is_last_call_inv (calls : list Event) :
  Spec.write_is_last_call calls = true ->
  exists (earlier : list Event) (file : string) (m : SerializedBagMessage.t),
    calls = earlier ++ [ev_write file m] /\ Spec.no_write earlier = true.
Proof.
  unfold Spec.write_is_last_call.
  destruct (reverse calls) as [| e rest] eqn:Hrev; [discriminate |].
  destruct e; try discriminate. intros Hnw.
  exists (reverse rest). eexists _, _. split.
  - rewrite <- (reverse_involutive calls), Hrev, reverse_cons. reflexivity.
  - rewrite no_write_reverse. exact Hnw.
Qed.

Lemma no_write_filter (calls : list Event) :
  Spec.no_write calls = true ->
  filter (fun e => is_ev_write e = true) calls = [].
Proof.
  induction calls as [| e calls IH]; [reflexivity |].
  unfold Spec.no_write. cbn [forallb].
  rewrite andb_true_iff, negb_true_iff. intros [He Hl].
  rewrite filter_cons_False by congruence. apply IH, Hl.
Qed.

(** X11: a [write] that returns has handed exactly this record to the handle
    that is active when it returns, as its last call: the message itself, or
    its conversion if a converter is active, compressed if and only if the
    mode is [MESSAGE]. It is the only record that the call hands to a
    storage backend. *)
Theorem compression_write_payload
  (env : Env) (w : WriterCompression.Writer) (st : Storage.t)
  (m : SerializedBagMessage.t) (info : TopicInformation.t) :
  WriterCompression.storage_ w = Some st ->
  WriterCompression.topics_names_to_info_ w
    !! SerializedBagMessage.topic_name m = Some info ->
  outcome (WriterCompression.write env m w) = inr tt ->
  let converted :=
    if WriterCompression.converter_ w then converter_convert env m else m in
  let payload :=
    if bool_decide
         (WriterCompression.mode (WriterCompression.compression_options_ w)
          = MESSAGE)
    then compressor_compress_bag_message_data env converted else converted in
  exists st' : Storage.t,
    WriterCompression.storage_ (after (WriterCompression.write env m w))
    = Some st'
    /\ last (WriterCompression.world
               (after (WriterCompression.write env m w)))
       = Some (ev_write (Storage.relative_path st') payload)
    /\ filter (fun e => is_ev_write e = true)
              (drop (length (WriterCompression.world w))
                    (WriterCompression.world
                       (after (WriterCompression.write env m w))))
       = [ev_write (Storage.relative_path st') payload].
Proof.
  intros Hst Hlook Hok. cbv zeta.
  destruct (compression_write_effects env w st m info Hst Hlook)
    as (res & w' & calls & Heq & _ & _ & _ & _ & Hret).
  destruct (compression_write_calls env w st m info Hst Hlook)
    as (res2 & w2 & calls2 & Heq2 & Hworld2 & _ & Hlast2).
  cbv zeta in Hret. rewrite Heq in Heq2. injection Heq2 as <- <-.
  rewrite Heq in *. unfold outcome, after in *.
  cbn [fst snd] in *.
  destruct (Hret Hok) as (st' & Hst' & Hlast & _ & _).
  exists st'. split; [exact Hst' |]. split; [exact Hlast |].
  subst res.
  apply write_is_last_call_inv in Hlast2
    as (earlier & file & m2 & -> & Hnw).
  rewrite Hworld2 in Hlast |- *.
  rewrite drop_app_length.
  change (?e :: earlier ++ ?l) with ((e :: earlier) ++ l) in Hlast |- *.
  rewrite app_assoc, last_snoc in Hlast. injection Hlast as -> ->.
  rewrite filter_app, filter_cons_False by discriminate.
  rewrite no_write_filter by exact Hnw. reflexivity.
Qed.

Lemma compression_write_payload_witness :
  let env := Examples.env_of 10 true in
  let w := after (WriterCompression.create_topic Examples.chatter
                    (Examples.compression_session env 0 MESSAGE)) in
  exists st' : Storage.t,
    WriterCompression.storage_
      (after (WriterCompression.write env Examples.hello w)) = Some st'
    /\ last (WriterCompression.world
               (after (WriterCompression.write env Examples.hello w)))
       = Some (ev_write (Storage.relative_path st')
                 (SerializedBagMessage.mk "zstd:hello" 100 "/chatter")).
Proof.
  cbv zeta.
  destruct (compression_write_payload (Examples.env_of 10 true)
              (after (WriterCompression.create_topic Examples.chatter
                        (Examples.compression_session
                           (Examples.env_of 10 true) 0 MESSAGE)))
              (Storage.mk "bag/bag" "sqlite3") Examples.hello
              (TopicInformation.mk Examples.chatter 0)
              ltac:(vm_compute; reflexivity) ltac:(vm_compute; reflexivity)
              ltac:(vm_compute; reflexivity))
    as (st' & Hst' & Hlast & _).
  exists st'. split; [exact Hst' | exact Hlast].
Defined.

(** A value in the range of [int64_t] is its own 64-bit representation. *)
Lemma wrap_int64_small (z : Z) :
  - 2 ^ 63 <= z < 2 ^ 63 -> wrap_int64 z = z.
Proof.
  intros Hz. unfold wrap_int64.
  rewrite Z.mod_small by lia. lia.
Qed.

Lemma wrap_int64_range (z : Z) : - 2 ^ 63 <= wrap_int64 z < 2 ^ 63.
Proof.
  unfold wrap_int64.
  pose proof (Z.mod_pos_bound (z + 2 ^ 63) (2 ^ 64) ltac:(lia)). lia.
Qed.

(** One step above the range is brought back by 2^64. *)
Lemma wrap_int64_above (z : Z) :
  2 ^ 63 <= z < 2 ^ 63 + 2 ^ 64 -> wrap_int64 z = z - 2 ^ 64.
Proof.
  intros Hz. unfold wrap_int64.
  replace (z + 2 ^ 63) with (z - 2 ^ 63 + 1 * 2 ^ 64) by lia.
  rewrite Z.mod_add by lia.
  rewrite Z.mod_small by lia. lia.
Qed.

(** The signed and the unsigned reading of 64 bits agree modulo 2^64. *)
Lemma wrap64_wrap_int64 (z : Z) : wrap64 (wrap_int64 z) = wrap64 z.
Proof.
  unfold wrap64, wrap_int64.
  rewrite Zminus_mod_idemp_l. f_equal. lia.
Qed.

(** X12: a [write] that returns has moved the starting time of the metadata
    to the minimum of its old value and the message time stamp, and the
    duration to the maximum of its old value and the distance of the time
    stamp from the new starting time, taken on 64 bits, rollover or not. So
    afterwards the starting time is not later than the message and the
    duration has not shrunk; the duration is non-negative if it was before,
    and also whenever the distance is below 2^63, in which case the distance
    enters the maximum as it is. *)
Theorem compression_write_times
  (env : Env) (w : WriterCompression.Writer) (st : Storage.t)
  (m : SerializedBagMessage.t) (info : TopicInformation.t) :
  WriterCompression.storage_ w = Some st ->
  WriterCompression.topics_names_to_info_ w
    !! SerializedBagMessage.topic_name m = Some info ->
  outcome (WriterCompression.write env m w) = inr tt ->
  let ts := SerializedBagMessage.time_stamp m in
  let md := WriterCompression.metadata_ w in
  let md' :=
    WriterCompression.metadata_ (after (WriterCompression.write env m w)) in
  BagMetadata.starting_time md' = Z.min (BagMetadata.starting_time md) ts
  /\ BagMetadata.duration md'
     = Z.max (BagMetadata.duration md)
             (sub_int64 ts (BagMetadata.starting_time md'))
  /\ BagMetadata.starting_time md' <= ts
  /\ BagMetadata.duration md <= BagMetadata.duration md'
  /\ (0 <= BagMetadata.duration md -> 0 <= BagMetadata.duration md')
  /\ (ts - BagMetadata.starting_time md' < 2 ^ 63 ->
      BagMetadata.duration md'
      = Z.max (BagMetadata.duration md) (ts - BagMetadata.starting_time md')
      /\ 0 <= BagMetadata.duration md').
Proof.
  intros Hst Hlook Hok. cbv zeta.
  destruct (compression_write_effects env w st m info Hst Hlook)
    as (res & w' & calls & Heq & _ & _ & _ & _ & Hret).
  cbv zeta in Hret. rewrite Heq in *. unfold outcome, after in *.
  cbn [fst snd] in *.
  destruct (Hret Hok) as (st' & _ & _ & Hstart & Hduration).
  rewrite Hstart, Hduration.
  split; [reflexivity |]. split; [reflexivity |].
  split; [lia |]. split; [lia |]. split; [lia |].
  intros Hsmall. unfold sub_int64.
  rewrite wrap_int64_small by lia. lia.
Qed.

Lemma compression_write_times_witness :
  let env := Examples.env_of 10 true in
  let w := after (Examples.run
                    [WriterCompression.create_topic Examples.chatter;
                     WriterCompression.create_topic Examples.odom;
                     WriterCompression.write env Examples.pose]
                    (Examples.compression_session env 0 NONE)) in
  let md' :=
    WriterCompression.metadata_
      (after (WriterCompression.write env Examples.hello w)) in
  BagMetadata.starting_time md' = 100 /\ BagMetadata.duration md' = 0.
Proof.
  cbv zeta.
  destruct (compression_write_times (Examples.env_of 10 true)
              (after (Examples.run
                        [WriterCompression.create_topic Examples.chatter;
                         WriterCompression.create_topic Examples.odom;
                         WriterCompression.write (Examples.env_of 10 true)
                           Examples.pose]
                        (Examples.compression_session
                           (Examples.env_of 10 true) 0 NONE)))
              (Storage.mk "bag/bag" "sqlite3") Examples.hello
              (TopicInformation.mk Examples.chatter 0)
              ltac:(vm_compute; reflexivity) ltac:(vm_compute; reflexivity)
              ltac:(vm_compute; reflexivity)) as (Hs & Hd & _).
  split; [rewrite Hs | rewrite Hd]; vm_compute; reflexivity.
Defined.

(** X13: the compression mode decides which compressor calls a [write] can
    make. Outside [FILE] mode it never asks for a file to be compressed nor
    removes one, rollover or not; outside [MESSAGE] mode it never asks for a
    message to be compressed. *)
Theorem compression_write_mode_calls
  (env : Env) (w : WriterCompression.Writer) (st : Storage.t)
  (m : SerializedBagMessage.t) (info : TopicInformation.t) :
  WriterCompression.storage_ w = Some st ->
  WriterCompression.topics_names_to_info_ w
    !! SerializedBagMessage.topic_name m = Some info ->
  let mode :=
    WriterCompression.mode (WriterCompression.compression_options_ w) in
  let added :=
    drop (length (WriterCompression.world w))
         (WriterCompression.world
            (after (WriterCompression.write env m w))) in
  WriterCompression.world (after (WriterCompression.write env m w))
  = WriterCompression.world w ++ added
  /\ (mode ≠ FILE -> Calls.none Calls.touches_file added = true)
  /\ (mode ≠ MESSAGE ->
      Calls.none Calls.is_compress_bag_message_data added = true).
Proof.
  intros Hst Hlook. cbv zeta.
  destruct (compression_write_effects env w st m info Hst Hlook)
    as (res & w' & calls & Heq & Hworld & _ & Hfile & Hmessage & _).
  cbv zeta in Hfile, Hmessage. rewrite Heq. unfold after. cbn [snd].
  rewrite Hworld, drop_app_length. auto.
Qed.

Lemma compression_write_mode_calls_witness :
  let env := Examples.env_of 102401 true in
  let w := after (WriterCompression.create_topic Examples.chatter
                    (Examples.compression_session env 0 MESSAGE)) in
  Calls.none Calls.touches_file
    (drop (length (WriterCompression.world w))
          (WriterCompression.world
             (after (WriterCompression.write env Examples.hello w))))
  = true.
Proof.
  cbv zeta.
  refine (proj1 (proj2 (compression_write_mode_calls
                          (Examples.env_of 102401 true)
                          (after (WriterCompression.create_topic
                                    Examples.chatter
                                    (Examples.compression_session
                                       (Examples.env_of 102401 true)
                                       0 MESSAGE)))
                          (Storage.mk "bag/bag" "sqlite3") Examples.hello
                          (TopicInformation.mk Examples.chatter 0)
                          ltac:(vm_compute; reflexivity)
                          ltac:(vm_compute; reflexivity))) _).
  vm_compute. discriminate.
Defined.

(** X14: [write] counts the message before it does anything else. On an open
    session and for a registered topic, whether the call returns or throws,
    the entry of the topic has its count incremented by one (modulo 2^64)
    and keeps its descriptor, and every other entry is as before. *)
Theorem compression_write_counts_first
  (env : Env) (w : WriterCompression.Writer) (st : Storage.t)
  (m : SerializedBagMessage.t) (info : TopicInformation.t) :
  WriterCompression.storage_ w = Some st ->
  WriterCompression.topics_names_to_info_ w
    !! SerializedBagMessage.topic_name m = Some info ->
  let topics' :=
    WriterCompression.topics_names_to_info_
      (after (WriterCompression.write env m w)) in
  topics' !! SerializedBagMessage.topic_name m
  = Some (TopicInformation.mk (TopicInformation.topic_metadata info)
            ((TopicInformation.message_count info + 1) mod 2 ^ 64))
  /\ (forall other : string,
         other ≠ SerializedBagMessage.topic_name m ->
         topics' !! other
         = WriterCompression.topics_names_to_info_ w !! other).
Proof.
  intros Hst Hlook. cbv zeta.
  destruct (compression_write_effects env w st m info Hst Hlook)
    as (res & w' & calls & Heq & _ & Htopics & _).
  rewrite Heq. unfold after. cbn [snd]. rewrite Htopics. split.
  - apply lookup_insert_eq.
  - intros other Hne. apply lookup_insert_ne. congruence.
Qed.

Lemma compression_write_counts_first_witness :
  let env := Examples.env_of 102401 false in
  let w := after (Examples.run
                    [WriterCompression.create_topic Examples.chatter;
                     WriterCompression.create_topic Examples.odom]
                    (Examples.compression_session env 0 FILE)) in
  outcome (WriterCompression.write env Examples.hello w)
  = inl (runtime_error "compression failed")
  /\ WriterCompression.topics_names_to_info_
       (after (WriterCompression.write env Examples.hello w)) !! "/chatter"
     = Some (TopicInformation.mk Examples.chatter 1).
Proof.
  cbv zeta. split; [vm_compute; reflexivity |].
  exact (proj1 (compression_write_counts_first
                  (Examples.env_of 102401 false)
                  (after (Examples.run
                            [WriterCompression.create_topic Examples.chatter;
                             WriterCompression.create_topic Examples.odom]
                            (Examples.compression_session
                               (Examples.env_of 102401 false) 0 FILE)))
                  (Storage.mk "bag/bag" "sqlite3") Examples.hello
                  (TopicInformation.mk Examples.chatter 0)
                  ltac:(vm_compute; reflexivity)
                  ltac:(vm_compute; reflexivity))).
Defined.

(** ** Rollover and [open] of the writer with compression options *)

(** X15: a rollover that cannot open the next file closes the session. When
    the split fires during a [write] and the factory returns no handle, the
    [write] throws "Failed to rollover bagfile to new file", has handed no
    message to a backend, and leaves the writer without storage: every later
    [write] throws "Bag is not open". *)
Theorem compression_failed_rollover_closes
  (env : Env) (w : WriterCompression.Writer) (st : Storage.t)
  (m : SerializedBagMessage.t) (info : TopicInformation.t) :
  WriterCompression.storage_ w = Some st ->
  WriterCompression.topics_names_to_info_ w
    !! SerializedBagMessage.topic_name m = Some info ->
  102400 < storage_get_bagfile_size env (WriterCompression.world w) st ->
  let uri :=
    WriterCompression.format_storage_uri env
      (WriterCompression.base_folder_ w)
      (Z.of_nat (length (BagMetadata.relative_file_paths
                           (WriterCompression.metadata_ w)))) in
  factory_open_read_write env uri
    (BagMetadata.storage_identifier (WriterCompression.metadata_ w)) = None ->
  let r := WriterCompression.write env m w in
  outcome r = inl (runtime_error (failed_to_rollover uri))
  /\ WriterCompression.storage_ (after r) = None
  /\ WriterCompression.world (after r)
     = WriterCompression.world w
         ++ [ev_get_bagfile_size (Storage.relative_path st);
             ev_open_read_write uri
               (BagMetadata.storage_identifier
                  (WriterCompression.metadata_ w))]
  /\ (forall m2 : SerializedBagMessage.t,
         WriterCompression.write env m2 (after r)
         = (inl (runtime_error not_open_writing), after r)).
Proof.
  intros Hst Hlook Hsize. cbv zeta. intros Hopen.
  assert (Heq :
    exists w' : WriterCompression.Writer,
      WriterCompression.write env m w
      = (inl (runtime_error
                (failed_to_rollover
                   (WriterCompression.format_storage_uri env
                      (WriterCompression.base_folder_ w)
                      (Z.of_nat (length (BagMetadata.relative_file_paths
                                           (WriterCompression.metadata_ w))))))),
         w')
      /\ WriterCompression.storage_ w' = None
      /\ WriterCompression.world w'
         = WriterCompression.world w
             ++ [ev_get_bagfile_size (Storage.relative_path st);
                 ev_open_read_write
                   (WriterCompression.format_storage_uri env
                      (WriterCompression.base_folder_ w)
                      (Z.of_nat (length (BagMetadata.relative_file_paths
                                           (WriterCompression.metadata_ w)))))
                   (BagMetadata.storage_identifier
                      (WriterCompression.metadata_ w))]).
  { unfold WriterCompression.write.
    rewrite bind_gets, Hst, bind_gets, Hlook, bind_modify.
    unfold bind at 1.
    rewrite (compression_should_split_bagfile_hardcoded env _ st)
      by (compression_fields; exact Hst).
    compression_fields.
    apply Z.ltb_lt in Hsize. rewrite Hsize.
    unfold bind at 1.
    rewrite (compression_split_bagfile_eq env _ st)
      by (compression_fields; exact Hst).
    cbv zeta. compression_fields. rewrite Hopen.
    eexists. split; [reflexivity |]. compression_fields.
    split; [reflexivity |]. rewrite <- app_assoc. reflexivity. }
  destruct Heq as (w' & Heq & Hclosed & Hworld).
  rewrite Heq. unfold outcome, after. cbn [fst snd].
  split; [reflexivity |]. split; [exact Hclosed |]. split; [exact Hworld |].
  intros m2. apply compression_write_closed. exact Hclosed.
Qed.

Lemma compression_failed_rollover_closes_witness :
  let env := Examples.env_of 102401 true in
  let w := WriterCompression.with_base_folder_ "full"
             (after (WriterCompression.create_topic Examples.chatter
                       (Examples.compression_session env 0 NONE))) in
  let failing :=
    {| factory_open_read_write := fun _ _ => None;
       factory_get_current_uri := factory_get_current_uri env;
       storage_get_bagfile_size := storage_get_bagfile_size env;
       storage_get_metadata := storage_get_metadata env;
       converter_convert := converter_convert env;
       compressor_compress_uri_state := compressor_compress_uri_state env;
       compressor_compress_uri := compressor_compress_uri env;
       compressor_compress_bag_message_data :=
         compressor_compress_bag_message_data env;
       compressor_get_compression_identifier :=
         compressor_get_compression_identifier env;
       fs_get_folder_name := fs_get_folder_name env;
       fs_concat := fs_concat env;
       fs_get_file_size := fs_get_file_size env;
       fs_calculate_directory_size := fs_calculate_directory_size env;
       MAX_BAGFILE_SIZE_NO_SPLIT := MAX_BAGFILE_SIZE_NO_SPLIT env;
       topic_information_call := topic_information_call env |} in
  outcome (WriterCompression.write failing Examples.hello w)
  = inl (runtime_error (failed_to_rollover "full/full"))
  /\ WriterCompression.storage_
       (after (WriterCompression.write failing Examples.hello w)) = None.
Proof.
  cbv zeta.
  match goal with
  | |- outcome (WriterCompression.write ?failing _ ?w) = _ /\ _ =>
      destruct (compression_failed_rollover_closes failing w
                  (Storage.mk "bag/bag" "sqlite3") Examples.hello
                  (TopicInformation.mk Examples.chatter 0)
                  ltac:(vm_compute; reflexivity)
                  ltac:(vm_compute; reflexivity)
                  ltac:(vm_compute; reflexivity)
                  ltac:(vm_compute; reflexivity))
        as (Hout & Hclosed & _)
  end.
  split; [exact Hout | exact Hclosed].
Defined.

(** X16: a rollover asks the factory for the file whose index is the number
    of entries in the file list, with the storage identifier of the
    metadata, and installs what the factory returns as the handle, whether
    it then returns or throws. It changes the file list only when it
    succeeds, and then by exactly one entry at the end: the path that the
    compressor returned for the file just finished in [FILE] mode, the path
    of that file otherwise. It keeps the registry and re-creates every
    registered topic on the new handle, once each. A rollover that throws
    leaves the file list as it was. *)
Theorem compression_split_bagfile_file_list
  (env : Env) (w : WriterCompression.Writer) (st : Storage.t) :
  WriterCompression.storage_ w = Some st ->
  let r := WriterCompression.split_bagfile env w in
  let paths := BagMetadata.relative_file_paths (WriterCompression.metadata_ w) in
  let paths' :=
    BagMetadata.relative_file_paths (WriterCompression.metadata_ (after r)) in
  let added := drop (length (WriterCompression.world w))
                    (WriterCompression.world (after r)) in
  let uri :=
    WriterCompression.format_storage_uri env
      (WriterCompression.base_folder_ w) (Z.of_nat (length paths)) in
  let id := BagMetadata.storage_identifier (WriterCompression.metadata_ w) in
  WriterCompression.topics_names_to_info_ (after r)
  = WriterCompression.topics_names_to_info_ w
  /\ WriterCompression.storage_ (after r) = factory_open_read_write env uri id
  /\ head added = Some (ev_open_read_write uri id)
  /\ (forall e : exn, outcome r = inl e -> paths' = paths)
  /\ (outcome r = inr tt ->
      exists (new_storage : Storage.t) (entry : string),
        factory_open_read_write env uri id = Some new_storage
        /\ WriterCompression.storage_ (after r) = Some new_storage
        /\ paths' = paths ++ [entry]
        /\ (if bool_decide
                 (WriterCompression.mode
                    (WriterCompression.compression_options_ w) = FILE)
            then compressor_compress_uri env (Storage.relative_path st)
                 = inr entry
            else entry = Storage.relative_path st)
        /\ filter (fun e => Calls.is_create_topic e = true) added
           ≡ₚ map (fun topic : string * TopicInformation.t =>
                     ev_create_topic (Storage.relative_path new_storage)
                       (TopicInformation.topic_metadata topic.2))
                  (map_to_list (WriterCompression.topics_names_to_info_ w))).
Proof.
  intros Hst. cbv zeta.
  rewrite (compression_split_bagfile_eq env w st Hst). cbv zeta.
  assert (Hcreates :
    forall (file : string) (l : list (string * TopicInformation.t)),
      filter (fun e => Calls.is_create_topic e = true)
             (map (fun topic : string * TopicInformation.t =>
                     ev_create_topic file
                       (TopicInformation.topic_metadata topic.2)) l)
      = map (fun topic : string * TopicInformation.t =>
               ev_create_topic file
                 (TopicInformation.topic_metadata topic.2)) l).
  { intros file l. induction l as [| x l IH]; [reflexivity |].
    cbn [map]. rewrite filter_cons_True by reflexivity.
    rewrite IH. reflexivity. }
  destruct (factory_open_read_write env _ _) as [new_storage |] eqn:Hopen.
  - case_bool_decide as Hfile.
    + destruct (compressor_compress_uri env (Storage.relative_path st))
        as [e | compressed_uri] eqn:Hcompress.
      * rewrite (compression_compress_file_throws _ _ e) by exact Hcompress.
        unfold outcome, after. cbn [fst snd]. compression_fields.
        split; [reflexivity |]. split; [reflexivity |].
        split; [rewrite <- !app_assoc, drop_app_length; reflexivity |].
        split; [reflexivity | discriminate].
      * rewrite (compression_compress_file_returns_eq _ _ compressed_uri)
          by exact Hcompress.
        unfold outcome, after. cbn [fst snd]. compression_fields.
        split; [reflexivity |]. split; [reflexivity |].
        split; [rewrite <- !app_assoc, drop_app_length; reflexivity |].
        split; [discriminate |].
        intros _. exists new_storage, compressed_uri.
        split; [reflexivity |].
        split; [reflexivity |]. split; [reflexivity |].
        split; [reflexivity |].
        rewrite <- !app_assoc, drop_app_length.
        cbn [app]. rewrite filter_cons_False by discriminate.
        rewrite filter_app, Hcreates.
        cbn. rewrite app_nil_r. reflexivity.
    + unfold outcome, after. cbn [fst snd]. compression_fields.
      split; [reflexivity |]. split; [reflexivity |].
      split; [rewrite <- !app_assoc, drop_app_length; reflexivity |].
      split; [discriminate |].
      intros _. exists new_storage, (Storage.relative_path st).
      split; [reflexivity |].
      split; [reflexivity |]. split; [reflexivity |].
      split; [reflexivity |].
      rewrite <- !app_assoc, drop_app_length.
      cbn [app]. rewrite filter_cons_False by discriminate.
      rewrite Hcreates. reflexivity.
  - unfold outcome, after. cbn [fst snd]. compression_fields.
    split; [reflexivity |]. split; [reflexivity |].
    split; [rewrite drop_app_length; reflexivity |].
    split; [reflexivity | discriminate].
Qed.

Lemma compression_split_bagfile_file_list_witness :
  let env := Examples.env_of 10 true in
  let w := after (WriterCompression.create_topic Examples.chatter
                    (Examples.compression_session env 0 FILE)) in
  exists (new_storage : Storage.t) (entry : string),
    factory_open_read_write env "bag/bag" "sqlite3" = Some new_storage
    /\ WriterCompression.storage_
         (after (WriterCompression.split_bagfile env w))
       = Some new_storage
    /\ BagMetadata.relative_file_paths
         (WriterCompression.metadata_
            (after (WriterCompression.split_bagfile env w)))
       = [] ++ [entry]
    /\ compressor_compress_uri env "bag/bag" = inr entry.
Proof.
  cbv zeta.
  destruct (proj2 (proj2 (proj2 (proj2
              (compression_split_bagfile_file_list
                 (Examples.env_of 10 true)
                 (after (WriterCompression.create_topic Examples.chatter
                           (Examples.compression_session
                              (Examples.env_of 10 true) 0 FILE)))
                 (Storage.mk "bag/bag" "sqlite3")
                 ltac:(vm_compute; reflexivity)))))
              ltac:(vm_compute; reflexivity))
    as (new_storage & entry & Hfactory & Hst & Hpaths & Hentry & _).
  exists new_storage, entry.
  split; [exact Hfactory |].
  split; [exact Hst |]. split; [exact Hpaths |]. exact Hentry.
Defined.

(** [open] of the writer with compression options, case by case. *)
Lemma compression_open_eq
  (env : Env) (uri storage_id : string) (max_bagfile_size : Z)
  (input output : string) (options : WriterCompression.Options)
  (w : WriterCompression.Writer) :
  let storage_uri := WriterCompression.format_storage_uri env uri 0 in
  let prepared :=
    WriterCompression.mk
      (factory_open_read_write env storage_uri storage_id)
      (if bool_decide (output ≠ input) then true
       else WriterCompression.converter_ w)
      max_bagfile_size uri
      (WriterCompression.topics_names_to_info_ w)
      (WriterCompression.metadata_ w)
      options
      (WriterCompression.world w
         ++ [ev_open_read_write storage_uri storage_id]) in
  WriterCompression.open env uri storage_id max_bagfile_size input output
    options w
  = match factory_open_read_write env storage_uri storage_id with
    | None => (inl (runtime_error no_storage), prepared)
    | Some st =>
        (inr tt,
         WriterCompression.with_metadata_
           (BagMetadata.with_starting_time INT64_MAX
              (BagMetadata.with_storage_identifier
                 (Storage.storage_identifier st) BagMetadata.empty))
           prepared)
    end.
Proof.
  cbv zeta.
  unfold WriterCompression.open, WriterCompression.open2,
    WriterCompression.init_metadata.
  repeat compression_step.
  case_bool_decide; repeat compression_step;
    (destruct (factory_open_read_write env _ _) as [st |] eqn:Hopen;
     [ erewrite compression_bind_deref_storage by reflexivity;
       unfold modify; reflexivity
     | reflexivity ]).
Qed.

(** X17: [open] succeeds exactly when the factory returns a handle for the
    file of index 0. On success the metadata starts afresh (empty file list,
    no messages, starting time at the largest value, the storage identifier
    of the handle), while the registry is kept as it was, entries and counts
    included. On failure it throws "No storage could be initialized. Abort"
    and the writer has no storage, so [write] throws "Bag is not open". *)
Theorem compression_open_outcome
  (env : Env) (uri storage_id : string) (max_bagfile_size : Z)
  (input output : string) (options : WriterCompression.Options)
  (w : WriterCompression.Writer) :
  let r := WriterCompression.open env uri storage_id max_bagfile_size
             input output options w in
  let handle :=
    factory_open_read_write env
      (WriterCompression.format_storage_uri env uri 0) storage_id in
  WriterCompression.storage_ (after r) = handle
  /\ WriterCompression.topics_names_to_info_ (after r)
     = WriterCompression.topics_names_to_info_ w
  /\ WriterCompression.world (after r)
     = WriterCompression.world w
         ++ [ev_open_read_write
               (WriterCompression.format_storage_uri env uri 0) storage_id]
  /\ (forall st : Storage.t,
         handle = Some st ->
         outcome r = inr tt
         /\ WriterCompression.metadata_ (after r)
            = BagMetadata.with_starting_time INT64_MAX
                (BagMetadata.with_storage_identifier
                   (Storage.storage_identifier st) BagMetadata.empty))
  /\ (handle = None ->
      outcome r = inl (runtime_error no_storage)
      /\ forall m : SerializedBagMessage.t,
           WriterCompression.write env m (after r)
           = (inl (runtime_error not_open_writing), after r)).
Proof.
  cbv zeta. rewrite compression_open_eq. cbv zeta.
  destruct (factory_open_read_write env _ _) as [st |] eqn:Hopen;
    unfold outcome, after; cbn [fst snd]; compression_fields.
  - split; [reflexivity |]. split; [reflexivity |]. split; [reflexivity |].
    split; [| discriminate].
    intros st' H. injection H as <-. split; reflexivity.
  - split; [reflexivity |]. split; [reflexivity |]. split; [reflexivity |].
    split; [discriminate |].
    intros _. split; [reflexivity |].
    intros m. apply compression_write_closed. reflexivity.
Qed.

Lemma compression_open_outcome_witness :
  let env := Examples.env_of 10 true in
  let w := after (Examples.run
                    [WriterCompression.create_topic Examples.chatter;
                     WriterCompression.write env Examples.hello]
                    (Examples.compression_session env 0 NONE)) in
  let r := WriterCompression.open env "bag2" "sqlite3" 0 "cdr" "cdr"
             (WriterCompression.mkOptions "zstd" NONE) w in
  outcome r = inr tt
  /\ BagMetadata.relative_file_paths (WriterCompression.metadata_ (after r))
     = []
  /\ WriterCompression.topics_names_to_info_ (after r) !! "/chatter"
     = Some (TopicInformation.mk Examples.chatter 1).
Proof.
  cbv zeta.
  match goal with
  | |- outcome (WriterCompression.open ?env ?uri ?id ?max ?i ?o ?opts ?w) = _
       /\ _ =>
      destruct (compression_open_outcome env uri id max i o opts w)
        as (_ & Htopics & _ & Hok & _);
      destruct (Hok (Storage.mk "bag2/bag2" "sqlite3")
                  ltac:(vm_compute; reflexivity)) as (Hout & Hmd)
  end.
  cbv zeta in Htopics.
  split; [exact Hout |]. split; [rewrite Hmd; reflexivity |].
  rewrite Htopics. vm_compute; reflexivity.
Defined.

(** X18: the file index that a rollover uses is the number of entries in the
    file list. Every rollover on an open session starts by asking the
    factory for the file of that index in the base folder; the base folder
    stays, and the number of entries grows by one when the rollover returns
    and stays when it throws. [open] leaves the list empty: the first
    rollover after a successful [open] asks the factory for the very uri
    that [open] asked for, the one of index 0. *)
Theorem compression_first_rollover_reuses_index_0 (env : Env) :
  let index (v : WriterCompression.Writer) :=
    Z.of_nat (length (BagMetadata.relative_file_paths
                        (WriterCompression.metadata_ v))) in
  (forall (w : WriterCompression.Writer) (st : Storage.t),
      WriterCompression.storage_ w = Some st ->
      let r := WriterCompression.split_bagfile env w in
      head (drop (length (WriterCompression.world w))
                 (WriterCompression.world (after r)))
      = Some (ev_open_read_write
                (WriterCompression.format_storage_uri env
                   (WriterCompression.base_folder_ w) (index w))
                (BagMetadata.storage_identifier
                   (WriterCompression.metadata_ w)))
      /\ WriterCompression.base_folder_ (after r)
         = WriterCompression.base_folder_ w
      /\ (outcome r = inr tt -> index (after r) = index w + 1)
      /\ (forall e : exn, outcome r = inl e -> index (after r) = index w))
  /\ (forall (uri storage_id : string) (max_bagfile_size : Z)
             (input output : string) (options : WriterCompression.Options)
             (w : WriterCompression.Writer),
         let opened :=
           after (WriterCompression.open env uri storage_id max_bagfile_size
                    input output options w) in
         outcome (WriterCompression.open env uri storage_id max_bagfile_size
                    input output options w) = inr tt ->
         exists (st : Storage.t) (calls : list Event),
           WriterCompression.storage_ opened = Some st
           /\ index opened = 0
           /\ last (WriterCompression.world opened)
              = Some (ev_open_read_write
                        (WriterCompression.format_storage_uri env uri 0)
                        storage_id)
           /\ WriterCompression.world
                (after (WriterCompression.split_bagfile env opened))
              = WriterCompression.world opened
                  ++ ev_open_read_write
                       (WriterCompression.format_storage_uri env uri 0)
                       (Storage.storage_identifier st)
                     :: calls).
Proof.
  cbv zeta. split.
  - intros w st Hst.
    rewrite (compression_split_bagfile_eq env w st Hst). cbv zeta.
    destruct (factory_open_read_write env _ _) as [new_storage |] eqn:Hopen.
    + case_bool_decide as Hfile.
      * destruct (compressor_compress_uri env (Storage.relative_path st))
          as [e | compressed_uri] eqn:Hcompress.
        -- rewrite (compression_compress_file_throws _ _ e)
             by exact Hcompress.
           unfold outcome, after. cbn [fst snd]. compression_fields.
           split; [rewrite <- !app_assoc, drop_app_length; reflexivity |].
           split; [reflexivity |]. split; [discriminate | reflexivity].
        -- rewrite (compression_compress_file_returns_eq _ _ compressed_uri)
             by exact Hcompress.
           unfold outcome, after. cbn [fst snd]. compression_fields.
           split; [rewrite <- !app_assoc, drop_app_length; reflexivity |].
           split; [reflexivity |]. split; [| discriminate].
           intros _. cbn [BagMetadata.relative_file_paths
                          BagMetadata.with_relative_file_paths].
           rewrite length_app. cbn [length]. lia.
      * unfold outcome, after. cbn [fst snd]. compression_fields.
        split; [rewrite <- !app_assoc, drop_app_length; reflexivity |].
        split; [reflexivity |]. split; [| discriminate].
        intros _. cbn [BagMetadata.relative_file_paths
                       BagMetadata.with_relative_file_paths].
        rewrite length_app. cbn [length]. lia.
    + unfold outcome, after. cbn [fst snd]. compression_fields.
      split; [rewrite drop_app_length; reflexivity |].
      split; [reflexivity |]. split; [discriminate | reflexivity].
  - intros uri storage_id max_bagfile_size input output options w.
    rewrite compression_open_eq. cbv zeta.
    destruct (factory_open_read_write env
                (WriterCompression.format_storage_uri env uri 0) storage_id)
      as [st |] eqn:Hopen;
      unfold outcome at 1, after; cbn [fst snd]; [| discriminate].
    intros _.
    match goal with
    | |- exists (st0 : Storage.t) (calls : list Event),
           WriterCompression.storage_ ?opened = _ /\ _ =>
        destruct (compression_split_bagfile_calls env opened st)
          as (res & w' & calls & Heq & Hcalls & _);
        [compression_fields; reflexivity |]
    end.
    exists st, calls. compression_fields.
    split; [reflexivity |]. split; [reflexivity |].
    split; [apply last_snoc |].
    rewrite Heq. cbn [snd]. rewrite Hcalls. compression_fields.
    reflexivity.
Qed.

Lemma compression_first_rollover_reuses_index_0_witness :
  let env := Examples.env_of 10 true in
  let opened := Examples.compression_session env 0 NONE in
  exists (st : Storage.t) (calls : list Event),
    WriterCompression.storage_ opened = Some st
    /\ last (WriterCompression.world opened)
       = Some (ev_open_read_write "bag/bag" "sqlite3")
    /\ WriterCompression.world
         (after (WriterCompression.split_bagfile env opened))
       = WriterCompression.world opened
           ++ ev_open_read_write "bag/bag" (Storage.storage_identifier st)
              :: calls.
Proof.
  cbv zeta.
  destruct (proj2 (compression_first_rollover_reuses_index_0
                     (Examples.env_of 10 true))
              "bag" "sqlite3" 0 "cdr" "cdr"
              (WriterCompression.mkOptions "zstd" NONE)
              (WriterCompression.Writer_new (Examples.env_of 10 true))
              ltac:(vm_compute; reflexivity))
    as (st & calls & Hst & _ & Hlast & Hworld).
  exists st, calls.
  split; [exact Hst |]. split; [exact Hlast | exact Hworld].
Defined.

(** ** Finalizing and persisting the metadata *)

Lemma foldl_bag_size (l : list string) (size : string -> Z)
  (md : BagMetadata.t) :
  foldl (fun md path =>
           BagMetadata.with_bag_size
             (add64 (BagMetadata.bag_size md) (size path)) md) md l
  = BagMetadata.with_bag_size
      (foldl add64 (BagMetadata.bag_size md) (size <$> l)) md.
Proof.
  revert md. induction l as [| path l IH]; intros md; cbn [foldl fmap list_fmap].
  - destruct md; reflexivity.
  - rewrite IH. reflexivity.
Qed.

Lemma foldl_topics_and_total (l : list (string * TopicInformation.t))
  (md : BagMetadata.t) :
  foldl (fun md (topic : string * TopicInformation.t) =>
           (fun m => BagMetadata.with_message_count
                       (add64 (BagMetadata.message_count m)
                              (TopicInformation.message_count topic.2)) m)
             ((fun m => BagMetadata.with_topics_with_message_count
                          (BagMetadata.topics_with_message_count m
                             ++ [topic.2]) m) md))
        md l
  = BagMetadata.with_message_count
      (foldl add64 (BagMetadata.message_count md)
             (TopicInformation.message_count <$> l.*2))
      (BagMetadata.with_topics_with_message_count
         (BagMetadata.topics_with_message_count md ++ l.*2) md).
Proof.
  revert md. induction l as [| topic l IH]; intros md;
    cbn [foldl fmap list_fmap].
  - rewrite app_nil_r. destruct md; reflexivity.
  - rewrite IH. cbn. rewrite <- app_assoc. reflexivity.
Qed.

(** [finalize_metadata] as one update of the metadata. *)
Lemma compression_finalize_metadata_explicit
  (env : Env) (w : WriterCompression.Writer) :
  let md := WriterCompression.metadata_ w in
  let listed :=
    (map_to_list (WriterCompression.topics_names_to_info_ w)).*2 in
  WriterCompression.finalize_metadata env w
  = (inr tt,
     WriterCompression.with_metadata_
       (BagMetadata.mk
          (BagMetadata.storage_identifier md)
          (BagMetadata.relative_file_paths md)
          (BagMetadata.duration md)
          (BagMetadata.starting_time md)
          (foldl add64 0 (TopicInformation.message_count <$> listed))
          listed
          (foldl add64 0
             (fs_get_file_size env <$> BagMetadata.relative_file_paths md))
          (compressor_get_compression_identifier env)
          (compression_mode_to_string
             (WriterCompression.mode
                (WriterCompression.compression_options_ w))))
       w).
Proof.
  cbv zeta.
  unfold WriterCompression.finalize_metadata.
  rewrite compression_bind_update_metadata, bind_gets.
  unfold bind at 1. rewrite compression_for_each_update_metadata.
  rewrite !compression_bind_update_metadata, bind_gets.
  unfold bind at 1. rewrite compression_for_each_update_metadata2.
  rewrite !compression_bind_update_metadata, bind_gets.
  unfold WriterCompression.update_metadata, modify.
  compression_fields.
  rewrite foldl_bag_size.
  rewrite (foldl_topics_and_total
             (map_to_list (WriterCompression.topics_names_to_info_ w))).
  reflexivity.
Qed.

(** X19: [finalize_metadata] always returns and touches the metadata only.
    It keeps the file list, the storage identifier, the starting time and
    the duration; it sets the bag size to the sum of the sizes of the listed
    files and the total message count to the sum of the counts of the topics
    it lists (both modulo 2^64), lists the entries of the registry, and
    records the identifier of the compressor and the name of the mode.
    Calling it a second time changes nothing. *)
Theorem compression_finalize_metadata_summary
  (env : Env) (w : WriterCompression.Writer) :
  let r := WriterCompression.finalize_metadata env w in
  let md := WriterCompression.metadata_ w in
  let md' := WriterCompression.metadata_ (after r) in
  outcome r = inr tt
  /\ after r = WriterCompression.with_metadata_ md' w
  /\ BagMetadata.relative_file_paths md' = BagMetadata.relative_file_paths md
  /\ BagMetadata.storage_identifier md' = BagMetadata.storage_identifier md
  /\ BagMetadata.starting_time md' = BagMetadata.starting_time md
  /\ BagMetadata.duration md' = BagMetadata.duration md
  /\ BagMetadata.bag_size md'
     = wrap64 (foldr Z.add 0
                 (fs_get_file_size env
                    <$> BagMetadata.relative_file_paths md))
  /\ BagMetadata.topics_with_message_count md'
     = (map_to_list (WriterCompression.topics_names_to_info_ w)).*2
  /\ BagMetadata.message_count md' = wrap64 (BagMetadata.sum_topic_counts md')
  /\ BagMetadata.compression_format md'
     = compressor_get_compression_identifier env
  /\ BagMetadata.compression_mode md'
     = compression_mode_to_string
         (WriterCompression.mode (WriterCompression.compression_options_ w))
  /\ WriterCompression.finalize_metadata env (after r) = (inr tt, after r).
Proof.
  cbv zeta.
  rewrite (compression_finalize_metadata_explicit env w). cbv zeta.
  unfold outcome, after. cbn [fst snd]. compression_fields.
  cbn [BagMetadata.relative_file_paths BagMetadata.storage_identifier
       BagMetadata.starting_time BagMetadata.duration BagMetadata.bag_size
       BagMetadata.topics_with_message_count BagMetadata.message_count
       BagMetadata.compression_format BagMetadata.compression_mode].
  repeat (split; [reflexivity |]).
  split; [change 0 with (wrap64 0) at 1; apply foldl_add64 |].
  split; [reflexivity |].
  split.
  { rewrite sum_topic_counts_foldr.
    cbn [BagMetadata.topics_with_message_count].
    change 0 with (wrap64 0) at 1. apply foldl_add64. }
  split; [reflexivity |]. split; [reflexivity |].
  rewrite compression_finalize_metadata_explicit. cbv zeta.
  compression_fields.
  cbn [BagMetadata.relative_file_paths BagMetadata.storage_identifier
       BagMetadata.starting_time BagMetadata.duration].
  reflexivity.
Qed.

(** X20: whenever the destructor returns on a writer whose base folder is
    set, the last call it has made is [write_metadata] on that folder, with
    a metadata whose total message count is the sum of the counts of the
    topics it lists (modulo 2^64); and the storage handle is released. *)
Theorem compression_destroy_persists_metadata
  (env : Env) (w : WriterCompression.Writer) :
  outcome (WriterCompression.destroy env w) = inr tt ->
  WriterCompression.base_folder_ w ≠ EmptyString ->
  exists md : BagMetadata.t,
    last (WriterCompression.world (after (WriterCompression.destroy env w)))
    = Some (ev_write_metadata (WriterCompression.base_folder_ w) md)
    /\ BagMetadata.message_count md = wrap64 (BagMetadata.sum_topic_counts md).
Proof.
  intros Hok Hbase.
  destruct (compression_destroy_persists_consistent_total env w)
    as (res & w' & Heq & H).
  rewrite Heq in *. unfold outcome, after in *. cbn [fst snd] in *.
  exact (H Hok Hbase).
Qed.

Lemma compression_destroy_persists_metadata_witness :
  let env := Examples.env_of 10 true in
  let w := after (Examples.run
                    [WriterCompression.create_topic Examples.chatter;
                     WriterCompression.write env Examples.hello]
                    (Examples.compression_session env 0 FILE)) in
  exists md : BagMetadata.t,
    last (WriterCompression.world (after (WriterCompression.destroy env w)))
    = Some (ev_write_metadata "bag" md)
    /\ BagMetadata.message_count md = wrap64 (BagMetadata.sum_topic_counts md).
Proof.
  cbv zeta.
  refine (compression_destroy_persists_metadata (Examples.env_of 10 true)
            (after (Examples.run
                      [WriterCompression.create_topic Examples.chatter;
                       WriterCompression.write (Examples.env_of 10 true)
                         Examples.hello]
                      (Examples.compression_session
                         (Examples.env_of 10 true) 0 FILE)))
            ltac:(vm_compute; reflexivity) _).
  vm_compute. discriminate.
Defined.

(** ** writer.cpp: totals, times, rollover, destructor *)

(** X21: in writer.cpp, for every sequence of [open], [create_topic] and
    [write] calls on a new writer, whichever of them throw, the session total
    [message_count_] is the sum of the counts held in the registry, and the
    metadata that [generate_metadata_] builds has the total of the counts it
    lists (modulo 2^64). *)
Theorem poc_session_total_matches_registry
  (env : Env) (calls : list Sessions.Call) :
  let w := Sessions.state_after env calls (WriterPoC.Writer_new env) in
  let md := WriterPoC.generate_metadata_ env w in
  WriterPoC.message_count_ w
  = wrap64 (Spec.registry_total (WriterPoC.topics_ w))
  /\ BagMetadata.message_count md = wrap64 (BagMetadata.sum_topic_counts md).
Proof.
  cbv zeta. split.
  - apply poc_total_invariant. reflexivity.
  - apply poc_generate_metadata_total_without_remove.
Qed.

(** [split_bagfile_] of writer.cpp, case by case. *)
Lemma poc_split_bagfile_eq (env : Env) (w : WriterPoC.Writer) :
  let current_uri := factory_get_current_uri env (WriterPoC.world w) in
  let db_name :=
    fs_get_folder_name env (WriterPoC.uri_ w)
      +:+ (if 0 <? WriterPoC.bagfile_counter_ w
           then "_" +:+ pretty (WriterPoC.bagfile_counter_ w)
           else EmptyString) in
  let bagfile_uri := fs_concat env [WriterPoC.uri_ w; db_name] in
  let handle :=
    factory_open_read_write env bagfile_uri (WriterPoC.storage_id_ w) in
  let opened :=
    WriterPoC.with_storage_ handle
      (WriterPoC.with_world
         (WriterPoC.world w
            ++ [ev_open_read_write bagfile_uri (WriterPoC.storage_id_ w)])
         (WriterPoC.with_bagfile_counter_
            (incr64 (WriterPoC.bagfile_counter_ w)) w)) in
  WriterPoC.split_bagfile_ env w
  = match handle with
    | None => (inl (runtime_error no_storage), opened)
    | Some new_storage =>
        let compression_state :=
          compressor_compress_uri_state env current_uri in
        (inr tt,
         WriterPoC.with_relative_file_paths_
           (WriterPoC.relative_file_paths_ w
              ++ [if CompressionState.compression_success compression_state
                  then CompressionState.compressed_uri compression_state
                  else bagfile_uri])
           (WriterPoC.with_world
              (WriterPoC.world opened
                 ++ map (fun topic : string * TopicInformation.t =>
                           ev_create_topic (Storage.relative_path new_storage)
                             (TopicInformation.topic_metadata topic.2))
                        (map_to_list (WriterPoC.topics_ w))
                 ++ [ev_compress_uri current_uri])
              opened))
    end.
Proof.
  cbv zeta.
  unfold WriterPoC.split_bagfile_, WriterPoC.next_bagfile_uri_.
  repeat poc_step.
  destruct (factory_open_read_write env _ _) as [new_storage |] eqn:Hopen.
  - repeat poc_step. unfold modify. poc_fields.
    rewrite <- !app_assoc. reflexivity.
  - reflexivity.
Qed.

(** X22: every rollover of writer.cpp uses the file counter once: the
    counter goes up by one (modulo 2^64) whether the factory opens the file
    or not, and the uri asked for carries the counter of before as its
    suffix. A rollover that returns installs the new handle and appends one
    entry to the file list; one that cannot open the file throws "No storage
    could be initialized. Abort", leaves the file list alone and the writer
    without storage. Registry and session total are not touched. *)
Theorem poc_split_bagfile_counter (env : Env) (w : WriterPoC.Writer) :
  let r := WriterPoC.split_bagfile_ env w in
  let bagfile_uri :=
    fs_concat env
      [WriterPoC.uri_ w;
       fs_get_folder_name env (WriterPoC.uri_ w)
         +:+ (if 0 <? WriterPoC.bagfile_counter_ w
              then "_" +:+ pretty (WriterPoC.bagfile_counter_ w)
              else EmptyString)] in
  WriterPoC.bagfile_counter_ (after r)
  = (WriterPoC.bagfile_counter_ w + 1) mod 2 ^ 64
  /\ WriterPoC.storage_ (after r)
     = factory_open_read_write env bagfile_uri (WriterPoC.storage_id_ w)
  /\ WriterPoC.topics_ (after r) = WriterPoC.topics_ w
  /\ WriterPoC.message_count_ (after r) = WriterPoC.message_count_ w
  /\ (forall new_storage : Storage.t,
         factory_open_read_write env bagfile_uri (WriterPoC.storage_id_ w)
         = Some new_storage ->
         outcome r = inr tt
         /\ exists entry : string,
              WriterPoC.relative_file_paths_ (after r)
              = WriterPoC.relative_file_paths_ w ++ [entry])
  /\ (factory_open_read_write env bagfile_uri (WriterPoC.storage_id_ w)
      = None ->
      outcome r = inl (runtime_error no_storage)
      /\ WriterPoC.relative_file_paths_ (after r)
         = WriterPoC.relative_file_paths_ w).
Proof.
  cbv zeta. rewrite poc_split_bagfile_eq. cbv zeta.
  destruct (factory_open_read_write env _ _) as [new_storage |] eqn:Hopen;
    unfold outcome, after; cbn [fst snd]; poc_fields.
  - split; [reflexivity |]. split; [reflexivity |]. split; [reflexivity |].
    split; [reflexivity |]. split; [| discriminate].
    intros st' _. split; [reflexivity |]. eexists. reflexivity.
  - split; [reflexivity |]. split; [reflexivity |]. split; [reflexivity |].
    split; [reflexivity |]. split; [discriminate |].
    intros _. split; reflexivity.
Qed.

Lemma poc_split_bagfile_counter_witness :
  let env := Examples.env_of 10 true in
  let w := Examples.poc_session env 0 in
  let r1 := WriterPoC.split_bagfile_ env w in
  let r2 := WriterPoC.split_bagfile_ env (after r1) in
  (outcome r1 = inr tt
   /\ exists entry : string,
        WriterPoC.relative_file_paths_ (after r1)
        = WriterPoC.relative_file_paths_ w ++ [entry])
  /\ WriterPoC.storage_ (after r2) = Some (Storage.mk "bag/bag_2" "sqlite3").
Proof.
  cbv zeta. split.
  - exact (proj1 (proj2 (proj2 (proj2 (proj2
             (poc_split_bagfile_counter (Examples.env_of 10 true)
                (Examples.poc_session (Examples.env_of 10 true) 0))))))
             (Storage.mk "bag/bag_1" "sqlite3")
             ltac:(vm_compute; reflexivity)).
  - rewrite (proj1 (proj2 (poc_split_bagfile_counter
                             (Examples.env_of 10 true)
                             (after (WriterPoC.split_bagfile_
                                       (Examples.env_of 10 true)
                                       (Examples.poc_session
                                          (Examples.env_of 10 true) 0)))))).
    vm_compute; reflexivity.
Defined.

(** X23: in writer.cpp, a [write] that returns has moved [start_time_] to
    the minimum and [end_time_] to the maximum of their old values and the
    message time stamp, rollover or not; so the message lies between them.
    The duration that [generate_metadata_] then reports is their difference
    on 64 bits: it is the span itself, and non-negative, when the span is
    below 2^63; for two times in the range of [int64_t] that are further
    apart it is the span minus 2^64, a negative number. *)
Theorem poc_write_times
  (env : Env) (w : WriterPoC.Writer) (st : Storage.t)
  (m : SerializedBagMessage.t) :
  WriterPoC.storage_ w = Some st ->
  outcome (WriterPoC.write env m w) = inr tt ->
  let ts := SerializedBagMessage.time_stamp m in
  let w' := after (WriterPoC.write env m w) in
  WriterPoC.start_time_ w' = Z.min (WriterPoC.start_time_ w) ts
  /\ WriterPoC.end_time_ w' = Z.max (WriterPoC.end_time_ w) ts
  /\ WriterPoC.start_time_ w' <= ts <= WriterPoC.end_time_ w'
  /\ BagMetadata.duration (WriterPoC.generate_metadata_ env w')
     = sub_int64 (WriterPoC.end_time_ w') (WriterPoC.start_time_ w')
  /\ (WriterPoC.end_time_ w' - WriterPoC.start_time_ w' < 2 ^ 63 ->
      BagMetadata.duration (WriterPoC.generate_metadata_ env w')
      = WriterPoC.end_time_ w' - WriterPoC.start_time_ w'
      /\ 0 <= BagMetadata.duration (WriterPoC.generate_metadata_ env w'))
  /\ (INT64_MIN <= WriterPoC.start_time_ w' ->
      WriterPoC.end_time_ w' <= INT64_MAX ->
      2 ^ 63 <= WriterPoC.end_time_ w' - WriterPoC.start_time_ w' ->
      BagMetadata.duration (WriterPoC.generate_metadata_ env w')
      = WriterPoC.end_time_ w' - WriterPoC.start_time_ w' - 2 ^ 64
      /\ BagMetadata.duration (WriterPoC.generate_metadata_ env w') < 0).
Proof.
  intros Hst. cbv zeta.
  assert (Heq :
    exists (res : exn + unit) (w' : WriterPoC.Writer),
      WriterPoC.write env m w = (res, w')
      /\ (res = inr tt ->
          is_Some (WriterPoC.storage_ w')
          /\ WriterPoC.start_time_ w'
             = Z.min (WriterPoC.start_time_ w)
                     (SerializedBagMessage.time_stamp m)
          /\ WriterPoC.end_time_ w'
             = Z.max (WriterPoC.end_time_ w)
                     (SerializedBagMessage.time_stamp m))).
  { unfold WriterPoC.write.
    rewrite bind_gets, Hst, !bind_modify.
    unfold bind at 1.
    rewrite (poc_should_split_bagfile_hardcoded env _ st)
      by (poc_fields; exact Hst).
    poc_fields.
    destruct (102400 <? _) eqn:Hsplit.
    - unfold bind at 1. rewrite poc_split_bagfile_eq. cbv zeta. poc_fields.
      destruct (factory_open_read_write env _ _) as [new_storage |] eqn:Hopen.
      + repeat poc_step. destruct (WriterPoC.converter_ w);
          repeat poc_step; unfold WriterPoC.emit, modify;
          (eexists _, _; split; [reflexivity |]; intros _; poc_fields;
           split; [eauto |]; split; reflexivity).
      + eexists _, _. split; [reflexivity |]. discriminate.
    - repeat poc_step. destruct (WriterPoC.converter_ w);
        repeat poc_step; unfold WriterPoC.emit, modify;
        (eexists _, _; split; [reflexivity |]; intros _; poc_fields;
         split; [eauto |]; split; reflexivity). }
  destruct Heq as (res & w' & Heq & H).
  rewrite Heq. unfold outcome, after. cbn [fst snd]. intros Hok.
  destruct (H Hok) as ([st' Hst'] & Hstart & Hend).
  split; [exact Hstart |]. split; [exact Hend |]. split; [lia |].
  unfold WriterPoC.generate_metadata_. rewrite Hst'.
  cbn [BagMetadata.duration]. unfold sub_int64.
  split; [reflexivity |]. split.
  - intros Hsmall. rewrite wrap_int64_small by lia. lia.
  - unfold INT64_MIN, INT64_MAX. intros Hlo Hhi Hbig.
    rewrite wrap_int64_above by lia. lia.
Qed.

Lemma poc_write_times_witness :
  let env := Examples.env_of 10 true in
  let w := Examples.poc_session env 0 in
  let w' := after (WriterPoC.write env Examples.hello w) in
  WriterPoC.start_time_ w' = 100 /\ WriterPoC.end_time_ w' = 100.
Proof.
  cbv zeta.
  destruct (poc_write_times (Examples.env_of 10 true)
              (Examples.poc_session (Examples.env_of 10 true) 0)
              (Storage.mk "bag/bag" "sqlite3") Examples.hello
              ltac:(vm_compute; reflexivity) ltac:(vm_compute; reflexivity))
    as (Hs & He & _).
  split; [rewrite Hs | rewrite He]; vm_compute; reflexivity.
Defined.

(** [open] of writer.cpp, case by case. *)
Lemma poc_open_eq
  (env : Env) (uri storage_id : string) (max_bagfile_size : Z)
  (input output : string) (w : WriterPoC.Writer) :
  let bagfile_uri :=
    fs_concat env
      [uri;
       fs_get_folder_name env uri
         +:+ (if 0 <? WriterPoC.bagfile_counter_ w
              then "_" +:+ pretty (WriterPoC.bagfile_counter_ w)
              else EmptyString)] in
  let prepared :=
    WriterPoC.mk
      (factory_open_read_write env bagfile_uri storage_id)
      (if bool_decide (output ≠ input) then true
       else WriterPoC.converter_ w)
      max_bagfile_size
      (WriterPoC.relative_file_paths_ w)
      (WriterPoC.message_count_ w)
      (WriterPoC.topics_ w)
      (incr64 (WriterPoC.bagfile_counter_ w))
      (WriterPoC.start_time_ w)
      (WriterPoC.end_time_ w)
      storage_id uri
      (WriterPoC.world w ++ [ev_open_read_write bagfile_uri storage_id]) in
  WriterPoC.open env uri storage_id max_bagfile_size input output w
  = match factory_open_read_write env bagfile_uri storage_id with
    | None => (inl (runtime_error no_storage), prepared)
    | Some st =>
        (inr tt,
         WriterPoC.with_end_time_ INT64_MIN
           (WriterPoC.with_start_time_ INT64_MAX prepared))
    end.
Proof.
  cbv zeta.
  unfold WriterPoC.open, WriterPoC.next_bagfile_uri_.
  repeat poc_step.
  case_bool_decide; repeat poc_step;
    (destruct (factory_open_read_write env _ _) as [st |] eqn:Hopen;
     [ repeat poc_step; unfold modify; reflexivity
     | reflexivity ]).
Qed.

(** X24: the destructor of writer.cpp never throws and always releases the
    storage handle. It persists metadata, with one [write_metadata] call on
    the folder name of the uri and the metadata that [generate_metadata_]
    builds, exactly when the uri is set and a handle is open; on a writer
    that was never opened, or whose [open] failed, it calls nothing. A
    session that is opened and closed without a message persists the
    starting time [INT64_MAX] and, the difference [INT64_MIN - INT64_MAX]
    being taken on 64 bits, a duration of 1. *)
Theorem poc_destroy_persists_iff_open (env : Env) (w : WriterPoC.Writer) :
  let r := WriterPoC.destroy env w in
  outcome r = inr tt
  /\ WriterPoC.storage_ (after r) = None
  /\ (WriterPoC.uri_ w ≠ EmptyString -> is_Some (WriterPoC.storage_ w) ->
      WriterPoC.world (after r)
      = WriterPoC.world w
          ++ [ev_write_metadata (fs_get_folder_name env (WriterPoC.uri_ w))
                (WriterPoC.generate_metadata_ env w)])
  /\ (WriterPoC.uri_ w = EmptyString \/ WriterPoC.storage_ w = None ->
      WriterPoC.world (after r) = WriterPoC.world w)
  /\ (forall (uri storage_id : string) (max : Z) (input output : string),
         outcome (WriterPoC.open env uri storage_id max input output w)
         ≠ inr tt ->
         let failed :=
           after (WriterPoC.open env uri storage_id max input output w) in
         WriterPoC.world (after (WriterPoC.destroy env failed))
         = WriterPoC.world failed)
  /\ (forall (uri storage_id : string) (max : Z) (input output : string),
         uri ≠ EmptyString ->
         outcome (WriterPoC.open env uri storage_id max input output w)
         = inr tt ->
         let opened :=
           after (WriterPoC.open env uri storage_id max input output w) in
         exists md : BagMetadata.t,
           last (WriterPoC.world (after (WriterPoC.destroy env opened)))
           = Some (ev_write_metadata (fs_get_folder_name env uri) md)
           /\ BagMetadata.starting_time md = INT64_MAX
           /\ BagMetadata.duration md = 1).
Proof.
  cbv zeta.
  assert (Hdestroy :
    forall w0 : WriterPoC.Writer,
      WriterPoC.destroy env w0
      = (inr tt,
         WriterPoC.with_storage_ None
           (if bool_decide (WriterPoC.uri_ w0 ≠ EmptyString)
               && bool_decide (is_Some (WriterPoC.storage_ w0))
            then WriterPoC.with_world
                   (WriterPoC.world w0
                      ++ [ev_write_metadata
                            (fs_get_folder_name env (WriterPoC.uri_ w0))
                            (WriterPoC.generate_metadata_ env w0)]) w0
            else w0))).
  { intros w0. unfold WriterPoC.destroy. rewrite bind_get.
    destruct (bool_decide _ && bool_decide _); reflexivity. }
  rewrite Hdestroy. unfold outcome, after. cbn [fst snd].
  split; [reflexivity |]. split; [reflexivity |].
  split; [| split; [| split]].
  - intros Huri Hsome.
    rewrite (bool_decide_eq_true_2 _ Huri), (bool_decide_eq_true_2 _ Hsome).
    reflexivity.
  - intros [Huri | Hnone].
    + rewrite (bool_decide_eq_false_2 (WriterPoC.uri_ w ≠ EmptyString))
        by (intros H; apply H, Huri).
      reflexivity.
    + rewrite (bool_decide_eq_false_2 (is_Some (WriterPoC.storage_ w)))
        by (rewrite Hnone; intros [x Hx]; discriminate Hx).
      rewrite andb_false_r. reflexivity.
  - intros uri storage_id max input output Hfail.
    rewrite Hdestroy. cbn [snd].
    assert (Hclosed :
      WriterPoC.storage_
        (WriterPoC.open env uri storage_id max input output w).2 = None).
    { revert Hfail.
      unfold outcome, WriterPoC.open, WriterPoC.next_bagfile_uri_.
      repeat poc_step.
      case_bool_decide; repeat poc_step;
        (destruct (factory_open_read_write env _ _) eqn:Hopen;
         repeat poc_step; unfold modify, throw; cbn [fst snd]; poc_fields;
         [intros Hne; exfalso; apply Hne; reflexivity
         | intros _; reflexivity]). }
    rewrite (bool_decide_eq_false_2
               (is_Some
                  (WriterPoC.storage_
                     (WriterPoC.open env uri storage_id max input output w).2)))
      by (rewrite Hclosed; intros [x Hx]; discriminate Hx).
    rewrite andb_false_r. reflexivity.
  - intros uri storage_id max input output Huri.
    rewrite poc_open_eq. cbv zeta.
    destruct (factory_open_read_write env _ _) as [st |] eqn:Hopen;
      unfold outcome; cbn [fst snd]; [| discriminate].
    intros _. rewrite Hdestroy. cbn [snd]. poc_fields.
    rewrite (bool_decide_eq_true_2 _ Huri).
    rewrite (bool_decide_eq_true_2 (is_Some (Some st)))
      by (eexists; reflexivity).
    cbn [andb]. poc_fields.
    eexists. split; [apply last_snoc |].
    unfold WriterPoC.generate_metadata_. poc_fields.
    cbn [BagMetadata.starting_time BagMetadata.duration].
    split; reflexivity.
Qed.

Lemma poc_destroy_persists_iff_open_witness :
  let env := Examples.env_of 10 true in
  let w := after (Examples.run
                    [WriterPoC.create_topic Examples.chatter;
                     WriterPoC.write env Examples.hello]
                    (Examples.poc_session env 0)) in
  WriterPoC.world (after (WriterPoC.destroy env w))
  = WriterPoC.world w
      ++ [ev_write_metadata "bag" (WriterPoC.generate_metadata_ env w)]
  /\ WriterPoC.world
       (after (WriterPoC.destroy env (WriterPoC.Writer_new env)))
     = []
  /\ exists md : BagMetadata.t,
       last (WriterPoC.world
               (after (WriterPoC.destroy env (Examples.poc_session env 0))))
       = Some (ev_write_metadata "bag" md)
       /\ BagMetadata.starting_time md = INT64_MAX
       /\ BagMetadata.duration md = 1.
Proof.
  cbv zeta. split; [| split].
  - refine (proj1 (proj2 (proj2
              (poc_destroy_persists_iff_open (Examples.env_of 10 true)
                 (after (Examples.run
                           [WriterPoC.create_topic Examples.chatter;
                            WriterPoC.write (Examples.env_of 10 true)
                              Examples.hello]
                           (Examples.poc_session
                              (Examples.env_of 10 true) 0)))))) _ _).
    + vm_compute. discriminate.
    + vm_compute. eexists; reflexivity.
  - exact (proj1 (proj2 (proj2 (proj2
             (poc_destroy_persists_iff_open (Examples.env_of 10 true)
                (WriterPoC.Writer_new (Examples.env_of 10 true))))))
             (or_introl eq_refl)).
  - exact (proj2 (proj2 (proj2 (proj2 (proj2
             (poc_destroy_persists_iff_open (Examples.env_of 10 true)
                (WriterPoC.Writer_new (Examples.env_of 10 true)))))))
             "bag" "sqlite3" 0 "cdr" "cdr"
             ltac:(discriminate) ltac:(vm_compute; reflexivity)).
Defined.

(** ** The aggregating writer: merging per-file metadata *)

Lemma aggregate_fields (env : Env) (M m : BagMetadata.t) :
  let A := WriterAggregate.aggregate env M m in
  BagMetadata.storage_identifier A = BagMetadata.storage_identifier m
  /\ BagMetadata.bag_size A = BagMetadata.bag_size m
  /\ BagMetadata.message_count A
     = add64 (BagMetadata.message_count M) (BagMetadata.message_count m)
  /\ BagMetadata.duration A
     = add_int64 (BagMetadata.duration M) (BagMetadata.duration m)
  /\ BagMetadata.starting_time A
     = (if (BagMetadata.starting_time m <? BagMetadata.starting_time M)
           && negb (BagMetadata.starting_time m =? 0)
        then BagMetadata.starting_time m else BagMetadata.starting_time M)
  /\ BagMetadata.topics_with_message_count A
     = BagMetadata.topics_with_message_count M
         ++ WriterAggregate.get_topics_no_duplicates env
              (BagMetadata.topics_with_message_count M)
              (BagMetadata.topics_with_message_count m).
Proof.
  cbv zeta. unfold WriterAggregate.aggregate.
  cbn [BagMetadata.starting_time BagMetadata.with_message_count
       BagMetadata.with_relative_file_paths
       BagMetadata.with_storage_identifier].
  destruct (_ && _); cbn; auto 10.
Qed.

Lemma existsb_false_elem {A} (p : A -> bool) (l : list A) :
  existsb p l = false <-> forall x : A, x ∈ l -> p x = false.
Proof.
  induction l as [| a l IH]; cbn [existsb].
  - split; [intros _ x Hin; inversion Hin | reflexivity].
  - rewrite orb_false_iff, IH. split.
    + intros [Ha Hl] x Hin. apply elem_of_cons in Hin as [-> | Hin];
        [exact Ha | apply Hl, Hin].
    + intros Hall. split; [apply Hall; left |].
      intros x Hin. apply Hall. right. exact Hin.
Qed.

Lemma aggregate_starting_time_le (env : Env) (M m : BagMetadata.t) :
  BagMetadata.starting_time (WriterAggregate.aggregate env M m)
  <= BagMetadata.starting_time M.
Proof.
  destruct (aggregate_fields env M m) as (_ & _ & _ & _ & Hstart & _).
  cbv zeta in Hstart. rewrite Hstart.
  destruct (Z.ltb_spec (BagMetadata.starting_time m)
              (BagMetadata.starting_time M));
    destruct (Z.eqb_spec (BagMetadata.starting_time m) 0);
    cbn [andb negb]; lia.
Qed.

(** X25: one merge of per-file metadata [m] into the aggregate [M] never
    drops or reorders a topic of [M]. The topic list of the result is the
    topic list of [M] followed by the topics of [m] whose call on every
    topic of [M] answers false, each as often and in the order in which [m]
    lists it. The starting time never moves later, and a per-file starting
    time of 0 never replaces it; otherwise the result is the earlier of the
    two. *)
Theorem aggregate_merge_topics_and_start
  (env : Env) (M m : BagMetadata.t) :
  let A := WriterAggregate.aggregate env M m in
  let old := BagMetadata.topics_with_message_count M in
  let new := BagMetadata.topics_with_message_count A in
  new = old
        ++ filter (fun ti : TopicInformation.t =>
                     Forall (fun prev : TopicInformation.t =>
                               topic_information_call env ti prev = false)
                            old)
                  (BagMetadata.topics_with_message_count m)
  /\ old `prefix_of` new
  /\ (forall ti : TopicInformation.t,
         ti ∈ new <->
         ti ∈ old
         \/ (ti ∈ BagMetadata.topics_with_message_count m
             /\ forall prev : TopicInformation.t,
                  prev ∈ old -> topic_information_call env ti prev = false))
  /\ BagMetadata.starting_time A <= BagMetadata.starting_time M
  /\ (BagMetadata.starting_time m = 0 ->
      BagMetadata.starting_time A = BagMetadata.starting_time M)
  /\ (BagMetadata.starting_time m ≠ 0 ->
      BagMetadata.starting_time A
      = Z.min (BagMetadata.starting_time M) (BagMetadata.starting_time m)).
Proof.
  cbv zeta.
  destruct (aggregate_fields env M m) as (_ & _ & _ & _ & Hstart & Htopics).
  cbv zeta in Hstart, Htopics. rewrite Hstart, Htopics.
  split; [| split; [apply prefix_app_r; reflexivity |]; split].
  - f_equal.
    unfold WriterAggregate.get_topics_no_duplicates,
      WriterAggregate.topic_already_exists.
    apply list_filter_iff. intros ti.
    rewrite negb_true_iff, existsb_false_elem, Forall_forall.
    reflexivity.
  - intros ti. rewrite elem_of_app.
    unfold WriterAggregate.get_topics_no_duplicates,
      WriterAggregate.topic_already_exists.
    rewrite list_elem_of_filter, negb_true_iff.
    pose proof (existsb_false_elem (topic_information_call env ti)
                  (BagMetadata.topics_with_message_count M)) as Hex.
    rewrite Hex. tauto.
  - destruct (Z.ltb_spec (BagMetadata.starting_time m)
                (BagMetadata.starting_time M));
      destruct (Z.eqb_spec (BagMetadata.starting_time m) 0);
      cbn [andb negb];
      (split; [lia |]); split; intros; lia.
Qed.

Lemma aggregate_merge_topics_and_start_witness :
  let env := Examples.env_of 10 true in
  let M := BagMetadata.with_starting_time 50
             (BagMetadata.with_topics_with_message_count
                [TopicInformation.mk Examples.chatter 3] BagMetadata.empty) in
  let m := BagMetadata.with_topics_with_message_count
             [TopicInformation.mk Examples.chatter_again 1;
              TopicInformation.mk Examples.odom 2] BagMetadata.empty in
  BagMetadata.starting_time (WriterAggregate.aggregate env M m) = 50
  /\ TopicInformation.mk Examples.odom 2
       ∈ BagMetadata.topics_with_message_count
           (WriterAggregate.aggregate env M m).
Proof.
  cbv zeta.
  match goal with
  | |- BagMetadata.starting_time (WriterAggregate.aggregate ?env ?M ?m) = _
       /\ _ =>
      destruct (aggregate_merge_topics_and_start env M m)
        as (_ & _ & Hin & _ & Hzero & _)
  end.
  cbv zeta in Hin, Hzero. split.
  - apply Hzero. reflexivity.
  - apply Hin. right. split.
    + apply (bool_decide_unpack _); vm_compute; exact I.
    + intros prev Hprev. apply list_elem_of_singleton in Hprev as ->.
      reflexivity.
Defined.

Lemma wrap_int64_add_l (a b : Z) :
  wrap_int64 (wrap_int64 a + b) = wrap_int64 (a + b).
Proof.
  unfold wrap_int64. f_equal.
  replace ((a + 2 ^ 63) mod 2 ^ 64 - 2 ^ 63 + b + 2 ^ 63)
    with ((a + 2 ^ 63) mod 2 ^ 64 + b) by lia.
  rewrite Zplus_mod_idemp_l. f_equal. lia.
Qed.

(** X26: merging the metadata of several files one after the other, as the
    rollovers and the destructor do, adds up the message counts modulo 2^64
    and the durations on 64 signed bits (once a file has been merged, the
    duration is the sum of all durations brought back into the range of
    [int64_t]), keeps every topic of the first aggregate as a prefix, never
    moves the starting time later, and ends with the file list, the bag size
    and the storage identifier of the last file merged. *)
Theorem aggregate_sequence
  (env : Env) (files : list BagMetadata.t) (M : BagMetadata.t) :
  let A := foldl (WriterAggregate.aggregate env) M files in
  wrap64 (BagMetadata.message_count A)
  = wrap64 (BagMetadata.message_count M
            + foldr Z.add 0 (BagMetadata.message_count <$> files))
  /\ BagMetadata.duration A
     = match files with
       | [] => BagMetadata.duration M
       | _ :: _ =>
           wrap_int64 (BagMetadata.duration M
                       + foldr Z.add 0 (BagMetadata.duration <$> files))
       end
  /\ BagMetadata.topics_with_message_count M
       `prefix_of` BagMetadata.topics_with_message_count A
  /\ BagMetadata.starting_time A <= BagMetadata.starting_time M
  /\ BagMetadata.relative_file_paths A
     = BagMetadata.relative_file_paths (default M (last files))
  /\ BagMetadata.bag_size A = BagMetadata.bag_size (default M (last files))
  /\ BagMetadata.storage_identifier A
     = BagMetadata.storage_identifier (default M (last files)).
Proof.
  cbv zeta. revert M.
  induction files as [| m files IH]; intros M.
  - cbn. rewrite Z.add_0_r. repeat split; reflexivity || lia.
  - cbn [foldl fmap list_fmap foldr].
    destruct (IH (WriterAggregate.aggregate env M m))
      as (Hcount & Hduration & Hprefix & Hstart & Hpaths & Hsize & Hid).
    destruct (aggregate_fields env M m)
      as (Hid1 & Hsize1 & Hcount1 & Hduration1 & _ & Htopics1).
    pose proof (aggregate_starting_time_le env M m) as Hstart1.
    cbv zeta in *.
    assert (Hlast :
      default M (last (m :: files))
      = default (WriterAggregate.aggregate env M m) (last files)
      \/ (files = [] /\ default M (last (m :: files)) = m)).
    { destruct files as [| m' files']; [right; auto | left].
      rewrite last_cons. destruct (last (m' :: files')) eqn:Hl;
        [reflexivity |]. apply last_None in Hl. discriminate. }
    split.
    { rewrite Hcount, Hcount1. unfold add64, wrap64.
      rewrite Zplus_mod_idemp_l. f_equal. lia. }
    split.
    { rewrite Hduration, Hduration1. unfold add_int64.
      destruct files as [| m' files'].
      - cbn [fmap list_fmap foldr]. f_equal. lia.
      - rewrite wrap_int64_add_l. f_equal. lia. }
    split.
    { etransitivity; [| exact Hprefix]. rewrite Htopics1.
      apply prefix_app_r. reflexivity. }
    split; [lia |].
    destruct Hlast as [-> | [-> ->]].
    + auto.
    + cbn [foldl]. rewrite aggregate_relative_file_paths. auto.
Qed.

(** X27: [write] of the aggregating writer on an open session keeps the
    handle and always returns. With the threshold at the no-split value it
    calls the converter (if any) and the storage write and nothing else: the
    backend is not even asked for the size, and the metadata is not touched.
    With a threshold it asks for the size once, after the storage write, and
    the metadata becomes the merge of the aggregate with what the backend
    reports exactly when the size exceeds the threshold. *)
Theorem aggregate_write_metadata
  (env : Env) (w : WriterAggregate.Writer) (st : Storage.t)
  (m : SerializedBagMessage.t) :
  WriterAggregate.storage_ w = Some st ->
  exists (w' : WriterAggregate.Writer) (written asked : list Event),
    WriterAggregate.write env m w = (inr tt, w')
    /\ WriterAggregate.storage_ w' = Some st
    /\ written
       = WriterAggregate.world w
           ++ (if WriterAggregate.converter_ w then [ev_convert m] else [])
           ++ [ev_write (Storage.relative_path st)
                 (if WriterAggregate.converter_ w
                  then converter_convert env m else m)]
    /\ asked = written ++ [ev_get_bagfile_size (Storage.relative_path st)]
    /\ (WriterAggregate.max_bagfile_size_ w = MAX_BAGFILE_SIZE_NO_SPLIT env ->
        WriterAggregate.world w' = written
        /\ WriterAggregate.metadata_ w' = WriterAggregate.metadata_ w)
    /\ (WriterAggregate.max_bagfile_size_ w ≠ MAX_BAGFILE_SIZE_NO_SPLIT env ->
        (WriterAggregate.max_bagfile_size_ w
           <? storage_get_bagfile_size env written st) = true ->
        WriterAggregate.metadata_ w'
        = WriterAggregate.aggregate env (WriterAggregate.metadata_ w)
            (storage_get_metadata env asked st)
        /\ WriterAggregate.world w'
           = asked ++ [ev_get_metadata (Storage.relative_path st);
                       ev_split_database (Storage.relative_path st)])
    /\ (WriterAggregate.max_bagfile_size_ w ≠ MAX_BAGFILE_SIZE_NO_SPLIT env ->
        (WriterAggregate.max_bagfile_size_ w
           <? storage_get_bagfile_size env written st) = false ->
        WriterAggregate.metadata_ w' = WriterAggregate.metadata_ w
        /\ WriterAggregate.world w' = asked).
Proof.
  intros Hst.
  unfold WriterAggregate.write, WriterAggregate.should_split_database,
    WriterAggregate.aggregate_metadata_.
  rewrite bind_gets, Hst.
  repeat aggregate_step.
  destruct (WriterAggregate.converter_ w); repeat aggregate_step;
    (case_bool_decide as Hmax; repeat aggregate_step;
     [destruct (_ <? _) eqn:Hsplit; repeat aggregate_step |];
     unfold WriterAggregate.emit, modify, ret;
     eexists _, _, _;
     (split; [reflexivity |]); aggregate_fields;
     (split; [exact Hst |]);
     (split; [reflexivity |]); (split; [reflexivity |]);
     rewrite <- ?app_assoc in *; cbn [app] in *;
     (split; [| split]); intros H1; try intros H2;
     try contradiction; try congruence;
     split; reflexivity).
Qed.

Lemma aggregate_write_metadata_witness :
  exists w' : WriterAggregate.Writer,
    WriterAggregate.write (Examples.env_of 20 true) Examples.hello
      (Examples.aggregate_session (Examples.env_of 20 true) 10)
    = (inr tt, w')
    /\ BagMetadata.relative_file_paths (WriterAggregate.metadata_ w')
       = ["bag"].
Proof.
  destruct (aggregate_write_metadata (Examples.env_of 20 true)
              (Examples.aggregate_session (Examples.env_of 20 true) 10)
              (Storage.mk "bag" "sqlite3") Examples.hello
              ltac:(vm_compute; reflexivity))
    as (w' & written & asked & Hw & _ & Hwritten & Hasked & _ & Hsplit & _).
  exists w'. split; [exact Hw |].
  subst written asked.
  destruct (Hsplit ltac:(vm_compute; discriminate)
                   ltac:(vm_compute; reflexivity)) as [Hmd _].
  rewrite Hmd. vm_compute. reflexivity.
Defined.

(** [open] of the aggregating writer, case by case. *)
Lemma aggregate_open_eq
  (env : Env) (uri storage_id : string) (max_bagfile_size : Z)
  (input output : string) (w : WriterAggregate.Writer) :
  let prepared :=
    WriterAggregate.mk
      (factory_open_read_write env uri storage_id)
      (if bool_decide (output ≠ input) then true
       else WriterAggregate.converter_ w)
      (WriterAggregate.max_bagfile_size_ w)
      (WriterAggregate.uri_ w)
      (WriterAggregate.metadata_ w)
      (WriterAggregate.world w ++ [ev_open_read_write uri storage_id]) in
  WriterAggregate.open env uri storage_id max_bagfile_size input output w
  = match factory_open_read_write env uri storage_id with
    | None => (inl (runtime_error no_storage), prepared)
    | Some st =>
        (inr tt,
         WriterAggregate.with_metadata_
           (BagMetadata.with_bag_size 0
              (BagMetadata.with_duration 0
                 (BagMetadata.with_starting_time INT64_MAX
                    (BagMetadata.with_topics_with_message_count []
                       (BagMetadata.with_message_count 0
                          (WriterAggregate.metadata_ w))))))
           (WriterAggregate.with_max_bagfile_size_ max_bagfile_size
              (WriterAggregate.with_uri_ uri prepared)))
    end.
Proof.
  cbv zeta.
  unfold WriterAggregate.open, WriterAggregate.initialize_metadata_.
  case_bool_decide; repeat aggregate_step;
    (destruct (factory_open_read_write env _ _) as [st |] eqn:Hopen;
     [ repeat aggregate_step; unfold modify; reflexivity
     | reflexivity ]).
Qed.

(** The destructor of the aggregating writer, case by case. *)
Lemma aggregate_destroy_eq (env : Env) (w : WriterAggregate.Writer) :
  WriterAggregate.destroy env w
  = if bool_decide (WriterAggregate.uri_ w ≠ EmptyString)
    then match WriterAggregate.storage_ w with
         | None => (inl null_dereference, w)
         | Some st =>
             let merged :=
               WriterAggregate.aggregate env (WriterAggregate.metadata_ w)
                 (storage_get_metadata env (WriterAggregate.world w) st) in
             (inr tt,
              WriterAggregate.mk None
                (WriterAggregate.converter_ w)
                (WriterAggregate.max_bagfile_size_ w)
                (WriterAggregate.uri_ w)
                merged
                (WriterAggregate.world w
                   ++ [ev_get_metadata (Storage.relative_path st);
                       ev_write_metadata (WriterAggregate.uri_ w) merged]))
         end
    else (inr tt, WriterAggregate.with_storage_ None w).
Proof.
  unfold WriterAggregate.destroy, WriterAggregate.aggregate_metadata_.
  rewrite bind_get.
  case_bool_decide as Huri.
  - destruct (WriterAggregate.storage_ w) as [st |] eqn:Hst.
    + repeat aggregate_step.
      unfold modify. aggregate_fields.
      rewrite <- app_assoc. reflexivity.
    + unfold bind at 1 2. unfold WriterAggregate.deref_storage at 1.
      rewrite Hst. reflexivity.
  - repeat aggregate_step. unfold modify. reflexivity.
Qed.

(** X28: [open] of the aggregating writer succeeds exactly when the factory
    returns a handle for the uri itself. Only then are the uri and the
    threshold recorded and the counters of the metadata reset (message
    count, topics, duration, bag size, starting time); the file list and the
    storage identifier of the metadata are kept as they were. When it fails
    it throws "No storage could be initialized. Abort" and uri, threshold
    and metadata are those of before; the writer has no storage. *)
Theorem aggregate_open_outcome
  (env : Env) (uri storage_id : string) (max_bagfile_size : Z)
  (input output : string) (w : WriterAggregate.Writer) :
  let r := WriterAggregate.open env uri storage_id max_bagfile_size
             input output w in
  let handle := factory_open_read_write env uri storage_id in
  let md := WriterAggregate.metadata_ w in
  let md' := WriterAggregate.metadata_ (after r) in
  WriterAggregate.storage_ (after r) = handle
  /\ WriterAggregate.world (after r)
     = WriterAggregate.world w ++ [ev_open_read_write uri storage_id]
  /\ BagMetadata.relative_file_paths md' = BagMetadata.relative_file_paths md
  /\ BagMetadata.storage_identifier md' = BagMetadata.storage_identifier md
  /\ (is_Some handle ->
      outcome r = inr tt
      /\ WriterAggregate.uri_ (after r) = uri
      /\ WriterAggregate.max_bagfile_size_ (after r) = max_bagfile_size
      /\ BagMetadata.message_count md' = 0
      /\ BagMetadata.topics_with_message_count md' = []
      /\ BagMetadata.duration md' = 0
      /\ BagMetadata.bag_size md' = 0
      /\ BagMetadata.starting_time md' = INT64_MAX)
  /\ (handle = None ->
      outcome r = inl (runtime_error no_storage)
      /\ WriterAggregate.uri_ (after r) = WriterAggregate.uri_ w
      /\ WriterAggregate.max_bagfile_size_ (after r)
         = WriterAggregate.max_bagfile_size_ w
      /\ md' = md).
Proof.
  cbv zeta. rewrite aggregate_open_eq. cbv zeta.
  destruct (factory_open_read_write env _ _) as [st |] eqn:Hopen;
    unfold outcome, after; cbn [fst snd]; aggregate_fields.
  - split; [reflexivity |]. split; [reflexivity |].
    split; [destruct (WriterAggregate.metadata_ w); reflexivity |].
    split; [destruct (WriterAggregate.metadata_ w); reflexivity |].
    split; [| discriminate].
    intros _. destruct (WriterAggregate.metadata_ w).
    repeat (split; [reflexivity |]). reflexivity.
  - split; [reflexivity |]. split; [reflexivity |].
    split; [reflexivity |]. split; [reflexivity |].
    split; [intros [st Hst]; discriminate |].
    intros _. repeat (split; [reflexivity |]). reflexivity.
Qed.

Lemma aggregate_open_outcome_witness :
  let env := Examples.env_of 20 true in
  let r := WriterAggregate.open env "bag" "sqlite3" 10 "cdr" "cdr"
             (WriterAggregate.Writer_new env) in
  outcome r = inr tt
  /\ WriterAggregate.uri_ (after r) = "bag"
  /\ WriterAggregate.max_bagfile_size_ (after r) = 10.
Proof.
  cbv zeta.
  destruct (aggregate_open_outcome (Examples.env_of 20 true)
              "bag" "sqlite3" 10 "cdr" "cdr"
              (WriterAggregate.Writer_new (Examples.env_of 20 true)))
    as (_ & _ & _ & _ & Hok & _).
  destruct (Hok ltac:(vm_compute; eexists; reflexivity))
    as (Hout & Huri & Hmax & _).
  split; [exact Hout |]. split; [exact Huri | exact Hmax].
Defined.

(** X29: the destructor of the aggregating writer. With no uri recorded it
    calls nothing and releases the handle; this is the case of a writer that
    was never opened, and of a new writer whose [open] failed. With a uri
    and an open handle it asks the backend for the metadata of the active
    file, merges it into the aggregate and persists the result under the
    uri, in that order, and releases the handle. *)
Theorem aggregate_destroy_persists_merge
  (env : Env) (w : WriterAggregate.Writer) :
  let r := WriterAggregate.destroy env w in
  (WriterAggregate.uri_ w = EmptyString ->
   r = (inr tt, WriterAggregate.with_storage_ None w))
  /\ (forall st : Storage.t,
         WriterAggregate.uri_ w ≠ EmptyString ->
         WriterAggregate.storage_ w = Some st ->
         let merged :=
           WriterAggregate.aggregate env (WriterAggregate.metadata_ w)
             (storage_get_metadata env (WriterAggregate.world w) st) in
         outcome r = inr tt
         /\ WriterAggregate.storage_ (after r) = None
         /\ WriterAggregate.metadata_ (after r) = merged
         /\ WriterAggregate.world (after r)
            = WriterAggregate.world w
                ++ [ev_get_metadata (Storage.relative_path st);
                    ev_write_metadata (WriterAggregate.uri_ w) merged])
  /\ (forall (uri storage_id : string) (max : Z) (input output : string),
         WriterAggregate.uri_ w = EmptyString ->
         outcome (WriterAggregate.open env uri storage_id max input output w)
         ≠ inr tt ->
         let failed :=
           after (WriterAggregate.open env uri storage_id max input output w)
         in
         outcome (WriterAggregate.destroy env failed) = inr tt
         /\ WriterAggregate.world (after (WriterAggregate.destroy env failed))
            = WriterAggregate.world failed).
Proof.
  cbv zeta. split; [| split].
  - intros Huri. rewrite aggregate_destroy_eq.
    rewrite bool_decide_eq_false_2 by (intros Hne; contradiction).
    reflexivity.
  - intros st Hne Hst. rewrite aggregate_destroy_eq.
    rewrite bool_decide_eq_true_2 by exact Hne.
    rewrite Hst. cbv zeta. unfold outcome, after. cbn [fst snd].
    aggregate_fields.
    repeat (split; [reflexivity |]). reflexivity.
  - intros uri storage_id max input output Huri.
    rewrite aggregate_open_eq. cbv zeta.
    destruct (factory_open_read_write env _ _) as [st |] eqn:Hopen;
      unfold outcome at 1, after at 1 2 3; cbn [fst snd];
      intros Hfail; [contradiction Hfail; reflexivity |].
    rewrite aggregate_destroy_eq. aggregate_fields.
    rewrite bool_decide_eq_false_2 by (intros Hne; contradiction).
    unfold outcome, after. cbn [fst snd]. aggregate_fields.
    split; reflexivity.
Qed.

Lemma aggregate_destroy_persists_merge_witness :
  let env := Examples.env_of 20 true in
  let w := Examples.aggregate_session env 10 in
  outcome (WriterAggregate.destroy env w) = inr tt
  /\ last (WriterAggregate.world (after (WriterAggregate.destroy env w)))
     = Some (ev_write_metadata "bag"
               (WriterAggregate.metadata_
                  (after (WriterAggregate.destroy env w)))).
Proof.
  cbv zeta.
  destruct (proj1 (proj2
              (aggregate_destroy_persists_merge (Examples.env_of 20 true)
                 (Examples.aggregate_session (Examples.env_of 20 true) 10)))
              (Storage.mk "bag" "sqlite3")
              ltac:(vm_compute; discriminate)
              ltac:(vm_compute; reflexivity))
    as (Hout & _ & Hmd & Hworld).
  split; [exact Hout |].
  rewrite Hworld, Hmd. vm_compute. reflexivity.
Defined.

(** X30: [open] of writer.cpp records the uri, the threshold and the storage
    identifier and uses up one file index before it asks the factory, so
    they stay changed when it fails with "No storage could be initialized.
    Abort"; a second [open] after a failed one on a new writer therefore
    asks for the file with suffix [_1]. The times are reset only on success.
    Registry, session total and file list are never touched by [open]. *)
Theorem poc_open_outcome
  (env : Env) (uri storage_id : string) (max_bagfile_size : Z)
  (input output : string) (w : WriterPoC.Writer) :
  let r := WriterPoC.open env uri storage_id max_bagfile_size
             input output w in
  let name suffix := fs_concat env [uri; fs_get_folder_name env uri +:+ suffix]
  in
  let bagfile_uri :=
    name (if 0 <? WriterPoC.bagfile_counter_ w
          then "_" +:+ pretty (WriterPoC.bagfile_counter_ w)
          else EmptyString) in
  let handle := factory_open_read_write env bagfile_uri storage_id in
  WriterPoC.storage_ (after r) = handle
  /\ WriterPoC.world (after r)
     = WriterPoC.world w ++ [ev_open_read_write bagfile_uri storage_id]
  /\ WriterPoC.uri_ (after r) = uri
  /\ WriterPoC.max_bagfile_size_ (after r) = max_bagfile_size
  /\ WriterPoC.storage_id_ (after r) = storage_id
  /\ WriterPoC.bagfile_counter_ (after r)
     = (WriterPoC.bagfile_counter_ w + 1) mod 2 ^ 64
  /\ WriterPoC.topics_ (after r) = WriterPoC.topics_ w
  /\ WriterPoC.message_count_ (after r) = WriterPoC.message_count_ w
  /\ WriterPoC.relative_file_paths_ (after r)
     = WriterPoC.relative_file_paths_ w
  /\ (is_Some handle ->
      outcome r = inr tt
      /\ WriterPoC.start_time_ (after r) = INT64_MAX
      /\ WriterPoC.end_time_ (after r) = INT64_MIN)
  /\ (handle = None ->
      outcome r = inl (runtime_error no_storage)
      /\ WriterPoC.start_time_ (after r) = WriterPoC.start_time_ w
      /\ WriterPoC.end_time_ (after r) = WriterPoC.end_time_ w
      /\ (WriterPoC.bagfile_counter_ w = 0 ->
          WriterPoC.world
            (after (WriterPoC.open env uri storage_id max_bagfile_size
                      input output (after r)))
          = WriterPoC.world w
              ++ [ev_open_read_write (name EmptyString) storage_id;
                  ev_open_read_write (name "_1") storage_id])).
Proof.
  cbv zeta. rewrite poc_open_eq. cbv zeta.
  destruct (factory_open_read_write env _ _) as [st |] eqn:Hopen;
    unfold outcome, after; cbn [fst snd]; poc_fields.
  - repeat (split; [reflexivity |]).
    split; [| discriminate].
    intros _. repeat (split; [reflexivity |]). reflexivity.
  - repeat (split; [reflexivity |]).
    split; [intros [st Hst]; discriminate |].
    intros _. repeat (split; [reflexivity |]).
    intros Hzero. rewrite poc_open_eq. cbv zeta. poc_fields.
    rewrite Hzero.
    change (incr64 0) with 1%Z.
    change (0 <? 1)%Z with true. change (0 <? 0)%Z with false. cbv iota.
    change (pretty 1%Z) with "1". change ("_" +:+ "1") with "_1".
    destruct (factory_open_read_write env
                (fs_concat env [uri; fs_get_folder_name env uri +:+ "_1"])
                storage_id);
      cbn [snd]; poc_fields; rewrite <- app_assoc; reflexivity.
Qed.

Lemma poc_open_outcome_witness :
  let env := Examples.env_of 10 true in
  let r := WriterPoC.open env "bag" "sqlite3" 0 "cdr" "cdr"
             (WriterPoC.Writer_new env) in
  outcome r = inr tt
  /\ WriterPoC.start_time_ (after r) = INT64_MAX
  /\ WriterPoC.end_time_ (after r) = INT64_MIN.
Proof.
  cbv zeta.
  destruct (poc_open_outcome (Examples.env_of 10 true)
              "bag" "sqlite3" 0 "cdr" "cdr"
              (WriterPoC.Writer_new (Examples.env_of 10 true)))
    as (_ & _ & _ & _ & _ & _ & _ & _ & _ & Hok & _).
  exact (Hok ltac:(vm_compute; eexists; reflexivity)).
Defined.

(** * The order of rollover and storage write inside [write], in full *)

Lemma no_write_cons (e : Event) (l : list Event) :
  Spec.no_write (e :: l) = negb (is_ev_write e) && Spec.no_write l.
Proof. reflexivity. Qed.

Lemma write_is_last_call_app (l1 l2 : list Event) :
  Spec.no_write l1 = true ->
  Spec.write_is_last_call l2 = true ->
  Spec.write_is_last_call (l1 ++ l2) = true.
Proof.
  intros H1. unfold Spec.write_is_last_call.
  rewrite reverse_app.
  destruct (reverse l2) as [| [] rest]; try discriminate.
  cbn [app]. intros H2.
  rewrite no_write_app, H2, no_write_reverse, H1. reflexivity.
Qed.

Lemma compression_write_rollover
  (env : Env) (w : WriterCompression.Writer) (st : Storage.t)
  (m : SerializedBagMessage.t) (info : TopicInformation.t) :
  WriterCompression.storage_ w = Some st ->
  WriterCompression.topics_names_to_info_ w
    !! SerializedBagMessage.topic_name m = Some info ->
  let mode :=
    WriterCompression.mode (WriterCompression.compression_options_ w) in
  let converted :=
    if WriterCompression.converter_ w then converter_convert env m else m in
  let payload :=
    if bool_decide (mode = MESSAGE)
    then compressor_compress_bag_message_data env converted else converted in
  let hand_over (file : string) :=
    (if WriterCompression.converter_ w then [ev_convert m] else [])
    ++ (if bool_decide (mode = MESSAGE)
        then [ev_compress_bag_message_data converted] else [])
    ++ [ev_write file payload] in
  let paths :=
    BagMetadata.relative_file_paths (WriterCompression.metadata_ w) in
  let next_uri :=
    WriterCompression.format_storage_uri env
      (WriterCompression.base_folder_ w) (Z.of_nat (length paths)) in
  let id := BagMetadata.storage_identifier (WriterCompression.metadata_ w) in
  let current := Storage.relative_path st in
  exists (res : exn + unit) (w' : WriterCompression.Writer)
         (calls : list Event),
    WriterCompression.write env m w = (res, w')
    /\ WriterCompression.world w'
       = WriterCompression.world w ++ ev_get_bagfile_size current :: calls
    /\ existsb is_ev_open_read_write calls
       = (102400 <?
            storage_get_bagfile_size env (WriterCompression.world w) st)
    /\ match res with
       | inr _ => Spec.write_is_last_call calls = true
       | inl _ => Spec.no_write calls = true
       end
    /\ if 102400 <?
            storage_get_bagfile_size env (WriterCompression.world w) st
       then
         match factory_open_read_write env next_uri id with
         | None =>
             res = inl (runtime_error (failed_to_rollover next_uri))
             /\ WriterCompression.storage_ w' = None
             /\ calls = [ev_open_read_write next_uri id]
         | Some new_storage =>
             WriterCompression.storage_ w' = Some new_storage
             /\ exists recreate : list Event,
                  recreate
                  ≡ₚ map (fun topic : string * TopicInformation.t =>
                            ev_create_topic
                              (Storage.relative_path new_storage)
                              (TopicInformation.topic_metadata topic.2))
                         (map_to_list
                            (WriterCompression.topics_names_to_info_ w'))
                  /\ if bool_decide (mode = FILE)
                     then
                       match compressor_compress_uri env current with
                       | inl e =>
                           res = inl e
                           /\ calls
                              = ev_open_read_write next_uri id
                                :: recreate ++ [ev_compress_uri current]
                       | inr compressed_uri =>
                           res = inr tt
                           /\ BagMetadata.relative_file_paths
                                (WriterCompression.metadata_ w')
                              = paths ++ [compressed_uri]
                           /\ calls
                              = ev_open_read_write next_uri id
                                :: recreate
                                ++ [ev_compress_uri current;
                                    ev_std_remove current]
                                ++ hand_over
                                     (Storage.relative_path new_storage)
                       end
                     else
                       res = inr tt
                       /\ BagMetadata.relative_file_paths
                            (WriterCompression.metadata_ w')
                          = paths ++ [current]
                       /\ calls
                          = ev_open_read_write next_uri id
                            :: recreate
                            ++ hand_over (Storage.relative_path new_storage)
         end
       else
         res = inr tt
         /\ WriterCompression.storage_ w' = Some st
         /\ BagMetadata.relative_file_paths (WriterCompression.metadata_ w')
            = paths
         /\ calls = hand_over current.
Proof.
  intros Hst Hlook. cbv zeta.
  unfold WriterCompression.write.
  rewrite bind_gets, Hst, bind_gets, Hlook, bind_modify.
  unfold bind at 1.
  rewrite (compression_should_split_bagfile_hardcoded env _ st)
    by (compression_fields; exact Hst).
  compression_fields.
  destruct (WriterCompression.mode (WriterCompression.compression_options_ w))
    eqn:Hmode.
  all: destruct (102400 <? _) eqn:Hsplit;
    [ unfold bind at 1;
      rewrite (compression_split_bagfile_eq env _ st)
        by (compression_fields; exact Hst);
      cbv zeta; compression_fields;
      destruct (factory_open_read_write env _ _) as [new_storage |] eqn:Hopen;
      [ rewrite ?Hmode; decide_modes | ]
    | ].
  all: try (compression_fields; unfold throw;
            eexists _, _, _; (split; [reflexivity |]); compression_fields;
            (split; [rewrite <- ?app_assoc; cbn [app]; reflexivity |]);
            (split; [reflexivity |]); (split; [reflexivity |]);
            (split; [reflexivity |]); split; reflexivity).
  all: try (destruct (compressor_compress_uri env (Storage.relative_path st))
              as [e | compressed_uri] eqn:Hcompress;
            [ rewrite (compression_compress_file_throws _ _ e)
                by exact Hcompress;
              compression_fields;
              eexists _, _, _; (split; [reflexivity |]); compression_fields;
              (split; [rewrite <- ?app_assoc; cbn [app]; reflexivity |]);
              (split; [reflexivity |]);
              (split; [rewrite no_write_cons, no_write_app,
                         no_write_create_topics; reflexivity |]);
              (split; [reflexivity |]);
              eexists; (split; [reflexivity |]); split; reflexivity
            | rewrite (compression_compress_file_returns_eq _ _ compressed_uri)
                by exact Hcompress; compression_fields ]).
  all: repeat compression_step;
    destruct (WriterCompression.converter_ w);
    repeat compression_step;
    rewrite ?Hmode; decide_modes;
    repeat compression_step;
    unfold WriterCompression.emit, modify;
    eexists _, _, _; (split; [reflexivity |]); compression_fields;
    (split; [rewrite <- ?app_assoc; cbn [app]; reflexivity |]);
    (split; [reflexivity |]);
    (split;
     [ first
         [ reflexivity
         | rewrite app_comm_cons; apply write_is_last_call_app;
           [ rewrite no_write_cons, no_write_create_topics; reflexivity
           | reflexivity ] ] |]);
    first
      [ (split; [reflexivity |]); (split; [exact Hst |]);
        (split; [destruct (WriterCompression.metadata_ w); reflexivity |]);
        reflexivity
      | (split; [reflexivity |]);
        eexists; (split; [reflexivity |]);
        (split; [reflexivity |]); split; reflexivity ].
Qed.

Lemma poc_write_rollover
  (env : Env) (w : WriterPoC.Writer) (st : Storage.t)
  (m : SerializedBagMessage.t) :
  WriterPoC.storage_ w = Some st ->
  let converted :=
    if WriterPoC.converter_ w then converter_convert env m else m in
  let hand_over (file : string) :=
    (if WriterPoC.converter_ w then [ev_convert m] else [])
    ++ [ev_write file converted] in
  let next_uri :=
    fs_concat env
      [WriterPoC.uri_ w;
       fs_get_folder_name env (WriterPoC.uri_ w)
         +:+ (if 0 <? WriterPoC.bagfile_counter_ w
              then "_" +:+ pretty (WriterPoC.bagfile_counter_ w)
              else EmptyString)] in
  let id := WriterPoC.storage_id_ w in
  let size_call := ev_get_bagfile_size (Storage.relative_path st) in
  let current_uri :=
    factory_get_current_uri env (WriterPoC.world w ++ [size_call]) in
  let compression_state := compressor_compress_uri_state env current_uri in
  exists (res : exn + unit) (w' : WriterPoC.Writer) (calls : list Event),
    WriterPoC.write env m w = (res, w')
    /\ WriterPoC.world w' = WriterPoC.world w ++ size_call :: calls
    /\ existsb is_ev_open_read_write calls
       = (102400 <? storage_get_bagfile_size env (WriterPoC.world w) st)
    /\ match res with
       | inr _ => Spec.write_is_last_call calls = true
       | inl _ => Spec.no_write calls = true
       end
    /\ if 102400 <? storage_get_bagfile_size env (WriterPoC.world w) st
       then
         match factory_open_read_write env next_uri id with
         | None =>
             res = inl (runtime_error no_storage)
             /\ WriterPoC.storage_ w' = None
             /\ calls = [ev_open_read_write next_uri id]
         | Some new_storage =>
             res = inr tt
             /\ WriterPoC.storage_ w' = Some new_storage
             /\ WriterPoC.relative_file_paths_ w'
                = WriterPoC.relative_file_paths_ w
                    ++ [if CompressionState.compression_success
                             compression_state
                        then CompressionState.compressed_uri
                               compression_state
                        else next_uri]
             /\ exists recreate : list Event,
                  recreate
                  ≡ₚ map (fun topic : string * TopicInformation.t =>
                            ev_create_topic
                              (Storage.relative_path new_storage)
                              (TopicInformation.topic_metadata topic.2))
                         (map_to_list (WriterPoC.topics_ w'))
                  /\ calls
                     = ev_open_read_write next_uri id
                       :: recreate
                       ++ [ev_compress_uri current_uri]
                       ++ hand_over (Storage.relative_path new_storage)
         end
       else
         res = inr tt
         /\ WriterPoC.storage_ w' = Some st
         /\ WriterPoC.relative_file_paths_ w'
            = WriterPoC.relative_file_paths_ w
         /\ calls = hand_over (Storage.relative_path st).
Proof.
  intros Hst. cbv zeta.
  unfold WriterPoC.write.
  rewrite bind_gets, Hst, !bind_modify.
  unfold bind at 1.
  rewrite (poc_should_split_bagfile_hardcoded env _ st)
    by (poc_fields; exact Hst).
  poc_fields.
  destruct (102400 <? _) eqn:Hsplit;
    [ unfold bind at 1; rewrite poc_split_bagfile_eq; cbv zeta; poc_fields;
      destruct (factory_open_read_write env _ _) as [new_storage |] eqn:Hopen;
      [ | unfold throw;
          eexists _, _, _; (split; [reflexivity |]); poc_fields;
          (split; [rewrite <- ?app_assoc; cbn [app]; reflexivity |]);
          (split; [reflexivity |]); (split; [reflexivity |]);
          (split; [reflexivity |]); split; reflexivity ]
    | ].
  all: repeat poc_step; destruct (WriterPoC.converter_ w);
    repeat poc_step; unfold WriterPoC.emit, modify;
    eexists _, _, _; (split; [reflexivity |]); poc_fields;
    (split; [rewrite <- ?app_assoc; cbn [app]; reflexivity |]);
    (split; [reflexivity |]);
    (split;
     [ first
         [ reflexivity
         | rewrite app_comm_cons; apply write_is_last_call_app;
           [ rewrite no_write_cons, no_write_create_topics; reflexivity
           | reflexivity ] ] |]);
    first
      [ (split; [reflexivity |]); (split; [exact Hst |]);
        split; reflexivity
      | (split; [reflexivity |]); (split; [reflexivity |]);
        (split; [reflexivity |]);
        eexists; split; reflexivity ].
Qed.

Lemma aggregate_write_order
  (env : Env) (w : WriterAggregate.Writer) (st : Storage.t)
  (m : SerializedBagMessage.t) :
  WriterAggregate.storage_ w = Some st ->
  let file := Storage.relative_path st in
  exists (w' : WriterAggregate.Writer) (pre post : list Event)
         (m' : SerializedBagMessage.t),
    WriterAggregate.write env m w = (inr tt, w')
    /\ WriterAggregate.world w'
       = WriterAggregate.world w ++ pre ++ ev_write file m' :: post
    /\ (pre = [] \/ pre = [ev_convert m])
    /\ Spec.no_write post = true
    /\ existsb is_ev_split_database post
       = Spec.should_split
           (Spec.configured_threshold env (WriterAggregate.max_bagfile_size_ w))
           (storage_get_bagfile_size env
              (WriterAggregate.world w ++ pre ++ [ev_write file m']) st)
    /\ WriterAggregate.storage_ w' = Some st
    /\ pre = (if WriterAggregate.converter_ w then [ev_convert m] else [])
    /\ m' = (if WriterAggregate.converter_ w
             then converter_convert env m else m)
    /\ post
       = (if bool_decide (WriterAggregate.max_bagfile_size_ w
                          ≠ MAX_BAGFILE_SIZE_NO_SPLIT env)
          then ev_get_bagfile_size file
               :: (if WriterAggregate.max_bagfile_size_ w
                      <? storage_get_bagfile_size env
                           (WriterAggregate.world w
                              ++ pre ++ [ev_write file m']) st
                   then [ev_get_metadata file; ev_split_database file]
                   else [])
          else []).
Proof.
  intros Hst. cbv zeta.
  unfold WriterAggregate.write, WriterAggregate.should_split_database,
    WriterAggregate.aggregate_metadata_, Spec.configured_threshold.
  rewrite bind_gets, Hst.
  repeat aggregate_step.
  destruct (WriterAggregate.converter_ w); repeat aggregate_step;
    (case_bool_decide as Hmax; repeat aggregate_step;
     [destruct (_ <? _) eqn:Hsplit; repeat aggregate_step |];
     unfold WriterAggregate.emit, modify, ret).
  - exists_aggregate_write [ev_convert m]
      [ev_get_bagfile_size (Storage.relative_path st);
       ev_get_metadata (Storage.relative_path st);
       ev_split_database (Storage.relative_path st)].
    rewrite app_assoc, Hsplit.
    split; [reflexivity |]. split; [exact Hst |]. repeat split.
  - exists_aggregate_write [ev_convert m]
      [ev_get_bagfile_size (Storage.relative_path st)].
    rewrite app_assoc, Hsplit.
    split; [reflexivity |]. split; [exact Hst |]. repeat split.
  - exists_aggregate_write [ev_convert m] (@nil Event).
    split; [reflexivity |]. split; [exact Hst |]. repeat split.
  - exists_aggregate_write (@nil Event)
      [ev_get_bagfile_size (Storage.relative_path st);
       ev_get_metadata (Storage.relative_path st);
       ev_split_database (Storage.relative_path st)].
    cbn [app]. rewrite Hsplit.
    split; [reflexivity |]. split; [exact Hst |]. repeat split.
  - exists_aggregate_write (@nil Event)
      [ev_get_bagfile_size (Storage.relative_path st)].
    cbn [app]. rewrite Hsplit.
    split; [reflexivity |]. split; [exact Hst |]. repeat split.
  - exists_aggregate_write (@nil Event) (@nil Event).
    split; [reflexivity |]. split; [exact Hst |]. repeat split.
Qed.

(** C3 as stated fails on the aggregating writer: with threshold 10 and a
    backend reporting 20 bytes, [write] hands the message to the storage
    backend first, then asks for the size and splits; the storage write is
    not the last call of the [write]. *)
Lemma aggregate_write_splits_after_storage_write :
  let env := Examples.env_of 20 true in
  let w := Examples.aggregate_session env 10 in
  let r := WriterAggregate.write env Examples.hello w in
  WriterAggregate.storage_ w = Some (Storage.mk "bag" "sqlite3")
  /\ outcome r = inr tt
  /\ WriterAggregate.world (after r)
     = WriterAggregate.world w
         ++ [ev_write "bag" Examples.hello;
             ev_get_bagfile_size "bag";
             ev_get_metadata "bag";
             ev_split_database "bag"]
  /\ Spec.write_is_last_call
       [ev_write "bag" Examples.hello;
        ev_get_bagfile_size "bag";
        ev_get_metadata "bag";
        ev_split_database "bag"] = false.
Proof. vm_compute. repeat split; reflexivity. Qed.

(** C3, amended. In the writer with compression options (for a registered
    topic) and in writer.cpp, every [write] on an open session first asks
    the backend for the size of the active file. If the policy fires, the
    rollover follows: the factory is asked for the next file, what it
    returns becomes the active handle, every registered topic is re-created
    on it, the finished file is handed to the compressor where the writer
    does so, and the file list gains one entry. The message (converted if a
    converter is active, compressed in [MESSAGE] mode) is then handed to the
    handle that is active now, as the last call; without a rollover it goes
    to the handle of before. A [write] that throws has handed no message to
    a backend. In the aggregating writer every [write] on an open session
    returns, hands the message (converted if a converter is active) to the
    backend first, and asks for the size and splits after that. In all three
    the message is handed over once, by one call. *)
Theorem write_rollover_order :
  (forall (env : Env) (w : WriterCompression.Writer) (st : Storage.t)
          (m : SerializedBagMessage.t) (info : TopicInformation.t),
      WriterCompression.storage_ w = Some st ->
      WriterCompression.topics_names_to_info_ w
        !! SerializedBagMessage.topic_name m = Some info ->
      let mode :=
        WriterCompression.mode (WriterCompression.compression_options_ w) in
      let converted :=
        if WriterCompression.converter_ w then converter_convert env m else m in
      let payload :=
        if bool_decide (mode = MESSAGE)
        then compressor_compress_bag_message_data env converted else converted in
      let hand_over (file : string) :=
        (if WriterCompression.converter_ w then [ev_convert m] else [])
        ++ (if bool_decide (mode = MESSAGE)
            then [ev_compress_bag_message_data converted] else [])
        ++ [ev_write file payload] in
      let paths :=
        BagMetadata.relative_file_paths (WriterCompression.metadata_ w) in
      let next_uri :=
        WriterCompression.format_storage_uri env
          (WriterCompression.base_folder_ w) (Z.of_nat (length paths)) in
      let id := BagMetadata.storage_identifier (WriterCompression.metadata_ w) in
      let current := Storage.relative_path st in
      exists (res : exn + unit) (w' : WriterCompression.Writer)
             (calls : list Event),
        WriterCompression.write env m w = (res, w')
        /\ WriterCompression.world w'
           = WriterCompression.world w ++ ev_get_bagfile_size current :: calls
        /\ existsb is_ev_open_read_write calls
           = (102400 <?
                storage_get_bagfile_size env (WriterCompression.world w) st)
        /\ match res with
           | inr _ => Spec.write_is_last_call calls = true
           | inl _ => Spec.no_write calls = true
           end
        /\ if 102400 <?
                storage_get_bagfile_size env (WriterCompression.world w) st
           then
             match factory_open_read_write env next_uri id with
             | None =>
                 res = inl (runtime_error (failed_to_rollover next_uri))
                 /\ WriterCompression.storage_ w' = None
                 /\ calls = [ev_open_read_write next_uri id]
             | Some new_storage =>
                 WriterCompression.storage_ w' = Some new_storage
                 /\ exists recreate : list Event,
                      recreate
                      ≡ₚ map (fun topic : string * TopicInformation.t =>
                                ev_create_topic
                                  (Storage.relative_path new_storage)
                                  (TopicInformation.topic_metadata topic.2))
                             (map_to_list
                                (WriterCompression.topics_names_to_info_ w'))
                      /\ if bool_decide (mode = FILE)
                         then
                           match compressor_compress_uri env current with
                           | inl e =>
                               res = inl e
                               /\ calls
                                  = ev_open_read_write next_uri id
                                    :: recreate ++ [ev_compress_uri current]
                           | inr compressed_uri =>
                               res = inr tt
                               /\ BagMetadata.relative_file_paths
                                    (WriterCompression.metadata_ w')
                                  = paths ++ [compressed_uri]
                               /\ calls
                                  = ev_open_read_write next_uri id
                                    :: recreate
                                    ++ [ev_compress_uri current;
                                        ev_std_remove current]
                                    ++ hand_over
                                         (Storage.relative_path new_storage)
                           end
                         else
                           res = inr tt
                           /\ BagMetadata.relative_file_paths
                                (WriterCompression.metadata_ w')
                              = paths ++ [current]
                           /\ calls
                              = ev_open_read_write next_uri id
                                :: recreate
                                ++ hand_over (Storage.relative_path new_storage)
             end
           else
             res = inr tt
             /\ WriterCompression.storage_ w' = Some st
             /\ BagMetadata.relative_file_paths (WriterCompression.metadata_ w')
                = paths
             /\ calls = hand_over current)
  /\ (forall (env : Env) (w : WriterPoC.Writer) (st : Storage.t)
             (m : SerializedBagMessage.t),
      WriterPoC.storage_ w = Some st ->
      let converted :=
        if WriterPoC.converter_ w then converter_convert env m else m in
      let hand_over (file : string) :=
        (if WriterPoC.converter_ w then [ev_convert m] else [])
        ++ [ev_write file converted] in
      let next_uri :=
        fs_concat env
          [WriterPoC.uri_ w;
           fs_get_folder_name env (WriterPoC.uri_ w)
             +:+ (if 0 <? WriterPoC.bagfile_counter_ w
                  then "_" +:+ pretty (WriterPoC.bagfile_counter_ w)
                  else EmptyString)] in
      let id := WriterPoC.storage_id_ w in
      let size_call := ev_get_bagfile_size (Storage.relative_path st) in
      let current_uri :=
        factory_get_current_uri env (WriterPoC.world w ++ [size_call]) in
      let compression_state := compressor_compress_uri_state env current_uri in
      exists (res : exn + unit) (w' : WriterPoC.Writer) (calls : list Event),
        WriterPoC.write env m w = (res, w')
        /\ WriterPoC.world w' = WriterPoC.world w ++ size_call :: calls
        /\ existsb is_ev_open_read_write calls
           = (102400 <? storage_get_bagfile_size env (WriterPoC.world w) st)
        /\ match res with
           | inr _ => Spec.write_is_last_call calls = true
           | inl _ => Spec.no_write calls = true
           end
        /\ if 102400 <? storage_get_bagfile_size env (WriterPoC.world w) st
           then
             match factory_open_read_write env next_uri id with
             | None =>
                 res = inl (runtime_error no_storage)
                 /\ WriterPoC.storage_ w' = None
                 /\ calls = [ev_open_read_write next_uri id]
             | Some new_storage =>
                 res = inr tt
                 /\ WriterPoC.storage_ w' = Some new_storage
                 /\ WriterPoC.relative_file_paths_ w'
                    = WriterPoC.relative_file_paths_ w
                        ++ [if CompressionState.compression_success
                                 compression_state
                            then CompressionState.compressed_uri
                                   compression_state
                            else next_uri]
                 /\ exists recreate : list Event,
                      recreate
                      ≡ₚ map (fun topic : string * TopicInformation.t =>
                                ev_create_topic
                                  (Storage.relative_path new_storage)
                                  (TopicInformation.topic_metadata topic.2))
                             (map_to_list (WriterPoC.topics_ w'))
                      /\ calls
                         = ev_open_read_write next_uri id
                           :: recreate
                           ++ [ev_compress_uri current_uri]
                           ++ hand_over (Storage.relative_path new_storage)
             end
           else
             res = inr tt
             /\ WriterPoC.storage_ w' = Some st
             /\ WriterPoC.relative_file_paths_ w'
                = WriterPoC.relative_file_paths_ w
             /\ calls = hand_over (Storage.relative_path st))
  /\ (forall (env : Env) (w : WriterAggregate.Writer) (st : Storage.t)
             (m : SerializedBagMessage.t),
      WriterAggregate.storage_ w = Some st ->
      let file := Storage.relative_path st in
      exists (w' : WriterAggregate.Writer) (pre post : list Event)
             (m' : SerializedBagMessage.t),
        WriterAggregate.write env m w = (inr tt, w')
        /\ WriterAggregate.world w'
           = WriterAggregate.world w ++ pre ++ ev_write file m' :: post
        /\ (pre = [] \/ pre = [ev_convert m])
        /\ Spec.no_write post = true
        /\ existsb is_ev_split_database post
           = Spec.should_split
               (Spec.configured_threshold env (WriterAggregate.max_bagfile_size_ w))
               (storage_get_bagfile_size env
                  (WriterAggregate.world w ++ pre ++ [ev_write file m']) st)
        /\ WriterAggregate.storage_ w' = Some st
        /\ pre = (if WriterAggregate.converter_ w then [ev_convert m] else [])
        /\ m' = (if WriterAggregate.converter_ w
                 then converter_convert env m else m)
        /\ post
           = (if bool_decide (WriterAggregate.max_bagfile_size_ w
                              ≠ MAX_BAGFILE_SIZE_NO_SPLIT env)
              then ev_get_bagfile_size file
                   :: (if WriterAggregate.max_bagfile_size_ w
                          <? storage_get_bagfile_size env
                               (WriterAggregate.world w
                                  ++ pre ++ [ev_write file m']) st
                       then [ev_get_metadata file; ev_split_database file]
                       else [])
              else [])).
Proof.
  split; [| split].
  - exact compression_write_rollover.
  - exact poc_write_rollover.
  - exact aggregate_write_order.
Qed.

Lemma write_rollover_order_witness :
  let env := Examples.env_of 102401 true in
  let wc := after (WriterCompression.create_topic Examples.chatter
                     (Examples.compression_session env 0 FILE)) in
  let wp := after (WriterPoC.create_topic Examples.chatter
                     (Examples.poc_session env 0)) in
  let wa := Examples.aggregate_session env 10 in
  (exists (res : exn + unit) (w' : WriterCompression.Writer)
          (calls : list Event),
      WriterCompression.write env Examples.hello wc = (res, w')
      /\ WriterCompression.world w'
         = WriterCompression.world wc ++ ev_get_bagfile_size "bag/bag" :: calls
      /\ existsb is_ev_open_read_write calls = true
      /\ match res with
         | inr _ => Spec.write_is_last_call calls = true
         | inl _ => Spec.no_write calls = true
         end
      /\ res = inr tt
      /\ WriterCompression.storage_ w' = Some (Storage.mk "bag/bag" "sqlite3")
      /\ last calls = Some (ev_write "bag/bag" Examples.hello))
  /\ (exists (res : exn + unit) (w' : WriterPoC.Writer) (calls : list Event),
         WriterPoC.write env Examples.hello wp = (res, w')
         /\ WriterPoC.world w'
            = WriterPoC.world wp ++ ev_get_bagfile_size "bag/bag" :: calls
         /\ existsb is_ev_open_read_write calls = true
         /\ match res with
            | inr _ => Spec.write_is_last_call calls = true
            | inl _ => Spec.no_write calls = true
            end)
  /\ (exists (w' : WriterAggregate.Writer) (pre post : list Event)
             (m' : SerializedBagMessage.t),
         WriterAggregate.write env Examples.hello wa = (inr tt, w')
         /\ WriterAggregate.world w'
            = WriterAggregate.world wa ++ pre ++ ev_write "bag" m' :: post
         /\ (pre = [] \/ pre = [ev_convert Examples.hello])
         /\ Spec.no_write post = true
         /\ existsb is_ev_split_database post = true).
Proof.
  cbv zeta.
  destruct write_rollover_order as (Hc & Hp & Ha).
  split; [| split].
  - destruct (Hc (Examples.env_of 102401 true)
                (after (WriterCompression.create_topic Examples.chatter
                          (Examples.compression_session
                             (Examples.env_of 102401 true) 0 FILE)))
                (Storage.mk "bag/bag" "sqlite3") Examples.hello
                (TopicInformation.mk Examples.chatter 0)
                ltac:(vm_compute; reflexivity) ltac:(vm_compute; reflexivity))
      as (res & w' & calls & Heq & Hworld & Hopen & Hlast & Hroll).
    exists res, w', calls.
    split; [exact Heq |]. split; [exact Hworld |]. split; [exact Hopen |].
    split; [exact Hlast |].
    cbv zeta in Hroll.
    change (102400 <? storage_get_bagfile_size (Examples.env_of 102401 true)
                        _ _) with true in Hroll.
    cbv iota in Hroll.
    change (factory_open_read_write (Examples.env_of 102401 true) _ _)
      with (Some (Storage.mk "bag/bag" "sqlite3")) in Hroll.
    cbv iota in Hroll.
    destruct Hroll as (Hhandle & recreate & _ & Hrest).
    change (bool_decide (_ = FILE)) with true in Hrest.
    change (compressor_compress_uri (Examples.env_of 102401 true) _)
      with (@inr exn string "bag/bag.zstd") in Hrest.
    cbv iota in Hrest.
    destruct Hrest as (Hres & _ & Hcalls).
    split; [exact Hres |]. split; [exact Hhandle |].
    rewrite Hcalls.
    change (ev_open_read_write ?u ?i :: recreate ++ ?a ++ ?b)
      with ((ev_open_read_write u i :: recreate) ++ a ++ b).
    rewrite !last_app. reflexivity.
  - destruct (Hp (Examples.env_of 102401 true)
                (after (WriterPoC.create_topic Examples.chatter
                          (Examples.poc_session
                             (Examples.env_of 102401 true) 0)))
                (Storage.mk "bag/bag" "sqlite3") Examples.hello
                ltac:(vm_compute; reflexivity))
      as (res & w' & calls & Heq & Hworld & Hopen & Hlast & _).
    exists res, w', calls.
    split; [exact Heq |]. split; [exact Hworld |]. split; [exact Hopen |].
    exact Hlast.
  - destruct (Ha (Examples.env_of 102401 true)
                (Examples.aggregate_session (Examples.env_of 102401 true) 10)
                (Storage.mk "bag" "sqlite3") Examples.hello
                ltac:(vm_compute; reflexivity))
      as (w' & pre & post & m' & Heq & Hworld & Hpre & Hpost & Hsplit & _).
    exists w', pre, post, m'.
    split; [exact Heq |]. split; [exact Hworld |]. split; [exact Hpre |].
    split; [exact Hpost |]. exact Hsplit.
Defined.
